(** * usps-tracking-status: the worker of [src/index.ts]

    A shallow embedding of the Cloudflare worker that ingests ShipStation
    shipments, stores their tracking numbers in a D1 (SQLite) table, searches
    them, renders USPS tracking URLs and applies status updates.

    The worker is asynchronous code over three host capabilities: the D1
    database ([prepare]/[bind]/[all]/[batch]), the HTTP client ([fetch]) and
    [btoa].  Every [await] on one of them is a node of a program tree
    ([Prog]); running a tree against a handler of the calls gives the value,
    the final world and the ordered log of the calls made.  JavaScript
    exceptions are values of [Completion]. *)

From Stdlib Require Import String Ascii List ZArith NArith Lia Bool Arith.
From Stdlib Require Import DecimalString Sorted Permutation.
Import ListNotations.
Open Scope list_scope.
Open Scope string_scope.

Set Implicit Arguments.

(* ================================================================== *)
(** * Data model (the interfaces at the top of index.ts)               *)
(* ================================================================== *)

(** [interface TrackingNumber]: one row of the table [tracking_numbers].
    [order_number] is [string | null]. *)
Record TrackingNumber : Type := mkRow {
  tracking_number : string;
  order_number : option string;
  status : string;
  created_at : string;
  updated_at : string
}.

(** [interface ShipmentData]. *)
Record ShipmentData : Type := mkShipment {
  trackingNumber : string;
  orderNumber : string
}.

(** An element of [ShipStationResponse.shipments] as the API sends it: the
    two fields the worker reads, and whatever else the object carries. *)
Record RawShipment : Type := mkRaw {
  raw_trackingNumber : string;
  raw_orderNumber : string;
  raw_other : list (string * string)
}.

(** [interface StatusUpdate]. *)
Record StatusUpdate : Type := mkUpdate {
  upd_tracking_number : string;
  upd_status : string
}.

(** [interface ShipStationResponse], as parsed from a response body: the
    [shipments] field may be missing. *)
Record ShipStationResponse : Type := mkSSR {
  shipments : option (list RawShipment);
  total : Z;
  page : Z;
  pages : Z
}.

(** [interface SearchParams]: five optional strings. *)
Record SearchParams : Type := mkParams {
  p_tracking_number : option string;
  p_order_number : option string;
  p_status : option string;
  p_created_after : option string;
  p_created_before : option string
}.

(** [interface Env], without the database handle (the database is reached
    through the calls below). *)
Record Env : Type := mkEnv {
  SHIPSTATION_API_KEY : string;
  SHIPSTATION_API_SECRET : string
}.

(** A thrown JavaScript value: an [Error] with its message, or anything
    else (a value with no [message]). *)
Inductive Thrown : Type :=
| ThrownError (message : string)
| ThrownOther.

(** The outcome of an expression that may throw. *)
Inductive Completion (A : Type) : Type :=
| Normal (a : A)
| Throw (e : Thrown).

Arguments Normal {A} a.
Arguments Throw {A} e.

(** The [Response] of [fetch]: [ok], [status], the body as text and the
    body as [json()] gives it (which throws on a body that is not JSON). *)
Record Response : Type := mkResponse {
  ok : bool;
  resp_status : N;
  resp_text : string;
  resp_json : Completion ShipStationResponse
}.

(** A prepared statement with its bound values: [stmt.bind(...)]. *)
Record BoundStatement : Type := mkBound {
  bs_sql : string;
  bs_args : list string
}.

(** What a handler answers: the JSON payload and the HTTP status (the
    headers are in [WorkerResponse], with the router). *)
Inductive Payload : Type :=
| SearchResults (results : list TrackingNumber) (count : nat)
| Urls (urls : list string)
| Success
| ErrorMessage (error : string).

Record Reply : Type := mkReply {
  reply_payload : Payload;
  reply_status : N
}.

(* ================================================================== *)
(** * Host calls and programs                                          *)
(* ================================================================== *)

(** The calls the worker awaits. *)
Inductive Call : Type :=
| Btoa (input : string)
| Fetch (url : string) (authorization : string)
| D1All (sql : string) (bindings : list string)
| D1Batch (statements : list BoundStatement).

(** What each call gives back. *)
Definition Answer (c : Call) : Type :=
  match c with
  | Btoa _ => string
  | Fetch _ _ => Completion Response
  | D1All _ _ => Completion (list TrackingNumber)
  | D1Batch _ => Completion unit
  end.

(** A program: a value, or a call and what to do with its answer. *)
Inductive Prog (R : Type) : Type :=
| Ret (r : R)
| Do (c : Call) (k : Answer c -> Prog R).

Arguments Ret {R} r.
Arguments Do {R} c k.

Fixpoint bind {A B : Type} (m : Prog A) (f : A -> Prog B) : Prog B :=
  match m with
  | Ret a => f a
  | Do c k => Do c (fun x => bind (k x) f)
  end.

(** Sequencing of code that may throw: a thrown value skips the rest. *)
Definition bindE {A B : Type} (m : Prog (Completion A))
    (f : A -> Prog (Completion B)) : Prog (Completion B) :=
  bind m (fun r => match r with
                   | Normal a => f a
                   | Throw e => Ret (Throw e)
                   end).

Notation "x <- m ;; k" := (bindE m (fun x => k))
  (at level 61, m at next level, right associativity).

(** A handler answers each call in a world of type [W]. *)
Definition Handler (W : Type) : Type := forall c : Call, W -> Answer c * W.

(** Running a program: its value, the final world, the calls in order. *)
Fixpoint run {W R : Type} (h : Handler W) (p : Prog R) (w : W)
    : R * W * list Call :=
  match p with
  | Ret r => (r, w, [])
  | Do c k =>
      let '(a, w1) := h c w in
      let '(r, w2, t) := run h (k a) w1 in
      (r, w2, c :: t)
  end.

Definition value_of {W R : Type} (x : R * W * list Call) : R := fst (fst x).
Definition world_of {W R : Type} (x : R * W * list Call) : W := snd (fst x).
Definition calls_of {W R : Type} (x : R * W * list Call) : list Call := snd x.

(* ================================================================== *)
(** * The search query builder (index.ts, lines 122-179)               *)
(* ================================================================== *)

(** [array.push(x)]. *)
Definition push {A : Type} (l : list A) (x : A) : list A := app l [x].

(** JavaScript truthiness of an optional string: present and not empty.
    This is both [url.searchParams.get(k) || undefined] and
    [if (params.k)]. *)
Definition truthy (o : option string) : option string :=
  match o with
  | Some (String c s) => Some (String c s)
  | _ => None
  end.

(** [parseSearchValue]: the operation and the value to compare with. *)
Definition parseSearchValue (value : string) : string * string :=
  match value with
  | String c rest =>
      if Ascii.eqb c "!" then ("!=", rest) else ("=", value)
  | EmptyString => ("=", value)
  end.

(** [handleSearch], lines 131-137: the five query parameters as
    [url.searchParams.get] gives them, each replaced by [undefined] when
    falsy. *)
Definition searchParamsOf (query : SearchParams) : SearchParams :=
  {| p_tracking_number := truthy (p_tracking_number query);
     p_order_number := truthy (p_order_number query);
     p_status := truthy (p_status query);
     p_created_after := truthy (p_created_after query);
     p_created_before := truthy (p_created_before query) |}.

(** [handleSearch], lines 140-179: the statement text and the bindings,
    both grown clause by clause. *)
Definition buildSearchQuery (params : SearchParams) : string * list string :=
  let sql := "SELECT * FROM tracking_numbers WHERE 1=1" in
  let bindings := @nil string in
  let '(sql, bindings) :=
    match truthy (p_tracking_number params) with
    | Some raw =>
        let '(operation, value) := parseSearchValue raw in
        (if operation =? "!="
         then sql ++ " AND tracking_number NOT LIKE ?"
         else sql ++ " AND tracking_number LIKE ?",
         push bindings ("%" ++ value ++ "%"))
    | None => (sql, bindings)
    end in
  let '(sql, bindings) :=
    match truthy (p_order_number params) with
    | Some raw =>
        let '(operation, value) := parseSearchValue raw in
        (if operation =? "!="
         then sql ++ " AND order_number NOT LIKE ?"
         else sql ++ " AND order_number LIKE ?",
         push bindings ("%" ++ value ++ "%"))
    | None => (sql, bindings)
    end in
  let '(sql, bindings) :=
    match truthy (p_status params) with
    | Some raw =>
        let '(operation, value) := parseSearchValue raw in
        (sql ++ " AND status " ++ operation ++ " ?", push bindings value)
    | None => (sql, bindings)
    end in
  let '(sql, bindings) :=
    match truthy (p_created_after params) with
    | Some raw => (sql ++ " AND created_at >= datetime(?)", push bindings raw)
    | None => (sql, bindings)
    end in
  let '(sql, bindings) :=
    match truthy (p_created_before params) with
    | Some raw => (sql ++ " AND created_at <= datetime(?)", push bindings raw)
    | None => (sql, bindings)
    end in
  (sql ++ " ORDER BY created_at ASC LIMIT 2000", bindings).

(** [error?.message || fallback]. *)
Definition message_or (e : Thrown) (fallback : string) : string :=
  match e with
  | ThrownError (String c s) => String c s
  | _ => fallback
  end.

(** [handleSearch]. *)
Definition handleSearch (query : SearchParams) : Prog Reply :=
  let params := searchParamsOf query in
  let '(sql, bindings) := buildSearchQuery params in
  Do (D1All sql bindings) (fun result =>
    match result with
    | Normal results =>
        Ret {| reply_payload := SearchResults results (List.length results);
               reply_status := 200 |}
    | Throw error =>
        Ret {| reply_payload :=
                 ErrorMessage (message_or error "Failed to search tracking numbers");
               reply_status := 500 |}
    end).

(* ================================================================== *)
(** * Tracking URLs (index.ts, lines 201-232)                          *)
(* ================================================================== *)

Definition nl : string := String (ascii_of_nat 10) EmptyString.
Definition tab : string := String (ascii_of_nat 9) EmptyString.

(** The statement of [handleGetTrackingUrls], with the white space of the
    template literal. *)
Definition TRACKING_URLS_SQL : string :=
  nl ++ tab ++ tab ++ tab ++ "SELECT tracking_number " ++
  nl ++ tab ++ tab ++ tab ++ "FROM tracking_numbers " ++
  nl ++ tab ++ tab ++ tab ++ "WHERE status != 'delivered'" ++
  nl ++ tab ++ tab ++ tab ++ "LIMIT 2000" ++
  nl ++ tab ++ tab.

(** The same statement in the two earlier versions of the worker (the
    unnamed source file): 300 rows, and in the oldest one the literal
    ['Delivered']. *)
Definition TRACKING_URLS_SQL_300 : string :=
  nl ++ tab ++ tab ++ tab ++ "SELECT tracking_number " ++
  nl ++ tab ++ tab ++ tab ++ "FROM tracking_numbers " ++
  nl ++ tab ++ tab ++ tab ++ "WHERE status != 'delivered'" ++
  nl ++ tab ++ tab ++ tab ++ "LIMIT 300" ++
  nl ++ tab ++ tab.

Definition TRACKING_URLS_SQL_300_CAPITAL : string :=
  nl ++ tab ++ tab ++ tab ++ "SELECT tracking_number " ++
  nl ++ tab ++ tab ++ tab ++ "FROM tracking_numbers " ++
  nl ++ tab ++ tab ++ tab ++ "WHERE status != 'Delivered'" ++
  nl ++ tab ++ tab ++ tab ++ "LIMIT 300" ++
  nl ++ tab ++ tab.

Definition USPS_PREFIX : string :=
  "https://tools.usps.com/go/TrackConfirmAction.action?tLabels=".

(** [array.slice(i, j)] for [0 <= i <= j]. *)
Definition slice {A : Type} (i j : nat) (l : list A) : list A :=
  firstn (j - i) (skipn i l).

(** The loop of lines 214-219: [fuel] bounds the number of turns, [i] is
    the loop variable, [urls] the array built so far. *)
Fixpoint urlLoop (fuel i : nat) (trackingNumbers urls : list string)
    : list string :=
  match fuel with
  | O => urls
  | S fuel' =>
      if (i <? List.length trackingNumbers)%nat then
        let chunk := slice i (i + 30) trackingNumbers in
        urlLoop fuel' (i + 30) trackingNumbers
          (push urls (USPS_PREFIX ++ String.concat "%2C" chunk))
      else urls
  end.

(** Lines 211-219.  The loop adds 30 to [i] at each turn, so it makes at
    most [length trackingNumbers] turns. *)
Definition trackingUrls (rows : list TrackingNumber) : list string :=
  let trackingNumbers := map tracking_number rows in
  urlLoop (List.length trackingNumbers) 0 trackingNumbers [].

(** [handleGetTrackingUrls], for a given statement text. *)
Definition handleGetTrackingUrlsWith (sql : string) : Prog Reply :=
  Do (D1All sql []) (fun result =>
    match result with
    | Normal rows =>
        Ret {| reply_payload := Urls (trackingUrls rows); reply_status := 200 |}
    | Throw _ =>
        Ret {| reply_payload := ErrorMessage "Failed to get tracking URLs";
               reply_status := 500 |}
    end).

Definition handleGetTrackingUrls : Prog Reply :=
  handleGetTrackingUrlsWith TRACKING_URLS_SQL.

(* ================================================================== *)
(** * Status updates (index.ts, lines 234-262)                         *)
(* ================================================================== *)

Definition UPDATE_SQL : string :=
  nl ++ tab ++ tab ++ "UPDATE tracking_numbers " ++
  nl ++ tab ++ tab ++ "SET status = ?, " ++
  nl ++ tab ++ tab ++ tab ++ "updated_at = datetime('now') " ++
  nl ++ tab ++ tab ++ "WHERE tracking_number = ?" ++
  nl ++ tab ++ "  ".

(** [handleStatusUpdates]; [body] is what [request.json()] gives. *)
Definition handleStatusUpdates (body : Completion (list StatusUpdate))
    : Prog Reply :=
  let failed := {| reply_payload := ErrorMessage "Failed to update statuses";
                   reply_status := 500 |} in
  match body with
  | Throw _ => Ret failed
  | Normal updates =>
      let batch :=
        map (fun update =>
               {| bs_sql := UPDATE_SQL;
                  bs_args := [upd_status update; upd_tracking_number update] |})
            updates in
      Do (D1Batch batch) (fun r =>
        match r with
        | Normal _ => Ret {| reply_payload := Success; reply_status := 200 |}
        | Throw _ => Ret failed
        end)
  end.

(* ================================================================== *)
(** * Ingestion (index.ts, lines 264-329)                              *)
(* ================================================================== *)

(** A number in a template literal: [`${n}`]. *)
Definition decimal (n : N) : string := NilZero.string_of_uint (N.to_uint n).

(** What [fetchShipStationPage] returns: a response whose [shipments] is
    there. *)
Record PageData : Type := mkPage {
  page_shipments : list RawShipment;
  page_pages : Z
}.

(** [fetchShipStationPage]. *)
Definition fetchShipStationPage (url credentials : string)
    : Prog (Completion PageData) :=
  Do (Fetch url ("Basic " ++ credentials)) (fun r =>
    match r with
    | Throw e => Ret (Throw e)
    | Normal response =>
        if negb (ok response) then
          Ret (Throw (ThrownError
                 ("ShipStation API error: " ++ decimal (resp_status response)
                  ++ " - " ++ resp_text response)))
        else
          match resp_json response with
          | Throw e => Ret (Throw e)
          | Normal data =>
              match shipments data with
              | None =>
                  Ret (Throw (ThrownError
                         "Invalid response format: missing shipments array"))
              | Some l =>
                  Ret (Normal {| page_shipments := l;
                                 page_pages := pages data |})
              end
          end
    end).

(** The loop of lines 301-305, [count] turns from [page] on: with
    [page = 2] and [count = pages - 1] these are the turns
    [page <= pages]. *)
Fixpoint fetchRemainingPages (baseUrl credentials : string) (count : nat)
    (page : Z) (allShipments : list RawShipment)
    : Prog (Completion (list RawShipment)) :=
  match count with
  | O => Ret (Normal allShipments)
  | S count' =>
      let pageUrl := baseUrl ++ "&page=" ++ decimal (Z.to_N page) in
      pageData <- fetchShipStationPage pageUrl credentials ;;
      fetchRemainingPages baseUrl credentials count' (page + 1)
        (app allShipments (page_shipments pageData))
  end.

Definition projectShipment (shipment : RawShipment) : ShipmentData :=
  {| trackingNumber := raw_trackingNumber shipment;
     orderNumber := raw_orderNumber shipment |}.

(** [fetchNewShipments].  [dateStr] is the ISO date of [daysBack] days
    before the current day (lines 287-289, which read the clock). *)
Definition fetchNewShipments (dateStr : string) (env : Env)
    : Prog (Completion (list ShipmentData)) :=
  Do (Btoa (SHIPSTATION_API_KEY env ++ ":" ++ SHIPSTATION_API_SECRET env))
     (fun credentials =>
    let baseUrl :=
      "https://ssapi.shipstation.com/shipments?shipDateStart=" ++ dateStr in
    firstPageData <- fetchShipStationPage baseUrl credentials ;;
    allShipments <-
      (if (1 <? page_pages firstPageData)%Z then
         fetchRemainingPages baseUrl credentials
           (Z.to_nat (page_pages firstPageData - 1)) 2
           (page_shipments firstPageData)
       else Ret (Normal (page_shipments firstPageData))) ;;
    Ret (Normal (map projectShipment allShipments))).

Definition INSERT_SQL : string :=
  nl ++ tab ++ "  INSERT INTO tracking_numbers (tracking_number, order_number, status, created_at) " ++
  nl ++ tab ++ "  VALUES (?, ?, 'pending', datetime('now'))" ++
  nl ++ tab ++ "  ON CONFLICT(tracking_number) DO NOTHING" ++
  nl ++ tab.

(** [storeNewTrackingNumbers]. *)
Definition storeNewTrackingNumbers (shipments : list ShipmentData)
    : Prog (Completion unit) :=
  if (List.length shipments =? 0)%nat then Ret (Normal tt)
  else
    let batch :=
      map (fun shipment =>
             {| bs_sql := INSERT_SQL;
                bs_args := [trackingNumber shipment; orderNumber shipment] |})
          shipments in
    Do (D1Batch batch) (fun r => Ret r).

(* ================================================================== *)
(** * The host: [btoa], the network and the D1 store                   *)
(* ================================================================== *)

(** ** [btoa]: base64 of a byte string. *)

Definition BASE64 : string :=
  "ABCDEFGHIJKLMNOPQRSTUVWXYZabcdefghijklmnopqrstuvwxyz0123456789+/".

Definition base64_digit (n : N) : ascii :=
  match String.get (N.to_nat n) BASE64 with
  | Some c => c
  | None => "="%char
  end.

Fixpoint base64_encode (bytes : list N) : string :=
  match bytes with
  | [] => ""
  | a :: [] =>
      let n := (a * 65536)%N in
      String (base64_digit (n / 262144))
        (String (base64_digit ((n / 4096) mod 64)) "==")
  | a :: b :: [] =>
      let n := (a * 65536 + b * 256)%N in
      String (base64_digit (n / 262144))
        (String (base64_digit ((n / 4096) mod 64))
           (String (base64_digit ((n / 64) mod 64)) "="))
  | a :: b :: c :: rest =>
      let n := (a * 65536 + b * 256 + c)%N in
      String (base64_digit (n / 262144))
        (String (base64_digit ((n / 4096) mod 64))
           (String (base64_digit ((n / 64) mod 64))
              (String (base64_digit (n mod 64)) (base64_encode rest))))
  end.

Definition btoa (s : string) : string :=
  base64_encode (map N_of_ascii (list_ascii_of_string s)).

(** ** The statements the store understands.

    The store is SQLite behind D1.  The model reads a statement as its
    white-space separated words and knows the four statement forms of the
    worker: the search, the select of the rows that are not delivered, the
    insert that does nothing on a conflict, the update of a status. *)

Inductive Column : Type := TrackingNumberCol | OrderNumberCol.

Inductive Clause : Type :=
| Like (col : Column)
| NotLike (col : Column)
| StatusEq
| StatusNe
| CreatedGe
| CreatedLe.

Inductive Statement : Type :=
| SelectSearch (clauses : list Clause) (limit : N)
| SelectUndelivered (terminal : string) (limit : N)
| InsertPending
| UpdateStatus.

Definition is_space (c : ascii) : bool :=
  let n := N_of_ascii c in
  (n =? 32)%N || (n =? 9)%N || (n =? 10)%N || (n =? 13)%N.

(** The words of a statement; [cur] is the word being read. *)
Fixpoint sql_words_from (cur s : string) : list string :=
  match s with
  | EmptyString => if cur =? "" then [] else [cur]
  | String c s' =>
      if is_space c then
        if cur =? "" then sql_words_from "" s'
        else cur :: sql_words_from "" s'
      else sql_words_from (cur ++ String c "") s'
  end.

Definition sql_words (s : string) : list string := sql_words_from "" s.

(** [expected] taken off the front of [words]. *)
Fixpoint strip_words (expected words : list string) : option (list string) :=
  match expected with
  | [] => Some words
  | e :: es =>
      match words with
      | w :: ws => if e =? w then strip_words es ws else None
      | [] => None
      end
  end.

Definition column_name (col : Column) : string :=
  match col with
  | TrackingNumberCol => "tracking_number"
  | OrderNumberCol => "order_number"
  end.

Definition clause_words (c : Clause) : list string :=
  match c with
  | Like col => ["AND"; column_name col; "LIKE"; "?"]
  | NotLike col => ["AND"; column_name col; "NOT"; "LIKE"; "?"]
  | StatusEq => ["AND"; "status"; "="; "?"]
  | StatusNe => ["AND"; "status"; "!="; "?"]
  | CreatedGe => ["AND"; "created_at"; ">="; "datetime(?)"]
  | CreatedLe => ["AND"; "created_at"; "<="; "datetime(?)"]
  end.

Definition all_clauses : list Clause :=
  [Like TrackingNumberCol; NotLike TrackingNumberCol;
   Like OrderNumberCol; NotLike OrderNumberCol;
   StatusEq; StatusNe; CreatedGe; CreatedLe].

Definition digit_of (c : ascii) : option N :=
  let n := N_of_ascii c in
  if (48 <=? n)%N && (n <=? 57)%N then Some (n - 48)%N else None.

Fixpoint parse_digits (acc : N) (s : string) : option N :=
  match s with
  | EmptyString => Some acc
  | String c s' =>
      match digit_of c with
      | Some d => parse_digits (10 * acc + d)%N s'
      | None => None
      end
  end.

Definition parse_N (s : string) : option N :=
  match s with
  | EmptyString => None
  | _ => parse_digits 0%N s
  end.

(** A quoted literal without its quotes. *)
Definition unquote (w : string) : option string :=
  match list_ascii_of_string w with
  | q :: body =>
      match rev body with
      | q' :: ydob =>
          if Ascii.eqb q "'" && Ascii.eqb q' "'"
          then Some (string_of_list_ascii (rev ydob))
          else None
      | [] => None
      end
  | [] => None
  end.

(** The clauses after [WHERE 1=1], up to [ORDER BY created_at ASC LIMIT n]. *)
Fixpoint parse_where (fuel : nat) (words : list string)
    : option (list Clause * N) :=
  match strip_words ["ORDER"; "BY"; "created_at"; "ASC"; "LIMIT"] words with
  | Some [n] => option_map (fun k => ([], k)) (parse_N n)
  | Some _ => None
  | None =>
      match fuel with
      | O => None
      | S fuel' =>
          (fix try (cs : list Clause) : option (list Clause * N) :=
             match cs with
             | [] => None
             | c :: cs' =>
                 match strip_words (clause_words c) words with
                 | Some rest =>
                     match parse_where fuel' rest with
                     | Some (l, k) => Some (c :: l, k)
                     | None => None
                     end
                 | None => try cs'
                 end
             end) all_clauses
      end
  end.

Definition INSERT_WORDS : list string :=
  ["INSERT"; "INTO"; "tracking_numbers"; "(tracking_number,"; "order_number,";
   "status,"; "created_at)"; "VALUES"; "(?,"; "?,"; "'pending',";
   "datetime('now'))"; "ON"; "CONFLICT(tracking_number)"; "DO"; "NOTHING"].

Definition UPDATE_WORDS : list string :=
  ["UPDATE"; "tracking_numbers"; "SET"; "status"; "="; "?,"; "updated_at";
   "="; "datetime('now')"; "WHERE"; "tracking_number"; "="; "?"].

(** [db.prepare(sql)], [None] for a text that is none of the four forms. *)
Definition prepare (sql : string) : option Statement :=
  let words := sql_words sql in
  match strip_words ["SELECT"; "*"; "FROM"; "tracking_numbers"; "WHERE"; "1=1"]
          words with
  | Some rest =>
      match parse_where (List.length rest) rest with
      | Some (clauses, limit) => Some (SelectSearch clauses limit)
      | None => None
      end
  | None =>
      match strip_words ["SELECT"; "tracking_number"; "FROM"; "tracking_numbers";
                         "WHERE"; "status"; "!="] words with
      | Some [lit; kw; n] =>
          match unquote lit, parse_N n with
          | Some terminal, Some limit =>
              if kw =? "LIMIT" then Some (SelectUndelivered terminal limit)
              else None
          | _, _ => None
          end
      | Some _ => None
      | None =>
          match strip_words INSERT_WORDS words with
          | Some [] => Some InsertPending
          | _ =>
              match strip_words UPDATE_WORDS words with
              | Some [] => Some UpdateStatus
              | _ => None
              end
          end
      end
  end.

(** ** What the statements mean. *)

Definition to_lower (c : ascii) : ascii :=
  let n := N_of_ascii c in
  if (65 <=? n)%N && (n <=? 90)%N then ascii_of_N (n + 32) else c.

Definition like_char (c d : ascii) : bool :=
  Ascii.eqb (to_lower c) (to_lower d).

(** SQLite's [LIKE], read on bytes and with no limit on the pattern: [%]
    stands for any run of bytes, [_] for one byte, any other byte for
    itself, ASCII letters without regard to case.  [d1_like] below reads
    characters and has the limit of D1. *)
Fixpoint like (pattern : string) : string -> bool :=
  match pattern with
  | EmptyString =>
      fun s => match s with EmptyString => true | String _ _ => false end
  | String c p =>
      if Ascii.eqb c "%" then
        fix star (s : string) : bool :=
          like p s
          || match s with EmptyString => false | String _ s' => star s' end
      else if Ascii.eqb c "_" then
        fun s => match s with EmptyString => false | String _ s' => like p s' end
      else
        fun s =>
          match s with
          | EmptyString => false
          | String d s' => like_char c d && like p s'
          end
  end.

Definition column_value (col : Column) (r : TrackingNumber) : option string :=
  match col with
  | TrackingNumberCol => Some (tracking_number r)
  | OrderNumberCol => order_number r
  end.

(** The value of one clause on one row, [None] for SQL's NULL.
    [datetime] is SQLite's function of that name: the normal form of a
    time string, NULL for a string it cannot read. *)
Definition eval_clause (datetime : string -> option string) (c : Clause)
    (arg : string) (r : TrackingNumber) : option bool :=
  match c with
  | Like col => option_map (fun v => like arg v) (column_value col r)
  | NotLike col => option_map (fun v => negb (like arg v)) (column_value col r)
  | StatusEq => Some (status r =? arg)
  | StatusNe => Some (negb (status r =? arg))
  | CreatedGe => option_map (fun d => d <=? created_at r) (datetime arg)
  | CreatedLe => option_map (fun d => created_at r <=? d) (datetime arg)
  end.

(** [WHERE 1=1 AND c1 AND ...]: a row is kept when every clause is true. *)
Fixpoint where_holds (datetime : string -> option string)
    (clauses : list Clause) (args : list string) (r : TrackingNumber) : bool :=
  match clauses, args with
  | c :: cs, a :: rest =>
      match eval_clause datetime c a r with
      | Some true => where_holds datetime cs rest r
      | _ => false
      end
  | _, _ => true
  end.

(** [ORDER BY created_at ASC]: a stable insertion sort on the text of
    [created_at]. *)
Fixpoint insert_by_created_at (r : TrackingNumber) (l : list TrackingNumber)
    : list TrackingNumber :=
  match l with
  | [] => [r]
  | x :: l' =>
      if created_at r <=? created_at x then r :: l
      else x :: insert_by_created_at r l'
  end.

Definition order_by_created_at (l : list TrackingNumber) : list TrackingNumber :=
  fold_right insert_by_created_at [] l.

Definition limit_rows (limit : N) (l : list TrackingNumber)
    : list TrackingNumber :=
  firstn (N.to_nat limit) l.

Definition param_count (s : Statement) : nat :=
  match s with
  | SelectSearch clauses _ => List.length clauses
  | SelectUndelivered _ _ => 0
  | InsertPending => 2
  | UpdateStatus => 2
  end.

Definition has_tracking_number (tn : string) (t : list TrackingNumber) : bool :=
  existsb (fun r => tracking_number r =? tn) t.

(** [INSERT ... VALUES (?, ?, 'pending', datetime('now')) ON CONFLICT
    (tracking_number) DO NOTHING]; [updated_at] takes the default of the
    schema, the current time. *)
Definition insert_pending (now tn on : string) (t : list TrackingNumber)
    : list TrackingNumber :=
  if has_tracking_number tn t then t
  else app t [{| tracking_number := tn; order_number := Some on;
                 status := "pending"; created_at := now; updated_at := now |}].

(** [UPDATE ... SET status = ?, updated_at = datetime('now') WHERE
    tracking_number = ?]. *)
Definition update_status (now st tn : string) (t : list TrackingNumber)
    : list TrackingNumber :=
  map (fun r =>
         if tracking_number r =? tn then
           {| tracking_number := tracking_number r;
              order_number := order_number r;
              status := st;
              created_at := created_at r;
              updated_at := now |}
         else r) t.

(** One bound statement on the table [t] at time [now]: the rows it
    returns and the table after it. *)
Definition sqlite_exec (datetime : string -> option string) (now : string)
    (s : BoundStatement) (t : list TrackingNumber)
    : Completion (list TrackingNumber * list TrackingNumber) :=
  match prepare (bs_sql s) with
  | None => Throw (ThrownError "D1_ERROR: the statement is not understood")
  | Some stmt =>
      if negb (param_count stmt =? List.length (bs_args s))%nat then
        Throw (ThrownError
                 "D1_ERROR: Wrong number of parameter bindings for SQL query.")
      else
        match stmt with
        | SelectSearch clauses limit =>
            Normal
              (limit_rows limit
                 (order_by_created_at
                    (filter (where_holds datetime clauses (bs_args s)) t)),
               t)
        | SelectUndelivered terminal limit =>
            Normal
              (limit_rows limit
                 (filter (fun r => negb (status r =? terminal)) t),
               t)
        | InsertPending =>
            match bs_args s with
            | [tn; on] => Normal ([], insert_pending now tn on t)
            | _ => Normal ([], t)
            end
        | UpdateStatus =>
            match bs_args s with
            | [st; tn] => Normal ([], update_status now st tn t)
            | _ => Normal ([], t)
            end
        end
  end.

(** [db.batch]: the statements in order, all or nothing. *)
Fixpoint sqlite_batch (datetime : string -> option string) (now : string)
    (statements : list BoundStatement) (t : list TrackingNumber)
    : Completion (list TrackingNumber) :=
  match statements with
  | [] => Normal t
  | s :: rest =>
      match sqlite_exec datetime now s t with
      | Normal (_, t') => sqlite_batch datetime now rest t'
      | Throw e => Throw e
      end
  end.

(** The world of the worker: the table, the clock of the store (what
    [datetime('now')] gives) and the network (what a GET of a URL with an
    [Authorization] header gives). *)
Record World : Type := mkWorld {
  table : list TrackingNumber;
  clock : string;
  network : string -> string -> Completion Response
}.

Definition with_table (w : World) (t : list TrackingNumber) : World :=
  {| table := t; clock := clock w; network := network w |}.

Definition with_clock (w : World) (now : string) : World :=
  {| table := table w; clock := now; network := network w |}.

(** The host of the worker, with a SQLite store that has no limits: any
    pattern is taken, and a batch of no statement is run.  [d1_host]
    below is the host with the store as D1 runs it. *)
Definition host (datetime : string -> option string) : Handler World :=
  fun c =>
    match c return World -> Answer c * World with
    | Btoa input => fun w => (btoa input, w)
    | Fetch url authorization => fun w => (network w url authorization, w)
    | D1All sql bindings => fun w =>
        match sqlite_exec datetime (clock w)
                {| bs_sql := sql; bs_args := bindings |} (table w) with
        | Normal (rows, t') => (Normal rows, with_table w t')
        | Throw e => (Throw e, w)
        end
    | D1Batch statements => fun w =>
        match sqlite_batch datetime (clock w) statements (table w) with
        | Normal t' => (Normal tt, with_table w t')
        | Throw e => (Throw e, w)
        end
    end.

(** A part of [datetime], for the examples: the full form
    [YYYY-MM-DD HH:MM:SS] is its own normal form, a date alone is midnight
    of that day; NULL for anything else.  SQLite's function reads more
    forms (a [T] between the date and the time, a time without seconds)
    and checks the ranges of the fields; the theorems take [datetime] as a
    parameter, and the examples apply this one to dates of these two
    forms with fields in range and to texts that are no dates, where the
    two agree.  In [shape], [d] stands for a digit. *)
Fixpoint has_shape (shape s : string) : bool :=
  match shape, s with
  | EmptyString, EmptyString => true
  | String p ps, String c cs =>
      (if Ascii.eqb p "d"
       then match digit_of c with Some _ => true | None => false end
       else Ascii.eqb p c)
      && has_shape ps cs
  | _, _ => false
  end.

Definition datetime_iso (s : string) : option string :=
  if has_shape "dddd-dd-dd dd:dd:dd" s then Some s
  else if has_shape "dddd-dd-dd" s then Some (s ++ " 00:00:00")
  else None.

(** A store that refuses an empty batch, and is the host otherwise. *)
Definition strict_host (datetime : string -> option string) : Handler World :=
  fun c =>
    match c return World -> Answer c * World with
    | D1Batch [] => fun w =>
        (Throw (ThrownError "D1_ERROR: No SQL statements detected."), w)
    | c' => host datetime c'
    end.

(** A store whose every call throws [e], in a world with nothing in it. *)
Definition failing_store (e : Thrown) : Handler unit :=
  fun c =>
    match c return unit -> Answer c * unit with
    | Btoa input => fun w => (btoa input, w)
    | Fetch _ _ => fun w => (Throw e, w)
    | D1All _ _ => fun w => (Throw e, w)
    | D1Batch _ => fun w => (Throw e, w)
    end.

(* ================================================================== *)
(** * The store as D1 runs it                                          *)
(* ================================================================== *)

(** D1 is SQLite with limits of its own, and it is handed JavaScript
    strings as UTF-8 text.  Three things then differ from [host]: [LIKE]
    reads text character by character, so [_] stands for one character
    (one to four bytes); a [LIKE] whose pattern is longer than 50 bytes is
    an error when it is evaluated; and a batch of no statement is
    refused.  Text is taken to be well-formed UTF-8. *)

(** A byte [10xxxxxx], and a byte from [0xC0] on: SQLite reads a byte from
    [0xC0] on together with the bytes [10xxxxxx] that follow it as one
    character, and any other byte as a character of its own. *)
Definition is_continuation (c : ascii) : bool :=
  let n := N_of_ascii c in (128 <=? n)%N && (n <? 192)%N.

Definition is_lead (c : ascii) : bool := (192 <=? N_of_ascii c)%N.

Fixpoint drop_continuation (s : string) : string :=
  match s with
  | EmptyString => s
  | String c s' => if is_continuation c then drop_continuation s' else s
  end.

(** The text after its first character, if it has one. *)
Definition after_char (s : string) : option string :=
  match s with
  | EmptyString => None
  | String c s' => Some (if is_lead c then drop_continuation s' else s')
  end.

(** [LIKE] on UTF-8 text.  In the loop of [%], [inside] tells that the
    bytes read so far end in the middle of a character when the next byte
    is a continuation byte: the rest of the pattern is tried only where a
    character starts. *)
Fixpoint d1_like (pattern : string) : string -> bool :=
  match pattern with
  | EmptyString =>
      fun s => match s with EmptyString => true | String _ _ => false end
  | String c p =>
      if Ascii.eqb c "%" then
        (fix star (inside : bool) (s : string) : bool :=
           match s with
           | EmptyString => d1_like p s
           | String b s' =>
               (if inside && is_continuation b then false else d1_like p s)
               || star (is_lead b || (inside && is_continuation b)) s'
           end) false
      else if Ascii.eqb c "_" then
        fun s =>
          match after_char s with
          | Some s' => d1_like p s'
          | None => false
          end
      else
        fun s =>
          match s with
          | EmptyString => false
          | String d s' => like_char c d && d1_like p s'
          end
  end.

(** The longest pattern D1 lets [LIKE] take, in bytes. *)
Definition LIKE_PATTERN_LIMIT : nat := 50.

Definition pattern_too_complex : Thrown :=
  ThrownError "D1_ERROR: LIKE or GLOB pattern too complex: SQLITE_ERROR".

(** The value of one clause on one row; the length of the pattern is
    looked at before the column is, so a NULL column does not avoid the
    error. *)
Definition d1_eval_clause (datetime : string -> option string) (c : Clause)
    (arg : string) (r : TrackingNumber) : Completion (option bool) :=
  match c with
  | Like col =>
      if (LIKE_PATTERN_LIMIT <? String.length arg)%nat
      then Throw pattern_too_complex
      else Normal (option_map (fun v => d1_like arg v) (column_value col r))
  | NotLike col =>
      if (LIKE_PATTERN_LIMIT <? String.length arg)%nat
      then Throw pattern_too_complex
      else Normal (option_map (fun v => negb (d1_like arg v))
                     (column_value col r))
  | StatusEq => Normal (Some (status r =? arg))
  | StatusNe => Normal (Some (negb (status r =? arg)))
  | CreatedGe => Normal (option_map (fun d => d <=? created_at r) (datetime arg))
  | CreatedLe => Normal (option_map (fun d => created_at r <=? d) (datetime arg))
  end.

(** The clauses on one row, from left to right: a clause that is not
    true ends the row, and the clauses after it are not evaluated. *)
Fixpoint d1_where (datetime : string -> option string)
    (clauses : list Clause) (args : list string) (r : TrackingNumber)
    : Completion bool :=
  match clauses, args with
  | c :: cs, a :: rest =>
      match d1_eval_clause datetime c a r with
      | Throw e => Throw e
      | Normal (Some true) => d1_where datetime cs rest r
      | Normal _ => Normal false
      end
  | _, _ => Normal true
  end.

(** The scan of the table: every row is evaluated (the order of the
    result needs them all), and an error ends the statement. *)
Fixpoint d1_scan (datetime : string -> option string)
    (clauses : list Clause) (args : list string) (t : list TrackingNumber)
    : Completion (list TrackingNumber) :=
  match t with
  | [] => Normal []
  | r :: t' =>
      match d1_where datetime clauses args r with
      | Throw e => Throw e
      | Normal keep =>
          match d1_scan datetime clauses args t' with
          | Throw e => Throw e
          | Normal rows => Normal (if keep then r :: rows else rows)
          end
      end
  end.

(** One bound statement on D1: the search as above, the other statements
    as in [sqlite_exec]. *)
Definition d1_exec (datetime : string -> option string) (now : string)
    (s : BoundStatement) (t : list TrackingNumber)
    : Completion (list TrackingNumber * list TrackingNumber) :=
  match prepare (bs_sql s) with
  | Some (SelectSearch clauses limit) =>
      if negb (List.length clauses =? List.length (bs_args s))%nat then
        Throw (ThrownError
                 "D1_ERROR: Wrong number of parameter bindings for SQL query.")
      else
        match d1_scan datetime clauses (bs_args s) t with
        | Throw e => Throw e
        | Normal rows =>
            Normal (limit_rows limit (order_by_created_at rows), t)
        end
  | _ => sqlite_exec datetime now s t
  end.

Fixpoint d1_statements (datetime : string -> option string) (now : string)
    (statements : list BoundStatement) (t : list TrackingNumber)
    : Completion (list TrackingNumber) :=
  match statements with
  | [] => Normal t
  | s :: rest =>
      match d1_exec datetime now s t with
      | Normal (_, t') => d1_statements datetime now rest t'
      | Throw e => Throw e
      end
  end.

(** [db.batch] on D1: no statement is an error. *)
Definition d1_batch (datetime : string -> option string) (now : string)
    (statements : list BoundStatement) (t : list TrackingNumber)
    : Completion (list TrackingNumber) :=
  match statements with
  | [] => Throw (ThrownError "D1_ERROR: No SQL statements detected.")
  | _ :: _ => d1_statements datetime now statements t
  end.

(** The host with D1 as its store. *)
Definition d1_host (datetime : string -> option string) : Handler World :=
  fun c =>
    match c return World -> Answer c * World with
    | Btoa input => fun w => (btoa input, w)
    | Fetch url authorization => fun w => (network w url authorization, w)
    | D1All sql bindings => fun w =>
        match d1_exec datetime (clock w)
                {| bs_sql := sql; bs_args := bindings |} (table w) with
        | Normal (rows, t') => (Normal rows, with_table w t')
        | Throw e => (Throw e, w)
        end
    | D1Batch statements => fun w =>
        match d1_batch datetime (clock w) statements (table w) with
        | Normal t' => (Normal tt, with_table w t')
        | Throw e => (Throw e, w)
        end
    end.

(* ================================================================== *)
(** * The vocabulary of the specification                              *)
(* ================================================================== *)

(** ** Search requests. *)

(** What the text of a search statement may depend on: for a string
    filter, whether it is absent, plain or negated; for a date filter,
    whether it is there. *)
Inductive FilterShape : Type := Absent | Plain | Negated.

Record QueryShape : Type := mkShape {
  sh_tracking_number : FilterShape;
  sh_order_number : FilterShape;
  sh_status : FilterShape;
  sh_created_after : bool;
  sh_created_before : bool
}.

(** The raw value begins with [!]. *)
Definition negated (raw : string) : bool :=
  match raw with
  | String c _ => Ascii.eqb c "!"
  | EmptyString => false
  end.

(** The raw value without its leading [!], if it has one. *)
Definition stripped (raw : string) : string :=
  match raw with
  | String c rest => if Ascii.eqb c "!" then rest else raw
  | EmptyString => raw
  end.

Definition supplied (o : option string) : bool :=
  match truthy o with Some _ => true | None => false end.

Definition string_shape (o : option string) : FilterShape :=
  match truthy o with
  | None => Absent
  | Some raw => if negated raw then Negated else Plain
  end.

Definition shape_of (q : SearchParams) : QueryShape :=
  {| sh_tracking_number := string_shape (p_tracking_number q);
     sh_order_number := string_shape (p_order_number q);
     sh_status := string_shape (p_status q);
     sh_created_after := supplied (p_created_after q);
     sh_created_before := supplied (p_created_before q) |}.

(** The statement text of a shape. *)
Definition shape_sql (s : QueryShape) : string :=
  "SELECT * FROM tracking_numbers WHERE 1=1"
  ++ match sh_tracking_number s with
     | Absent => ""
     | Plain => " AND tracking_number LIKE ?"
     | Negated => " AND tracking_number NOT LIKE ?"
     end
  ++ match sh_order_number s with
     | Absent => ""
     | Plain => " AND order_number LIKE ?"
     | Negated => " AND order_number NOT LIKE ?"
     end
  ++ match sh_status s with
     | Absent => ""
     | Plain => " AND status = ?"
     | Negated => " AND status != ?"
     end
  ++ (if sh_created_after s then " AND created_at >= datetime(?)" else "")
  ++ (if sh_created_before s then " AND created_at <= datetime(?)" else "")
  ++ " ORDER BY created_at ASC LIMIT 2000".

(** The clauses of a shape, as the store reads them. *)
Definition like_clause (col : Column) (sh : FilterShape) : list Clause :=
  match sh with
  | Absent => []
  | Plain => [Like col]
  | Negated => [NotLike col]
  end.

Definition status_clause (sh : FilterShape) : list Clause :=
  match sh with
  | Absent => []
  | Plain => [StatusEq]
  | Negated => [StatusNe]
  end.

Definition shape_clauses (s : QueryShape) : list Clause :=
  app (like_clause TrackingNumberCol (sh_tracking_number s))
  (app (like_clause OrderNumberCol (sh_order_number s))
  (app (status_clause (sh_status s))
  (app (if sh_created_after s then [CreatedGe] else [])
       (if sh_created_before s then [CreatedLe] else [])))).

(** The values a request binds, in the order of its filters. *)
Definition bound_like (o : option string) : list string :=
  match truthy o with
  | Some raw => ["%" ++ stripped raw ++ "%"]
  | None => []
  end.

Definition bound_exact (o : option string) : list string :=
  match truthy o with
  | Some raw => [stripped raw]
  | None => []
  end.

Definition bound_raw (o : option string) : list string :=
  match truthy o with
  | Some raw => [raw]
  | None => []
  end.

Definition bound_values (q : SearchParams) : list string :=
  app (bound_like (p_tracking_number q))
  (app (bound_like (p_order_number q))
  (app (bound_exact (p_status q))
  (app (bound_raw (p_created_after q))
       (bound_raw (p_created_before q))))).

(** The filters of a request on a row, key by key; a key that is not
    supplied asks for nothing. *)
Definition substring_filter (o : option string) (field : option string) : bool :=
  match truthy o with
  | None => true
  | Some raw =>
      match field with
      | None => false
      | Some v =>
          if negated raw then negb (like ("%" ++ stripped raw ++ "%") v)
          else like ("%" ++ stripped raw ++ "%") v
      end
  end.

Definition status_filter (o : option string) (st : string) : bool :=
  match truthy o with
  | None => true
  | Some raw =>
      if negated raw then negb (st =? stripped raw) else st =? stripped raw
  end.

Definition after_filter (datetime : string -> option string)
    (o : option string) (created : string) : bool :=
  match truthy o with
  | None => true
  | Some raw =>
      match datetime raw with
      | Some d => d <=? created
      | None => false
      end
  end.

Definition before_filter (datetime : string -> option string)
    (o : option string) (created : string) : bool :=
  match truthy o with
  | None => true
  | Some raw =>
      match datetime raw with
      | Some d => created <=? d
      | None => false
      end
  end.

Definition satisfies (datetime : string -> option string) (q : SearchParams)
    (r : TrackingNumber) : bool :=
  substring_filter (p_tracking_number q) (Some (tracking_number r))
  && substring_filter (p_order_number q) (order_number r)
  && status_filter (p_status q) (status r)
  && after_filter datetime (p_created_after q) (created_at r)
  && before_filter datetime (p_created_before q) (created_at r).

(** The rows a search is to return: those that satisfy the request, in
    the order of [created_at], 2000 at most. *)
Definition search_rows (datetime : string -> option string) (q : SearchParams)
    (t : list TrackingNumber) : list TrackingNumber :=
  limit_rows 2000 (order_by_created_at (filter (satisfies datetime q) t)).


(** [a] is not after [b] in the order of [created_at]. *)
Definition created_le (a b : TrackingNumber) : Prop :=
  (created_at a <=? created_at b) = true.

(** [x] occurs in [s]. *)
Definition contains (x s : string) : Prop :=
  exists a b : string, s = a ++ x ++ b.

(** ** Pages of the ShipStation listing. *)

Definition shipmentsUrl (dateStr : string) : string :=
  "https://ssapi.shipstation.com/shipments?shipDateStart=" ++ dateStr.

(** The URL of page [k]: the first page is asked for without a page
    number. *)
Definition page_url (dateStr : string) (k : Z) : string :=
  if (k =? 1)%Z then shipmentsUrl dateStr
  else shipmentsUrl dateStr ++ "&page=" ++ decimal (Z.to_N k).

Definition credentials_of (env : Env) : string :=
  btoa (SHIPSTATION_API_KEY env ++ ":" ++ SHIPSTATION_API_SECRET env).

Definition page_call (dateStr : string) (env : Env) (k : Z) : Call :=
  Fetch (page_url dateStr k) ("Basic " ++ credentials_of env).

(** What the network answers for page [k]. *)
Definition page_answer (w : World) (dateStr : string) (env : Env) (k : Z)
    : Completion Response :=
  network w (page_url dateStr k) ("Basic " ++ credentials_of env).

(** Page [k] succeeds, with the shipments [l] and the page count [p]. *)
Definition page_succeeds (w : World) (dateStr : string) (env : Env) (k : Z)
    (l : list RawShipment) (p : Z) : Prop :=
  exists resp data,
    page_answer w dateStr env k = Normal resp
    /\ ok resp = true
    /\ resp_json resp = Normal data
    /\ shipments data = Some l
    /\ pages data = p.

(** Page [k] answers with a transport status that is not a success. *)
Definition page_transport_failure (w : World) (dateStr : string) (env : Env)
    (k : Z) (resp : Response) : Prop :=
  page_answer w dateStr env k = Normal resp /\ ok resp = false.

(** Page [k] answers with a body that has no [shipments]. *)
Definition page_lacks_shipments (w : World) (dateStr : string) (env : Env)
    (k : Z) : Prop :=
  exists resp data,
    page_answer w dateStr env k = Normal resp
    /\ ok resp = true
    /\ resp_json resp = Normal data
    /\ shipments data = None.

(** What [fetchShipStationPage] makes of the answer of the network. *)
Definition page_result (r : Completion Response) : Completion PageData :=
  match r with
  | Throw e => Throw e
  | Normal response =>
      if negb (ok response) then
        Throw (ThrownError
                 ("ShipStation API error: " ++ decimal (resp_status response)
                  ++ " - " ++ resp_text response))
      else
        match resp_json response with
        | Throw e => Throw e
        | Normal data =>
            match shipments data with
            | None =>
                Throw (ThrownError
                         "Invalid response format: missing shipments array")
            | Some l =>
                Normal {| page_shipments := l; page_pages := pages data |}
            end
        end
  end.

Definition page_outcome (w : World) (dateStr : string) (env : Env) (k : Z)
    : Completion PageData :=
  page_result (page_answer w dateStr env k).

(** The [n] pages from page [p] on, and the pages [1..n]. *)
Fixpoint pages_from (p : Z) (n : nat) : list Z :=
  match n with
  | O => []
  | S n' => p :: pages_from (p + 1) n'
  end.

Definition page_numbers (n : nat) : list Z := pages_from 1 n.

(** ** The table. *)

(** The tracking numbers of the rows, in the order of the table. *)
Definition keys (t : list TrackingNumber) : list string :=
  map tracking_number t.

(** The table after the inserts of a list of shipments at time [now]. *)
Definition insert_all (now : string) (l : list ShipmentData)
    (t : list TrackingNumber) : list TrackingNumber :=
  fold_left
    (fun acc s => insert_pending now (trackingNumber s) (orderNumber s) acc)
    l t.

Definition insert_batch (l : list ShipmentData) : list BoundStatement :=
  map (fun shipment =>
         {| bs_sql := INSERT_SQL;
            bs_args := [trackingNumber shipment; orderNumber shipment] |}) l.

(** A row inserted at time [now] for a tracking number the table [t] did
    not have. *)
Definition fresh_row (now : string) (t : list TrackingNumber)
    (r : TrackingNumber) : Prop :=
  status r = "pending" /\ created_at r = now
  /\ has_tracking_number (tracking_number r) t = false.

(** One update on one row, and the table after a list of updates. *)
Definition apply_update (now : string) (u : StatusUpdate) (r : TrackingNumber)
    : TrackingNumber :=
  if tracking_number r =? upd_tracking_number u then
    {| tracking_number := tracking_number r;
       order_number := order_number r;
       status := upd_status u;
       created_at := created_at r;
       updated_at := now |}
  else r.

Definition update_batch (l : list StatusUpdate) : list BoundStatement :=
  map (fun update =>
         {| bs_sql := UPDATE_SQL;
            bs_args := [upd_status update; upd_tracking_number update] |}) l.

(** ** Status updates. *)

(** The status of the last entry of [updates] for [tn]. *)
Definition last_status_for (tn : string) (updates : list StatusUpdate)
    : option string :=
  match find (fun u => upd_tracking_number u =? tn) (rev updates) with
  | Some u => Some (upd_status u)
  | None => None
  end.

(** A row after a batch of updates at time [now]. *)
Definition reconciled (now : string) (updates : list StatusUpdate)
    (r : TrackingNumber) : TrackingNumber :=
  match last_status_for (tracking_number r) updates with
  | Some st =>
      {| tracking_number := tracking_number r;
         order_number := order_number r;
         status := st;
         created_at := created_at r;
         updated_at := now |}
  | None => r
  end.

(** ** Tracking URLs. *)

Definition render_url (group : list string) : string :=
  USPS_PREFIX ++ String.concat "%2C" group.

(** The [i]-th group of 30. *)
Definition group30 (l : list string) (i : nat) : list string :=
  slice (30 * i) (30 * i + 30) l.

(** The rows of a reply to a search. *)
Definition results_of (reply : Reply) : list TrackingNumber :=
  match reply_payload reply with
  | SearchResults results _ => results
  | _ => []
  end.

(** The rows a search returns on the SQLite store. *)
Definition search (datetime : string -> option string) (q : SearchParams)
    (w : World) : list TrackingNumber :=
  results_of (value_of (run (host datetime) (handleSearch q) w)).

(* ================================================================== *)
(** * Sample data                                                      *)
(* ================================================================== *)

(** The four rows of the schema file, inserted at one time. *)
Definition sample_rows : list TrackingNumber :=
  [ mkRow "9400111105501612009154" None "pending"
      "2024-05-01 12:00:00" "2024-05-01 12:00:00";
    mkRow "9400111105501612835722" None "in_transit"
      "2024-05-01 12:00:00" "2024-05-01 12:00:00";
    mkRow "9400111105501612819753" None "delivered"
      "2024-05-01 12:00:00" "2024-05-01 12:00:00";
    mkRow "9400111105501612849477" None "out_for_delivery"
      "2024-05-01 12:00:00" "2024-05-01 12:00:00" ].

(** A network with nothing behind it. *)
Definition no_network : string -> string -> Completion Response :=
  fun _ _ => Throw (ThrownError "fetch failed").

Definition sample_world : World :=
  {| table := sample_rows; clock := "2024-05-02 08:30:00";
     network := no_network |}.

Definition only_status (v : string) : SearchParams :=
  mkParams None None (Some v) None None.

Definition only_tracking_number (v : string) : SearchParams :=
  mkParams (Some v) None None None None.

Definition sample_env : Env :=
  {| SHIPSTATION_API_KEY := "key"; SHIPSTATION_API_SECRET := "secret" |}.

Definition shipment_1 : RawShipment :=
  mkRaw "9400111105501612009154" "ORD-1" [("carrierCode", "stamps_com")].
Definition shipment_2 : RawShipment :=
  mkRaw "9400111105501612835722" "ORD-2" [("carrierCode", "stamps_com")].
Definition shipment_3 : RawShipment :=
  mkRaw "9400111105501612819753" "ORD-3" [("carrierCode", "stamps_com")].

Definition json_page (l : list RawShipment) (n : Z) : Response :=
  {| ok := true; resp_status := 200; resp_text := "";
     resp_json := Normal {| shipments := Some l; total := 3; page := n;
                            pages := 3 |} |}.

Definition server_error : Response :=
  {| ok := false; resp_status := 500; resp_text := "Internal Server Error";
     resp_json := Throw (ThrownError "Unexpected token I in JSON") |}.

(** A listing of three pages, one shipment each. *)
Definition three_pages (url authorization : string) : Completion Response :=
  if url =? page_url "2024-05-01" 1 then Normal (json_page [shipment_1] 1)
  else if url =? page_url "2024-05-01" 2 then Normal (json_page [shipment_2] 2)
  else if url =? page_url "2024-05-01" 3 then Normal (json_page [shipment_3] 3)
  else Throw (ThrownError "fetch failed").

(** The same listing when the second page answers 500. *)
Definition second_page_down (url authorization : string)
    : Completion Response :=
  if url =? page_url "2024-05-01" 2 then Normal server_error
  else three_pages url authorization.

Definition world_of_network (n : string -> string -> Completion Response)
    : World :=
  {| table := sample_rows; clock := "2024-05-02 08:30:00"; network := n |}.

Definition sample_shipments (k : Z) : list RawShipment :=
  if (k =? 1)%Z then [shipment_1]
  else if (k =? 2)%Z then [shipment_2]
  else if (k =? 3)%Z then [shipment_3]
  else [].

Definition sample_list : list ShipmentData :=
  [ mkShipment "9400111105501612819753" "ORD-3";
    mkShipment "9400111105501699999991" "ORD-7";
    mkShipment "9400111105501699999991" "ORD-8" ].

Definition sample_updates : list StatusUpdate :=
  [ mkUpdate "9400111105501612009154" "in_transit";
    mkUpdate "0000000000000000000000" "delivered";
    mkUpdate "9400111105501612009154" "delivered" ].

(** The rows that are not in the terminal status, [limit] at most, in the
    order of the table. *)
Definition eligible_rows (terminal : string) (limit : N)
    (t : list TrackingNumber) : list TrackingNumber :=
  limit_rows limit (filter (fun r => negb (status r =? terminal)) t).

(** Thirty-one rows, [T0] to [T30]. *)
Definition rows_31 : list TrackingNumber :=
  map (fun i => mkRow ("T" ++ decimal (N.of_nat i)) None "pending"
                  "2024-05-01 12:00:00" "2024-05-01 12:00:00")
      (seq 0 31).

(** Two requests of one shape. *)
Definition request_a : SearchParams :=
  {| p_tracking_number := Some "9400";
     p_order_number := None;
     p_status := Some "!delivered";
     p_created_after := Some "2024-01-01";
     p_created_before := Some "" |}.

Definition request_b : SearchParams :=
  {| p_tracking_number := Some "x' OR '1'='1";
     p_order_number := None;
     p_status := Some "!'; DROP TABLE tracking_numbers; --";
     p_created_after := Some "!never";
     p_created_before := None |}.


(** A table of one row whose tracking number has capital letters. *)
Definition one_row_world : World :=
  {| table := [mkRow "EA123US" (Some "ORD-9") "pending"
                 "2024-05-01 12:00:00" "2024-05-01 12:00:00"];
     clock := "2024-05-02 08:30:00";
     network := no_network |}.

(* ================================================================== *)
(** * The replies in full and the router (index.ts, lines 57-120)      *)
(* ================================================================== *)

(** [CORS_HEADERS]. *)
Definition CORS_HEADERS : list (string * string) :=
  [ ("Access-Control-Allow-Origin", "*");
    ("Access-Control-Allow-Methods", "GET, POST, OPTIONS");
    ("Access-Control-Allow-Headers", "Content-Type, Authorization");
    ("Access-Control-Max-Age", "86400") ].

(** [{...CORS_HEADERS, 'Content-Type': 'application/json'}]. *)
Definition JSON_CORS_HEADERS : list (string * string) :=
  app CORS_HEADERS [("Content-Type", "application/json")].

(** The body of a response of the worker. *)
Inductive Body : Type :=
| NoBody
| TextBody (text : string)
| JsonBody (payload : Payload)
| ShipmentsBody (shipments : list ShipmentData).

(** A response of the worker: the body, the status and the headers its
    constructor is given ([{ headers: ... }], none when there is no such
    option). *)
Record WorkerResponse : Type := mkWorkerResponse {
  wr_body : Body;
  wr_status : N;
  wr_headers : list (string * string)
}.

(** [handleOptions]. *)
Definition handleOptions : WorkerResponse :=
  {| wr_body := NoBody; wr_status := 200; wr_headers := CORS_HEADERS |}.

(** [handleSearch] with the headers of its two replies (lines 184-197). *)
Definition handleSearchResponse (query : SearchParams) : Prog WorkerResponse :=
  let params := searchParamsOf query in
  let '(sql, bindings) := buildSearchQuery params in
  Do (D1All sql bindings) (fun result =>
    match result with
    | Normal results =>
        Ret {| wr_body := JsonBody (SearchResults results (List.length results));
               wr_status := 200;
               wr_headers := JSON_CORS_HEADERS |}
    | Throw error =>
        Ret {| wr_body :=
                 JsonBody (ErrorMessage
                             (message_or error "Failed to search tracking numbers"));
               wr_status := 500;
               wr_headers := [] |}
    end).

(** [handleGetTrackingUrls] with the headers of its two replies (lines
    221-230). *)
Definition handleGetTrackingUrlsResponse : Prog WorkerResponse :=
  Do (D1All TRACKING_URLS_SQL []) (fun result =>
    match result with
    | Normal rows =>
        Ret {| wr_body := JsonBody (Urls (trackingUrls rows));
               wr_status := 200;
               wr_headers := JSON_CORS_HEADERS |}
    | Throw _ =>
        Ret {| wr_body := JsonBody (ErrorMessage "Failed to get tracking URLs");
               wr_status := 500;
               wr_headers := [] |}
    end).

(** [handleStatusUpdates] with the headers of its two replies (lines
    253-260). *)
Definition handleStatusUpdatesResponse (body : Completion (list StatusUpdate))
    : Prog WorkerResponse :=
  let failed := {| wr_body := JsonBody (ErrorMessage "Failed to update statuses");
                   wr_status := 500;
                   wr_headers := [] |} in
  match body with
  | Throw _ => Ret failed
  | Normal updates =>
      let batch :=
        map (fun update =>
               {| bs_sql := UPDATE_SQL;
                  bs_args := [upd_status update; upd_tracking_number update] |})
            updates in
      Do (D1Batch batch) (fun r =>
        match r with
        | Normal _ =>
            Ret {| wr_body := JsonBody Success; wr_status := 200;
                   wr_headers := JSON_CORS_HEADERS |}
        | Throw _ => Ret failed
        end)
  end.

(** What the router reads of a request: the method, the path of the URL,
    [url.searchParams.get] and what [request.json()] gives. *)
Record Request : Type := mkRequest {
  req_method : string;
  req_pathname : string;
  req_searchParams : string -> option string;
  req_json : Completion (list StatusUpdate)
}.

(** The five parameters [handleSearch] reads of the URL (lines 132-136,
    before the [|| undefined]). *)
Definition searchQueryOf (get : string -> option string) : SearchParams :=
  {| p_tracking_number := get "tracking_number";
     p_order_number := get "order_number";
     p_status := get "status";
     p_created_after := get "created_after";
     p_created_before := get "created_before" |}.

(** The ingestion: [fetchNewShipments] then [storeNewTrackingNumbers], as
    both the test route and the scheduled task run them. *)
Definition ingest (dateStr : string) (env : Env)
    : Prog (Completion (list ShipmentData)) :=
  shipments <- fetchNewShipments dateStr env ;;
  _ <- storeNewTrackingNumbers shipments ;;
  Ret (Normal shipments).

(** [fetchNewShipments(daysBack, env)] from its first line.  [date] is
    what lines 287-289 make of [daysBack] and of the clock: the date
    string, or the RangeError that [toISOString] throws when
    [daysBack] takes the date out of the range of valid dates.  That
    happens before any call. *)
Definition fetchNewShipmentsFrom (date : Completion string) (env : Env)
    : Prog (Completion (list ShipmentData)) :=
  match date with
  | Normal dateStr => fetchNewShipments dateStr env
  | Throw e => Ret (Throw e)
  end.

Definition ingestFrom (date : Completion string) (env : Env)
    : Prog (Completion (list ShipmentData)) :=
  shipments <- fetchNewShipmentsFrom date env ;;
  _ <- storeNewTrackingNumbers shipments ;;
  Ret (Normal shipments).

Module Worker.

(** The [fetch] of the worker (lines 74-110).  [dateOf] gives, for the
    value of the parameter [days_back], what [fetchNewShipments] makes of
    [Number(days_back) || 1] and of the clock on its first lines: a date
    string, or a throw. *)
Definition fetch (dateOf : option string -> Completion string)
    (request : Request) (env : Env) : Prog WorkerResponse :=
  if req_method request =? "OPTIONS" then Ret handleOptions
  else if req_pathname request =? "/search" then
    handleSearchResponse (searchQueryOf (req_searchParams request))
  else if req_pathname request =? "/tracking-urls" then
    handleGetTrackingUrlsResponse
  else if (req_pathname request =? "/tracking-status")
          && (req_method request =? "POST") then
    handleStatusUpdatesResponse (req_json request)
  else if req_pathname request =? "/test-scheduled" then
    bind (ingestFrom (dateOf (req_searchParams request "days_back")) env)
      (fun r =>
         match r with
         | Normal shipments =>
             Ret {| wr_body := ShipmentsBody shipments; wr_status := 200;
                    wr_headers := [] |}
         | Throw error =>
             Ret {| wr_body :=
                      JsonBody (ErrorMessage
                                  (message_or error "An unknown error occurred"));
                    wr_status := 500;
                    wr_headers := [] |}
         end)
  else
    Ret {| wr_body := TextBody "Not found"; wr_status := 404;
           wr_headers := [] |}.

(** The [scheduled] task (lines 112-119): what is thrown is logged and
    dropped.  [dateStr] is the date one day back, which is a valid date
    whatever the clock. *)
Definition scheduled (dateStr : string) (env : Env) : Prog unit :=
  bind (ingest dateStr env) (fun _ => Ret tt).

End Worker.

(** ** Vocabulary for the router. *)

(** A reply of a handler, as a response without its headers. *)
Definition reply_of (r : WorkerResponse) : option Reply :=
  match wr_body r with
  | JsonBody p => Some {| reply_payload := p; reply_status := wr_status r |}
  | _ => None
  end.

(** The routes that write to the store. *)
Definition writing_route (request : Request) : bool :=
  negb (req_method request =? "OPTIONS")
  && (((req_pathname request =? "/tracking-status")
       && (req_method request =? "POST"))
      || (req_pathname request =? "/test-scheduled")).

(** A reply of a handler with the headers the handler gives it: those of
    a JSON reply with CORS on its success reply, none on its error reply. *)
Definition respond (r : Reply) : WorkerResponse :=
  {| wr_body := JsonBody (reply_payload r);
     wr_status := reply_status r;
     wr_headers := if (reply_status r =? 200)%N then JSON_CORS_HEADERS else [] |}.

(** The store calls of [storeNewTrackingNumbers]. *)
Definition store_calls (l : list ShipmentData) : list Call :=
  match l with
  | [] => []
  | _ :: _ => [D1Batch (insert_batch l)]
  end.

(** The routes answered by one of the three handlers of the store. *)
Definition handler_route (request : Request) : bool :=
  negb (req_method request =? "OPTIONS")
  && ((req_pathname request =? "/search")
      || (req_pathname request =? "/tracking-urls")
      || ((req_pathname request =? "/tracking-status")
          && (req_method request =? "POST"))).

Definition is_fetch (c : Call) : bool :=
  match c with Fetch _ _ => true | _ => false end.

Definition is_store_call (c : Call) : bool :=
  match c with D1All _ _ => true | D1Batch _ => true | _ => false end.

(** The first shipment of the list for a tracking number. *)
Definition first_shipment_for (tn : string) (l : list ShipmentData)
    : option ShipmentData :=
  find (fun s => trackingNumber s =? tn) l.

(** The row of the table for a tracking number. *)
Definition row_for (tn : string) (t : list TrackingNumber)
    : option TrackingNumber :=
  find (fun r => tracking_number r =? tn) t.

Definition only_order_number (v : string) : SearchParams :=
  mkParams None (Some v) None None None.

Definition get_request (path : string) : Request :=
  {| req_method := "GET"; req_pathname := path;
     req_searchParams := fun _ => None;
     req_json := Throw (ThrownError "Unexpected end of JSON input") |}.

Definition date_of_sample (days_back : option string) : Completion string :=
  Normal "2024-05-01".

(** The date of a [days_back] as large as 200000000: [toISOString] throws. *)
Definition date_out_of_range (days_back : option string) : Completion string :=
  Throw (ThrownError "Invalid time value").

(* ================================================================== *)
(** * Vocabulary for the search on D1                                  *)
(* ================================================================== *)

(** The loop of [%] in [d1_like], by its name. *)
Fixpoint d1_star (p : string) (inside : bool) (s : string) : bool :=
  match s with
  | EmptyString => d1_like p s
  | String b s' =>
      (if inside && is_continuation b then false else d1_like p s)
      || d1_star p (is_lead b || (inside && is_continuation b)) s'
  end.




(** The value of a substring filter gives a pattern [%value%] within the
    limit of D1: the value has 48 bytes at most. *)
Definition value_fits (o : option string) : bool :=
  match truthy o with
  | None => true
  | Some raw => (String.length (stripped raw) + 2 <=? LIKE_PATTERN_LIMIT)%nat
  end.

Definition patterns_fit (q : SearchParams) : bool :=
  value_fits (p_tracking_number q) && value_fits (p_order_number q).



(** The filters of a request on a row as D1 evaluates them. *)
Definition d1_substring_filter (o : option string) (field : option string)
    : bool :=
  match truthy o with
  | None => true
  | Some raw =>
      match field with
      | None => false
      | Some v =>
          if negated raw then negb (d1_like ("%" ++ stripped raw ++ "%") v)
          else d1_like ("%" ++ stripped raw ++ "%") v
      end
  end.

Definition d1_satisfies (datetime : string -> option string) (q : SearchParams)
    (r : TrackingNumber) : bool :=
  d1_substring_filter (p_tracking_number q) (Some (tracking_number r))
  && d1_substring_filter (p_order_number q) (order_number r)
  && status_filter (p_status q) (status r)
  && after_filter datetime (p_created_after q) (created_at r)
  && before_filter datetime (p_created_before q) (created_at r).






(** The rows a search returns on D1 (none when it answers an error). *)
Definition d1_search (datetime : string -> option string) (q : SearchParams)
    (w : World) : list TrackingNumber :=
  results_of (value_of (run (d1_host datetime) (handleSearch q) w)).

Definition d1_search_rows (datetime : string -> option string)
    (q : SearchParams) (t : list TrackingNumber) : list TrackingNumber :=
  limit_rows 2000 (order_by_created_at (filter (d1_satisfies datetime q) t)).



Unset Implicit Arguments.

(* ================================================================== *)
(** * Running programs                                                 *)
(* ================================================================== *)

Lemma run_bind : forall (W A B : Type) (h : Handler W) (m : Prog A)
    (f : A -> Prog B) (w : W),
  run h (bind m f) w =
  let '(a, w1, t1) := run h m w in
  let '(b, w2, t2) := run h (f a) w1 in
  (b, w2, app t1 t2).
Proof.
  intros W A B h m f. induction m as [a | c k IH]; intro w; simpl.
  - destruct (run h (f a) w) as [[b w2] t2]. reflexivity.
  - destruct (h c w) as [x w1]. rewrite IH.
    destruct (run h (k x) w1) as [[a w2] t1].
    destruct (run h (f a) w2) as [[b w3] t2]. reflexivity.
Qed.

Lemma run_bindE : forall (W A B : Type) (h : Handler W)
    (m : Prog (Completion A)) (f : A -> Prog (Completion B)) (w : W),
  run h (bindE m f) w =
  let '(r, w1, t1) := run h m w in
  match r with
  | Normal a => let '(b, w2, t2) := run h (f a) w1 in (b, w2, app t1 t2)
  | Throw e => (Throw e, w1, t1)
  end.
Proof.
  intros. unfold bindE. rewrite run_bind.
  destruct (run h m w) as [[r w1] t1]. destruct r as [a | e].
  - reflexivity.
  - simpl. rewrite app_nil_r. reflexivity.
Qed.

(* ================================================================== *)
(** * The search statement and its bindings                            *)
(* ================================================================== *)

Lemma truthy_idem : forall o, truthy (truthy o) = truthy o.
Proof. intros [[|c s]|]; reflexivity. Qed.

Lemma parseSearchValue_spec : forall raw,
  parseSearchValue raw = (if negated raw then "!=" else "=", stripped raw).
Proof.
  intros [|c s]; simpl; [reflexivity|].
  destruct (Ascii.eqb c "!"); reflexivity.
Qed.

(** The builder, in closed form: the text of the shape and the values of
    the request. *)
Lemma buildSearchQuery_closed_form : forall q,
  buildSearchQuery (searchParamsOf q) = (shape_sql (shape_of q), bound_values q).
Proof.
  intros [tn on st ca cb].
  unfold buildSearchQuery, searchParamsOf, shape_of, shape_sql, bound_values,
    bound_like, bound_exact, bound_raw, string_shape, supplied, push.
  cbn [p_tracking_number p_order_number p_status p_created_after
       p_created_before sh_tracking_number sh_order_number sh_status
       sh_created_after sh_created_before].
  rewrite !truthy_idem.
  destruct (truthy tn) as [rtn|]; destruct (truthy on) as [ron|];
    destruct (truthy st) as [rst|]; destruct (truthy ca) as [rca|];
    destruct (truthy cb) as [rcb|];
    rewrite ?parseSearchValue_spec;
    repeat match goal with
           | |- context [negated ?r] => destruct (negated r)
           end;
    reflexivity.
Qed.

(** A search is one call of the store, with the text of the shape and the
    values of the request; the reply is made from the answer. *)
Lemma handleSearch_run : forall (W : Type) (h : Handler W) q (w : W),
  run h (handleSearch q) w =
  let '(a, w1) := h (D1All (shape_sql (shape_of q)) (bound_values q)) w in
  (match a with
   | Normal results =>
       {| reply_payload := SearchResults results (List.length results);
          reply_status := 200 |}
   | Throw error =>
       {| reply_payload :=
            ErrorMessage (message_or error "Failed to search tracking numbers");
          reply_status := 500 |}
   end, w1, [D1All (shape_sql (shape_of q)) (bound_values q)]).
Proof.
  intros. unfold handleSearch. rewrite buildSearchQuery_closed_form.
  simpl run.
  destruct (h (D1All (shape_sql (shape_of q)) (bound_values q)) w) as [a w1].
  destruct a; reflexivity.
Qed.

(** C1. The text of the search statement is a function of the shape of the
    request alone (which of the five keys are supplied, and for each string
    filter whether it begins with [!]): two requests of one shape send the
    same text to the store, and each sends its values, stripped of the [!],
    as the ordered list of bindings of that one call. *)
Theorem search_text_depends_on_shape_only :
  forall q1 q2 : SearchParams,
    shape_of q1 = shape_of q2 ->
    forall (W : Type) (h : Handler W) (w1 w2 : W),
      calls_of (run h (handleSearch q1) w1)
        = [D1All (shape_sql (shape_of q1)) (bound_values q1)]
      /\ calls_of (run h (handleSearch q2) w2)
        = [D1All (shape_sql (shape_of q1)) (bound_values q2)]
      /\ fst (buildSearchQuery (searchParamsOf q1))
        = fst (buildSearchQuery (searchParamsOf q2)).
Proof.
  intros q1 q2 Hshape W h w1 w2.
  rewrite !handleSearch_run, !buildSearchQuery_closed_form, <- Hshape.
  destruct (h (D1All (shape_sql (shape_of q1)) (bound_values q1)) w1) as [a1 u1].
  destruct (h (D1All (shape_sql (shape_of q1)) (bound_values q2)) w2) as [a2 u2].
  repeat split.
Qed.

Lemma search_text_depends_on_shape_only_witness :
  calls_of (run (failing_store ThrownOther) (handleSearch request_a) tt)
    = [D1All
         "SELECT * FROM tracking_numbers WHERE 1=1 AND tracking_number LIKE ? AND status != ? AND created_at >= datetime(?) ORDER BY created_at ASC LIMIT 2000"
         ["%9400%"; "delivered"; "2024-01-01"]]
  /\ calls_of (run (failing_store ThrownOther) (handleSearch request_b) tt)
    = [D1All
         "SELECT * FROM tracking_numbers WHERE 1=1 AND tracking_number LIKE ? AND status != ? AND created_at >= datetime(?) ORDER BY created_at ASC LIMIT 2000"
         ["%x' OR '1'='1%"; "'; DROP TABLE tracking_numbers; --"; "!never"]]
  /\ fst (buildSearchQuery (searchParamsOf request_a))
    = fst (buildSearchQuery (searchParamsOf request_b)).
Proof.
  exact (search_text_depends_on_shape_only request_a request_b eq_refl
           unit (failing_store ThrownOther) tt tt).
Defined.

(* ================================================================== *)
(** * The store reads the search statement as the builder means it     *)
(* ================================================================== *)

Lemma prepare_shape_sql : forall s,
  prepare (shape_sql s) = Some (SelectSearch (shape_clauses s) 2000).
Proof.
  intros [[| |] [| |] [| |] [|] [|]]; vm_compute; reflexivity.
Qed.

Lemma where_holds_app : forall datetime cs1 as1 cs2 as2 r,
  List.length cs1 = List.length as1 ->
  where_holds datetime (app cs1 cs2) (app as1 as2) r
  = where_holds datetime cs1 as1 r && where_holds datetime cs2 as2 r.
Proof.
  intros datetime cs1. induction cs1 as [|c cs1 IH]; intros [|a as1] cs2 as2 r H;
    simpl in H; try discriminate.
  - reflexivity.
  - simpl. destruct (eval_clause datetime c a r) as [[|]|]; auto.
Qed.

Lemma like_clause_holds : forall datetime col o r,
  where_holds datetime (like_clause col (string_shape o)) (bound_like o) r
  = substring_filter o (column_value col r).
Proof.
  intros. unfold string_shape, bound_like, substring_filter.
  destruct (truthy o) as [raw|]; [|reflexivity].
  destruct (negated raw);
    cbn [where_holds eval_clause option_map like_clause];
    destruct (column_value col r) as [v|];
    cbn [where_holds eval_clause option_map]; try reflexivity;
    destruct (like ("%" ++ stripped raw ++ "%") v); reflexivity.
Qed.

Lemma like_clause_length : forall col o,
  List.length (like_clause col (string_shape o)) = List.length (bound_like o).
Proof.
  intros. unfold string_shape, bound_like.
  destruct (truthy o) as [raw|]; [destruct (negated raw)|]; reflexivity.
Qed.

Lemma status_clause_holds : forall datetime o r,
  where_holds datetime (status_clause (string_shape o)) (bound_exact o) r
  = status_filter o (status r).
Proof.
  intros. unfold string_shape, bound_exact, status_filter.
  destruct (truthy o) as [raw|]; [|reflexivity].
  destruct (negated raw); simpl; destruct (status r =? stripped raw); reflexivity.
Qed.

Lemma status_clause_length : forall o,
  List.length (status_clause (string_shape o)) = List.length (bound_exact o).
Proof.
  intros. unfold string_shape, bound_exact.
  destruct (truthy o) as [raw|]; [destruct (negated raw)|]; reflexivity.
Qed.

Lemma after_clause_holds : forall datetime o r,
  where_holds datetime (if supplied o then [CreatedGe] else []) (bound_raw o) r
  = after_filter datetime o (created_at r).
Proof.
  intros. unfold supplied, bound_raw, after_filter.
  destruct (truthy o) as [raw|]; [|reflexivity].
  simpl. destruct (datetime raw) as [d|]; simpl; [|reflexivity].
  destruct (d <=? created_at r); reflexivity.
Qed.

Lemma before_clause_holds : forall datetime o r,
  where_holds datetime (if supplied o then [CreatedLe] else []) (bound_raw o) r
  = before_filter datetime o (created_at r).
Proof.
  intros. unfold supplied, bound_raw, before_filter.
  destruct (truthy o) as [raw|]; [|reflexivity].
  simpl. destruct (datetime raw) as [d|]; simpl; [|reflexivity].
  destruct (created_at r <=? d); reflexivity.
Qed.

Lemma date_clause_length : forall o (c : Clause),
  List.length (if supplied o then [c] else []) = List.length (bound_raw o).
Proof.
  intros. unfold supplied, bound_raw. destruct (truthy o); reflexivity.
Qed.

Lemma shape_clauses_unfold : forall q,
  shape_clauses (shape_of q)
  = app (like_clause TrackingNumberCol (string_shape (p_tracking_number q)))
     (app (like_clause OrderNumberCol (string_shape (p_order_number q)))
     (app (status_clause (string_shape (p_status q)))
     (app (if supplied (p_created_after q) then [CreatedGe] else [])
          (if supplied (p_created_before q) then [CreatedLe] else [])))).
Proof. reflexivity. Qed.

(** The clauses of the statement, fed the bindings in order, are the
    filters of the request. *)
Lemma where_holds_satisfies : forall datetime q r,
  where_holds datetime (shape_clauses (shape_of q)) (bound_values q) r
  = satisfies datetime q r.
Proof.
  intros. rewrite shape_clauses_unfold. unfold bound_values, satisfies.
  rewrite where_holds_app by apply like_clause_length.
  rewrite where_holds_app by apply like_clause_length.
  rewrite where_holds_app by apply status_clause_length.
  rewrite where_holds_app by apply date_clause_length.
  rewrite !like_clause_holds, status_clause_holds, after_clause_holds,
    before_clause_holds.
  simpl column_value. rewrite !andb_assoc. reflexivity.
Qed.

Lemma shape_clauses_length : forall q,
  List.length (shape_clauses (shape_of q)) = List.length (bound_values q).
Proof.
  intros. rewrite shape_clauses_unfold. unfold bound_values.
  rewrite !length_app, !like_clause_length, status_clause_length.
  rewrite (date_clause_length (p_created_after q) CreatedGe).
  rewrite (date_clause_length (p_created_before q) CreatedLe).
  reflexivity.
Qed.

Lemma sqlite_exec_search : forall datetime now q t,
  sqlite_exec datetime now
    {| bs_sql := shape_sql (shape_of q); bs_args := bound_values q |} t
  = Normal (search_rows datetime q t, t).
Proof.
  intros. unfold sqlite_exec. cbn [bs_sql bs_args].
  rewrite prepare_shape_sql. cbn [param_count].
  rewrite shape_clauses_length, Nat.eqb_refl. cbn [negb].
  unfold search_rows.
  rewrite (filter_ext _ (satisfies datetime q)
             (fun r => where_holds_satisfies datetime q r)).
  reflexivity.
Qed.

Lemma with_table_same : forall w, with_table w (table w) = w.
Proof. intros [t c n]. reflexivity. Qed.

Lemma handleSearch_host : forall datetime q w,
  run (host datetime) (handleSearch q) w
  = ({| reply_payload :=
          SearchResults (search_rows datetime q (table w))
            (List.length (search_rows datetime q (table w)));
        reply_status := 200 |},
     w,
     [D1All (shape_sql (shape_of q)) (bound_values q)]).
Proof.
  intros. rewrite handleSearch_run. cbn [host].
  rewrite sqlite_exec_search, with_table_same. reflexivity.
Qed.

(* ================================================================== *)
(** * Order and limit                                                  *)
(* ================================================================== *)

Lemma string_leb_trans : forall a b c : string,
  (a <=? b) = true -> (b <=? c) = true -> (a <=? c) = true.
Proof.
  unfold String.leb.
  induction a as [|x a IH]; intros [|y b] [|z c]; simpl;
    try reflexivity; try discriminate.
  unfold Ascii.compare.
  destruct (N.compare_spec (N_of_ascii x) (N_of_ascii y)) as [E1|L1|G1];
    destruct (N.compare_spec (N_of_ascii y) (N_of_ascii z)) as [E2|L2|G2];
    destruct (N.compare_spec (N_of_ascii x) (N_of_ascii z)) as [E3|L3|G3];
    try discriminate; try reflexivity; try lia.
  apply IH.
Qed.

Lemma created_le_trans : forall a b c,
  created_le a b -> created_le b c -> created_le a c.
Proof. unfold created_le. intros a b c. apply string_leb_trans. Qed.

Lemma created_le_total : forall a b, created_le a b \/ created_le b a.
Proof. unfold created_le. intros. apply String.leb_total. Qed.

Lemma insert_by_created_at_perm : forall r l,
  Permutation (insert_by_created_at r l) (r :: l).
Proof.
  intros r l. induction l as [|x l IH]; simpl.
  - apply Permutation_refl.
  - destruct (created_at r <=? created_at x).
    + apply Permutation_refl.
    + apply Permutation_trans with (x :: r :: l).
      * apply perm_skip. exact IH.
      * apply perm_swap.
Qed.

Lemma order_by_created_at_perm : forall l,
  Permutation (order_by_created_at l) l.
Proof.
  induction l as [|r l IH]; simpl.
  - apply Permutation_refl.
  - eapply Permutation_trans.
    + apply insert_by_created_at_perm.
    + apply perm_skip. exact IH.
Qed.

Lemma insert_by_created_at_sorted : forall r l,
  StronglySorted created_le l ->
  StronglySorted created_le (insert_by_created_at r l).
Proof.
  intros r l H. induction H as [|x l Hs IH Hx]; simpl.
  - constructor; constructor.
  - destruct (created_at r <=? created_at x) eqn:E.
    + constructor.
      * constructor; assumption.
      * constructor; [exact E|].
        rewrite Forall_forall in *. intros y Hy.
        apply created_le_trans with x; [exact E | apply Hx; exact Hy].
    + constructor; [exact IH|].
      rewrite Forall_forall in *. intros y Hy.
      apply (Permutation_in _ (insert_by_created_at_perm r l)) in Hy.
      destruct Hy as [<- | Hy].
      * destruct (created_le_total x r) as [H1|H1]; [exact H1|].
        unfold created_le in H1. congruence.
      * apply Hx; exact Hy.
Qed.

Lemma order_by_created_at_sorted : forall l,
  StronglySorted created_le (order_by_created_at l).
Proof.
  induction l as [|r l IH]; simpl.
  - constructor.
  - apply insert_by_created_at_sorted. exact IH.
Qed.

Lemma sorted_app_le : forall (l1 l2 : list TrackingNumber),
  StronglySorted created_le (app l1 l2) ->
  forall x y, In x l1 -> In y l2 -> created_le x y.
Proof.
  induction l1 as [|a l1 IH]; intros l2 H x y Hx Hy.
  - destruct Hx.
  - simpl in H. inversion H as [|? ? Hs Ha]; subst.
    destruct Hx as [<- | Hx].
    + rewrite Forall_forall in Ha. apply Ha. apply in_or_app. right. exact Hy.
    + apply (IH l2 Hs x y Hx Hy).
Qed.

Lemma sorted_app_left : forall (l1 l2 : list TrackingNumber),
  StronglySorted created_le (app l1 l2) -> StronglySorted created_le l1.
Proof.
  induction l1 as [|a l1 IH]; intros l2 H.
  - constructor.
  - simpl in H. inversion H as [|? ? Hs Ha]; subst. constructor.
    + apply (IH l2 Hs).
    + rewrite Forall_forall in *. intros y Hy. apply Ha.
      apply in_or_app. left. exact Hy.
Qed.

(** What [LIMIT n] leaves of a sorted list: a sorted list of at most [n]
    rows, and a row left out comes after [n] rows that were kept. *)
Lemma limit_rows_sorted : forall limit l,
  StronglySorted created_le l ->
  StronglySorted created_le (limit_rows limit l)
  /\ List.length (limit_rows limit l) <= N.to_nat limit
  /\ (forall r, In r (limit_rows limit l) -> In r l)
  /\ (forall r, In r l ->
        In r (limit_rows limit l)
        \/ (List.length (limit_rows limit l) = N.to_nat limit
            /\ forall r', In r' (limit_rows limit l) -> created_le r' r)).
Proof.
  intros limit l H. unfold limit_rows. set (n := N.to_nat limit).
  pose proof (firstn_skipn n l) as Hsplit.
  repeat split.
  - apply sorted_app_left with (skipn n l). rewrite Hsplit. exact H.
  - apply firstn_le_length.
  - intros r Hr. rewrite <- Hsplit. apply in_or_app. left. exact Hr.
  - intros r Hr. rewrite <- Hsplit in Hr. apply in_app_or in Hr.
    destruct Hr as [Hr | Hr]; [left; exact Hr | right]. split.
    + apply firstn_length_le.
      destruct (Nat.le_gt_cases n (List.length l)) as [Hle | Hgt]; [exact Hle|].
      rewrite skipn_all2 in Hr by lia. destruct Hr.
    + intros r' Hr'. apply sorted_app_le with (firstn n l) (skipn n l).
      * rewrite Hsplit. exact H.
      * exact Hr'.
      * exact Hr.
Qed.


Lemma limit_rows_all : forall limit l,
  List.length l <= N.to_nat limit -> limit_rows limit l = l.
Proof. intros. unfold limit_rows. apply firstn_all2. assumption. Qed.

(* ================================================================== *)
(** * The search on D1                                                 *)
(* ================================================================== *)

Lemma length_append : forall a b : string,
  String.length (a ++ b) = (String.length a + String.length b)%nat.
Proof.
  induction a as [|c a IH]; intro b; cbn [append String.length Nat.add];
    [|rewrite IH]; reflexivity.
Qed.

(** The pattern [%x%] is within the limit when [x] has 48 bytes at most. *)
Lemma pattern_length_fits : forall x,
  (LIKE_PATTERN_LIMIT <? String.length ("%" ++ x ++ "%"))%nat
  = negb (String.length x + 2 <=? LIKE_PATTERN_LIMIT)%nat.
Proof.
  intro x. cbn [append String.length]. rewrite length_append.
  cbn [String.length]. unfold LIKE_PATTERN_LIMIT.
  destruct (Nat.ltb_spec 50 (S (String.length x + 1)));
    destruct (Nat.leb_spec (String.length x + 2) 50);
    cbn [negb]; try reflexivity; lia.
Qed.

Lemma d1_where_app : forall datetime cs1 as1 cs2 as2 r,
  List.length cs1 = List.length as1 ->
  d1_where datetime (app cs1 cs2) (app as1 as2) r
  = match d1_where datetime cs1 as1 r with
    | Throw e => Throw e
    | Normal true => d1_where datetime cs2 as2 r
    | Normal false => Normal false
    end.
Proof.
  intros datetime cs1. induction cs1 as [|c cs1 IH];
    intros [|a as1] cs2 as2 r H; cbn [List.length] in H; try discriminate.
  - reflexivity.
  - cbn [app d1_where].
    destruct (d1_eval_clause datetime c a r) as [[[|]|]|e]; try reflexivity.
    apply IH. injection H as H. exact H.
Qed.

Lemma d1_like_clause_holds : forall datetime col o r,
  d1_where datetime (like_clause col (string_shape o)) (bound_like o) r
  = if value_fits o then Normal (d1_substring_filter o (column_value col r))
    else Throw pattern_too_complex.
Proof.
  intros. unfold string_shape, bound_like, value_fits, d1_substring_filter.
  destruct (truthy o) as [raw|]; [|reflexivity].
  destruct (negated raw); cbn [like_clause d1_where d1_eval_clause];
    rewrite pattern_length_fits;
    destruct (String.length (stripped raw) + 2 <=? LIKE_PATTERN_LIMIT)%nat;
    cbn [negb]; try reflexivity;
    destruct (column_value col r) as [v|]; cbn [option_map]; try reflexivity;
    destruct (d1_like ("%" ++ stripped raw ++ "%") v); reflexivity.
Qed.

Lemma d1_status_clause_holds : forall datetime o r,
  d1_where datetime (status_clause (string_shape o)) (bound_exact o) r
  = Normal (status_filter o (status r)).
Proof.
  intros. unfold string_shape, bound_exact, status_filter.
  destruct (truthy o) as [raw|]; [|reflexivity].
  destruct (negated raw); cbn [status_clause d1_where d1_eval_clause];
    destruct (status r =? stripped raw); reflexivity.
Qed.

Lemma d1_after_clause_holds : forall datetime o r,
  d1_where datetime (if supplied o then [CreatedGe] else []) (bound_raw o) r
  = Normal (after_filter datetime o (created_at r)).
Proof.
  intros. unfold supplied, bound_raw, after_filter.
  destruct (truthy o) as [raw|]; [|reflexivity].
  cbn [d1_where d1_eval_clause].
  destruct (datetime raw) as [d|]; cbn [option_map]; [|reflexivity].
  destruct (d <=? created_at r); reflexivity.
Qed.

Lemma d1_before_clause_holds : forall datetime o r,
  d1_where datetime (if supplied o then [CreatedLe] else []) (bound_raw o) r
  = Normal (before_filter datetime o (created_at r)).
Proof.
  intros. unfold supplied, bound_raw, before_filter.
  destruct (truthy o) as [raw|]; [|reflexivity].
  cbn [d1_where d1_eval_clause].
  destruct (datetime raw) as [d|]; cbn [option_map]; [|reflexivity].
  destruct (created_at r <=? d); reflexivity.
Qed.

(** The clauses of the statement on one row, as D1 evaluates them: the
    tracking number filter first, and the order number filter only on a
    row the first one keeps. *)
Lemma d1_where_shape : forall datetime q r,
  d1_where datetime (shape_clauses (shape_of q)) (bound_values q) r
  = if value_fits (p_tracking_number q) then
      if d1_substring_filter (p_tracking_number q) (Some (tracking_number r))
      then
        if value_fits (p_order_number q) then
          Normal (d1_substring_filter (p_order_number q) (order_number r)
                  && status_filter (p_status q) (status r)
                  && after_filter datetime (p_created_after q) (created_at r)
                  && before_filter datetime (p_created_before q) (created_at r))
        else Throw pattern_too_complex
      else Normal false
    else Throw pattern_too_complex.
Proof.
  intros. rewrite shape_clauses_unfold. unfold bound_values.
  rewrite d1_where_app by apply like_clause_length.
  rewrite d1_where_app by apply like_clause_length.
  rewrite d1_where_app by apply status_clause_length.
  rewrite d1_where_app by apply date_clause_length.
  rewrite !d1_like_clause_holds, d1_status_clause_holds,
    d1_after_clause_holds, d1_before_clause_holds.
  cbn [column_value].
  destruct (value_fits (p_tracking_number q)); [|reflexivity].
  destruct (d1_substring_filter (p_tracking_number q)
              (Some (tracking_number r))); [|reflexivity].
  destruct (value_fits (p_order_number q)); [|reflexivity].
  destruct (d1_substring_filter (p_order_number q) (order_number r));
    [|reflexivity].
  destruct (status_filter (p_status q) (status r)); [|reflexivity].
  destruct (after_filter datetime (p_created_after q) (created_at r));
    reflexivity.
Qed.

(** A row is decided as the filters say, or the statement fails on it
    because a pattern is too long. *)
Lemma d1_where_cases : forall datetime q r,
  d1_where datetime (shape_clauses (shape_of q)) (bound_values q) r
    = Normal (d1_satisfies datetime q r)
  \/ (d1_where datetime (shape_clauses (shape_of q)) (bound_values q) r
        = Throw pattern_too_complex
      /\ patterns_fit q = false).
Proof.
  intros. rewrite d1_where_shape. unfold d1_satisfies, patterns_fit.
  destruct (value_fits (p_tracking_number q));
    [|right; split; reflexivity].
  destruct (d1_substring_filter (p_tracking_number q)
              (Some (tracking_number r))); [|left; reflexivity].
  destruct (value_fits (p_order_number q));
    [left; reflexivity | right; split; reflexivity].
Qed.

Lemma d1_scan_cases : forall datetime q t,
  d1_scan datetime (shape_clauses (shape_of q)) (bound_values q) t
    = Normal (filter (d1_satisfies datetime q) t)
  \/ (d1_scan datetime (shape_clauses (shape_of q)) (bound_values q) t
        = Throw pattern_too_complex
      /\ patterns_fit q = false /\ t <> []).
Proof.
  intros datetime q t. induction t as [|r t IH]; [left; reflexivity|].
  cbn [d1_scan filter].
  destruct (d1_where_cases datetime q r) as [E | [E F]]; rewrite E.
  - destruct IH as [E' | (E' & F & _)]; rewrite E'.
    + left. reflexivity.
    + right. repeat split; [exact F | discriminate].
  - right. repeat split; [exact F | discriminate].
Qed.

Lemma d1_exec_search : forall datetime now q t,
  d1_exec datetime now
    {| bs_sql := shape_sql (shape_of q); bs_args := bound_values q |} t
  = match d1_scan datetime (shape_clauses (shape_of q)) (bound_values q) t with
    | Throw e => Throw e
    | Normal rows => Normal (limit_rows 2000 (order_by_created_at rows), t)
    end.
Proof.
  intros. unfold d1_exec. cbn [bs_sql bs_args].
  rewrite prepare_shape_sql, shape_clauses_length, Nat.eqb_refl.
  reflexivity.
Qed.

(** A search on D1: the rows the filters keep, or the error of a pattern
    that is too long, which needs a row to be met. *)
Lemma handleSearch_d1 : forall datetime q w,
  run (d1_host datetime) (handleSearch q) w
    = ({| reply_payload :=
            SearchResults (d1_search_rows datetime q (table w))
              (List.length (d1_search_rows datetime q (table w)));
          reply_status := 200 |},
       w,
       [D1All (shape_sql (shape_of q)) (bound_values q)])
  \/ (patterns_fit q = false /\ table w <> []
      /\ run (d1_host datetime) (handleSearch q) w
         = ({| reply_payload :=
                 ErrorMessage
                   "D1_ERROR: LIKE or GLOB pattern too complex: SQLITE_ERROR";
               reply_status := 500 |},
            w,
            [D1All (shape_sql (shape_of q)) (bound_values q)])).
Proof.
  intros. rewrite handleSearch_run. cbn [d1_host].
  rewrite d1_exec_search.
  destruct (d1_scan_cases datetime q (table w)) as [E | (E & F & G)];
    rewrite E.
  - left. rewrite with_table_same. reflexivity.
  - right. repeat split; assumption.
Qed.

Lemma handleSearch_d1_fit : forall datetime q w,
  patterns_fit q = true ->
  run (d1_host datetime) (handleSearch q) w
  = ({| reply_payload :=
          SearchResults (d1_search_rows datetime q (table w))
            (List.length (d1_search_rows datetime q (table w)));
        reply_status := 200 |},
     w,
     [D1All (shape_sql (shape_of q)) (bound_values q)]).
Proof.
  intros datetime q w H.
  destruct (handleSearch_d1 datetime q w) as [E | (F & _)]; [exact E|].
  rewrite F in H. discriminate.
Qed.

Lemma d1_search_fit : forall datetime q w,
  patterns_fit q = true ->
  d1_search datetime q w = d1_search_rows datetime q (table w).
Proof.
  intros datetime q w H. unfold d1_search.
  rewrite handleSearch_d1_fit by exact H. reflexivity.
Qed.

(** The rows that [ORDER BY created_at ASC LIMIT 2000] leaves of the rows
    a filter keeps. *)
Lemma kept_rows_spec : forall (f : TrackingNumber -> bool)
    (t : list TrackingNumber),
  (forall r, In r (limit_rows 2000 (order_by_created_at (filter f t))) ->
     In r t /\ f r = true)
  /\ (forall r, In r t -> f r = true ->
        In r (limit_rows 2000 (order_by_created_at (filter f t)))
        \/ (List.length (limit_rows 2000 (order_by_created_at (filter f t)))
            = 2000
            /\ forall r',
                 In r' (limit_rows 2000 (order_by_created_at (filter f t))) ->
                 created_le r' r))
  /\ StronglySorted created_le
       (limit_rows 2000 (order_by_created_at (filter f t)))
  /\ List.length (limit_rows 2000 (order_by_created_at (filter f t))) <= 2000.
Proof.
  intros f t. set (matching := filter f t).
  destruct (limit_rows_sorted 2000 (order_by_created_at matching)
              (order_by_created_at_sorted matching))
    as (Hsorted & Hlen & Hsub & Hcap).
  assert (N.to_nat 2000 = 2000) as E2000 by lia.
  rewrite E2000 in *.
  split; [|split; [|split; [exact Hsorted | exact Hlen]]].
  - intros r Hr. apply Hsub in Hr.
    apply (Permutation_in _ (order_by_created_at_perm matching)) in Hr.
    unfold matching in Hr. apply filter_In in Hr. exact Hr.
  - intros r Hin Hsat. apply Hcap.
    apply (Permutation_in _ (Permutation_sym (order_by_created_at_perm matching))).
    unfold matching. apply filter_In. split; assumption.
Qed.


(* ================================================================== *)
(** * [LIKE] on D1 and the substring of the specification              *)
(* ================================================================== *)

Lemma d1_like_percent : forall p s,
  d1_like (String "%" p) s = d1_star p false s.
Proof.
  intros p s. cbn [d1_like Ascii.eqb Bool.eqb].
  match goal with
  | |- ?star false s = _ =>
      assert (forall inside, star inside s = d1_star p inside s) as E
  end.
  { induction s as [|b s IH]; intro inside; [reflexivity|].
    cbn [d1_star]. rewrite <- IH. reflexivity. }
  apply E.
Qed.

Lemma d1_like_underscore : forall p s,
  d1_like (String "_" p) s
  = match after_char s with Some s' => d1_like p s' | None => false end.
Proof. reflexivity. Qed.

Lemma d1_like_cons_other : forall c p d s,
  Ascii.eqb c "%" = false -> Ascii.eqb c "_" = false ->
  d1_like (String c p) (String d s) = like_char c d && d1_like p s.
Proof. intros c p d s H1 H2. cbn [d1_like]. rewrite H1, H2. reflexivity. Qed.



Lemma d1_star_first : forall p s,
  d1_like p s = true -> d1_star p false s = true.
Proof.
  intros p [|b s] H; [exact H|].
  cbn [d1_star andb]. rewrite H. reflexivity.
Qed.



Lemma d1_like_anything : forall s, d1_like "%" s = true.
Proof.
  intro s. rewrite d1_like_percent.
  assert (forall inside, d1_star "" inside s = true) as E.
  { induction s as [|c s IH]; intro inside; [reflexivity|].
    cbn [d1_star]. rewrite IH. apply orb_true_r. }
  apply E.
Qed.

(** A pattern matches its own text, whatever wildcards it holds. *)
Lemma d1_like_own_text : forall x p s,
  d1_like p s = true -> d1_like (x ++ p) (x ++ s) = true.
Proof.
  intros x p s H. induction x as [|c x IH]; [exact H|].
  cbn [append].
  destruct (Ascii.eqb c "%") eqn:E.
  - apply Ascii.eqb_eq in E. subst c.
    rewrite d1_like_percent. cbn [d1_star andb].
    change (is_lead "%") with false. cbn [orb].
    rewrite (d1_star_first _ _ IH). apply orb_true_r.
  - destruct (Ascii.eqb c "_") eqn:E'.
    + apply Ascii.eqb_eq in E'. subst c.
      rewrite d1_like_underscore. exact IH.
    + rewrite d1_like_cons_other by assumption.
      unfold like_char. rewrite Ascii.eqb_refl, IH. reflexivity.
Qed.

Lemma append_empty : forall s : string, s ++ "" = s.
Proof.
  induction s as [|c s IH]; [reflexivity|]. cbn [append]. rewrite IH.
  reflexivity.
Qed.

(** The text [x] matches [LIKE '%x%']. *)
Lemma d1_like_itself : forall x, d1_like ("%" ++ x ++ "%") x = true.
Proof.
  intro x. change ("%" ++ x ++ "%") with (String "%" (x ++ "%")).
  rewrite d1_like_percent. apply d1_star_first.
  rewrite <- (append_empty x) at 2.
  apply d1_like_own_text, d1_like_anything.
Qed.











(* ================================================================== *)
(** * What a search on D1 returns                                      *)
(* ================================================================== *)





(* ================================================================== *)
(** * Negation                                                         *)
(* ================================================================== *)








Lemma search_is_search_rows : forall datetime q w,
  search datetime q w = search_rows datetime q (table w).
Proof.
  intros. unfold search. rewrite handleSearch_host. reflexivity.
Qed.

Lemma limit_rows_In : forall limit l r, In r (limit_rows limit l) -> In r l.
Proof.
  intros limit l r H. unfold limit_rows in H.
  rewrite <- (firstn_skipn (N.to_nat limit) l). apply in_or_app. left. exact H.
Qed.

Lemma search_rows_satisfy : forall datetime q t r,
  In r (search_rows datetime q t) -> In r t /\ satisfies datetime q r = true.
Proof.
  intros datetime q t r H. unfold search_rows in H.
  apply limit_rows_In in H.
  apply (Permutation_in _ (order_by_created_at_perm _)) in H.
  apply filter_In in H. exact H.
Qed.

Lemma satisfies_parts : forall datetime q r,
  satisfies datetime q r = true ->
  substring_filter (p_tracking_number q) (Some (tracking_number r)) = true
  /\ substring_filter (p_order_number q) (order_number r) = true
  /\ status_filter (p_status q) (status r) = true
  /\ after_filter datetime (p_created_after q) (created_at r) = true
  /\ before_filter datetime (p_created_before q) (created_at r) = true.
Proof.
  intros datetime q r H. unfold satisfies in H.
  repeat (apply andb_true_iff in H; destruct H as [H ?]).
  repeat split; assumption.
Qed.




(* ================================================================== *)
(** * Fetching the pages                                               *)
(* ================================================================== *)

Lemma run_fetchShipStationPage : forall datetime url credentials w,
  run (host datetime) (fetchShipStationPage url credentials) w
  = (page_result (network w url ("Basic " ++ credentials)), w,
     [Fetch url ("Basic " ++ credentials)]).
Proof.
  intros. unfold fetchShipStationPage. cbn [run host].
  unfold page_result.
  destruct (network w url ("Basic " ++ credentials)) as [resp | e];
    [|reflexivity].
  destruct (negb (ok resp)); [reflexivity|].
  destruct (resp_json resp) as [data | e]; [|reflexivity].
  destruct (shipments data); reflexivity.
Qed.

Lemma page_url_later : forall dateStr k,
  (2 <= k)%Z ->
  page_url dateStr k = shipmentsUrl dateStr ++ "&page=" ++ decimal (Z.to_N k).
Proof.
  intros dateStr k H. unfold page_url.
  destruct (Z.eqb_spec k 1) as [E | _]; [lia | reflexivity].
Qed.

Lemma run_fetch_page : forall datetime dateStr env w k,
  run (host datetime)
      (fetchShipStationPage (page_url dateStr k) (credentials_of env)) w
  = (page_outcome w dateStr env k, w, [page_call dateStr env k]).
Proof. intros. apply run_fetchShipStationPage. Qed.

Lemma run_fetch_first_page : forall datetime dateStr env w,
  run (host datetime)
      (fetchShipStationPage (shipmentsUrl dateStr) (credentials_of env)) w
  = (page_outcome w dateStr env 1, w, [page_call dateStr env 1]).
Proof. intros. apply run_fetchShipStationPage. Qed.

Lemma page_succeeds_outcome : forall w dateStr env k l p,
  page_succeeds w dateStr env k l p ->
  page_outcome w dateStr env k
  = Normal {| page_shipments := l; page_pages := p |}.
Proof.
  intros w dateStr env k l p (resp & data & Ha & Hok & Hj & Hs & Hp).
  unfold page_outcome, page_result. rewrite Ha, Hok, Hj, Hs, Hp. reflexivity.
Qed.

Lemma page_transport_failure_outcome : forall w dateStr env k resp,
  page_transport_failure w dateStr env k resp ->
  page_outcome w dateStr env k
  = Throw (ThrownError
             ("ShipStation API error: " ++ decimal (resp_status resp)
              ++ " - " ++ resp_text resp)).
Proof.
  intros w dateStr env k resp [Ha Hok].
  unfold page_outcome, page_result. rewrite Ha, Hok. reflexivity.
Qed.

Lemma page_lacks_shipments_outcome : forall w dateStr env k,
  page_lacks_shipments w dateStr env k ->
  page_outcome w dateStr env k
  = Throw (ThrownError "Invalid response format: missing shipments array").
Proof.
  intros w dateStr env k (resp & data & Ha & Hok & Hj & Hs).
  unfold page_outcome, page_result. rewrite Ha, Hok, Hj, Hs. reflexivity.
Qed.

(** One turn of the loop. *)
Lemma run_fetchRemainingPages_step :
  forall datetime dateStr env w count page0 acc,
    (2 <= page0)%Z ->
    run (host datetime)
        (fetchRemainingPages (shipmentsUrl dateStr) (credentials_of env)
           (S count) page0 acc) w
    = match page_outcome w dateStr env page0 with
      | Normal d =>
          let '(r, w2, t) :=
            run (host datetime)
                (fetchRemainingPages (shipmentsUrl dateStr) (credentials_of env)
                   count (page0 + 1) (app acc (page_shipments d))) w in
          (r, w2, page_call dateStr env page0 :: t)
      | Throw e => (Throw e, w, [page_call dateStr env page0])
      end.
Proof.
  intros datetime dateStr env w count page0 acc H.
  cbn [fetchRemainingPages]. rewrite run_bindE.
  rewrite <- (page_url_later dateStr page0 H), run_fetch_page.
  destruct (page_outcome w dateStr env page0) as [d | e]; reflexivity.
Qed.

(** The loop when every page it asks for succeeds. *)
Lemma run_fetchRemainingPages_ok :
  forall datetime dateStr env w (L : Z -> list RawShipment) count page0 acc,
    (2 <= page0)%Z ->
    (forall j, (page0 <= j < page0 + Z.of_nat count)%Z ->
       exists p, page_succeeds w dateStr env j (L j) p) ->
    run (host datetime)
        (fetchRemainingPages (shipmentsUrl dateStr) (credentials_of env)
           count page0 acc) w
    = (Normal (app acc (flat_map L (pages_from page0 count))), w,
       map (page_call dateStr env) (pages_from page0 count)).
Proof.
  intros datetime dateStr env w L count.
  induction count as [|count IH]; intros page0 acc H2 Hall.
  - simpl. rewrite app_nil_r. reflexivity.
  - rewrite run_fetchRemainingPages_step by exact H2.
    destruct (Hall page0 ltac:(lia)) as [p Hp].
    rewrite (page_succeeds_outcome _ _ _ _ _ _ Hp). cbn [page_shipments].
    rewrite IH.
    + cbn [pages_from flat_map map]. rewrite app_assoc. reflexivity.
    + lia.
    + intros j Hj. apply Hall. lia.
Qed.

(** The loop when one page it asks for fails: it stops at the first page
    that fails, with the error of that page. *)
Lemma run_fetchRemainingPages_fails :
  forall datetime dateStr env w count page0 acc (i : nat),
    (2 <= page0)%Z ->
    i < count ->
    (exists e, page_outcome w dateStr env (page0 + Z.of_nat i) = Throw e) ->
    exists (n : nat) (e : Thrown),
      n <= i
      /\ page_outcome w dateStr env (page0 + Z.of_nat n) = Throw e
      /\ (forall j, j < n ->
            exists d, page_outcome w dateStr env (page0 + Z.of_nat j) = Normal d)
      /\ run (host datetime)
             (fetchRemainingPages (shipmentsUrl dateStr) (credentials_of env)
                count page0 acc) w
         = (Throw e, w, map (page_call dateStr env) (pages_from page0 (S n))).
Proof.
  intros datetime dateStr env w count.
  induction count as [|count IH]; intros page0 acc i H2 Hi Hfail; [lia|].
  rewrite run_fetchRemainingPages_step by exact H2.
  destruct (page_outcome w dateStr env page0) as [d | e] eqn:E.
  - destruct i as [|i].
    + destruct Hfail as [e He]. rewrite Z.add_0_r in He. congruence.
    + destruct (IH (page0 + 1)%Z (app acc (page_shipments d)) i
                  ltac:(lia) ltac:(lia)) as (n & e & Hn & He & Hbefore & Hrun).
      * destruct Hfail as [e He]. exists e.
        replace (page0 + 1 + Z.of_nat i)%Z with (page0 + Z.of_nat (S i))%Z by lia.
        exact He.
      * exists (S n), e. split; [lia|]. split; [|split].
        -- replace (page0 + Z.of_nat (S n))%Z with (page0 + 1 + Z.of_nat n)%Z by lia.
           exact He.
        -- intros [|j] Hj.
           ++ exists d. rewrite Z.add_0_r. exact E.
           ++ destruct (Hbefore j ltac:(lia)) as [d' Hd']. exists d'.
              replace (page0 + Z.of_nat (S j))%Z with (page0 + 1 + Z.of_nat j)%Z by lia.
              exact Hd'.
        -- rewrite Hrun. reflexivity.
  - exists 0, e. split; [lia|]. split; [|split].
    + rewrite Z.add_0_r. exact E.
    + intros j Hj. lia.
    + reflexivity.
Qed.

Lemma run_fetchNewShipments : forall datetime dateStr env w,
  run (host datetime) (fetchNewShipments dateStr env) w
  = match page_outcome w dateStr env 1 with
    | Throw e =>
        (Throw e, w,
         [Btoa (SHIPSTATION_API_KEY env ++ ":" ++ SHIPSTATION_API_SECRET env);
          page_call dateStr env 1])
    | Normal first =>
        let '(r, w2, t) :=
          run (host datetime)
              (if (1 <? page_pages first)%Z then
                 fetchRemainingPages (shipmentsUrl dateStr) (credentials_of env)
                   (Z.to_nat (page_pages first - 1)) 2 (page_shipments first)
               else Ret (Normal (page_shipments first))) w in
        (match r with
         | Normal all => Normal (map projectShipment all)
         | Throw e => Throw e
         end, w2,
         Btoa (SHIPSTATION_API_KEY env ++ ":" ++ SHIPSTATION_API_SECRET env)
           :: page_call dateStr env 1 :: t)
    end.
Proof.
  intros. unfold fetchNewShipments. cbn [run host].
  fold (credentials_of env). fold (shipmentsUrl dateStr).
  rewrite run_bindE, run_fetch_first_page.
  destruct (page_outcome w dateStr env 1) as [first | e]; [|reflexivity].
  rewrite run_bindE.
  destruct (run (host datetime)
              (if (1 <? page_pages first)%Z
               then fetchRemainingPages (shipmentsUrl dateStr)
                      (credentials_of env)
                      (Z.to_nat (page_pages first - 1)) 2
                      (page_shipments first)
               else Ret (Normal (page_shipments first))) w)
    as [[r w2] t].
  destruct r as [all | e]; cbn [run app]; [rewrite app_nil_r|]; reflexivity.
Qed.

(** C4. When page [k] of the listing (the first page, or a page up to the
    count the first page declares) answers with a transport status that is
    not a success, or with a body without [shipments], the fetch throws:
    it returns no list.  It stops at the first page [n <= k] that fails,
    with the error of that page, having asked for the pages [1..n] and no
    other.  When the pages before [k] succeed, that page is [k], and the
    error of a transport failure is made of the status and the body. *)
Theorem fetch_throws_when_a_page_fails :
  forall (datetime : string -> option string) (dateStr : string) (env : Env)
         (w : World) (k : Z),
    (k = 1
     \/ (2 <= k /\ exists l P, page_succeeds w dateStr env 1 l P /\ k <= P))%Z ->
    ((exists resp, page_transport_failure w dateStr env k resp)
     \/ page_lacks_shipments w dateStr env k) ->
    exists (n : nat) (e : Thrown),
      1 <= n /\ (Z.of_nat n <= k)%Z
      /\ run (host datetime) (fetchNewShipments dateStr env) w
         = (Throw e, w,
            Btoa (SHIPSTATION_API_KEY env ++ ":" ++ SHIPSTATION_API_SECRET env)
              :: map (page_call dateStr env) (page_numbers n))
      /\ page_outcome w dateStr env (Z.of_nat n) = Throw e
      /\ ((forall j, (1 <= j < k)%Z ->
             exists l p, page_succeeds w dateStr env j l p) ->
          Z.of_nat n = k
          /\ (forall resp, page_transport_failure w dateStr env k resp ->
                e = ThrownError
                      ("ShipStation API error: " ++ decimal (resp_status resp)
                       ++ " - " ++ resp_text resp))
          /\ (page_lacks_shipments w dateStr env k ->
                e = ThrownError
                      "Invalid response format: missing shipments array")).
Proof.
  intros datetime dateStr env w k Hk Hfail.
  assert (exists ek, page_outcome w dateStr env k = Throw ek) as Hthrow.
  { destruct Hfail as [[resp Hr] | Hl].
    - eexists. apply (page_transport_failure_outcome _ _ _ _ _ Hr).
    - eexists. apply (page_lacks_shipments_outcome _ _ _ _ Hl). }
  assert (exists (n : nat) (e : Thrown),
            1 <= n /\ (Z.of_nat n <= k)%Z
            /\ run (host datetime) (fetchNewShipments dateStr env) w
               = (Throw e, w,
                  Btoa (SHIPSTATION_API_KEY env ++ ":"
                        ++ SHIPSTATION_API_SECRET env)
                    :: map (page_call dateStr env) (page_numbers n))
            /\ page_outcome w dateStr env (Z.of_nat n) = Throw e) as Hrun.
  { rewrite run_fetchNewShipments.
    destruct (page_outcome w dateStr env 1) as [first | e1] eqn:E1.
    - destruct Hk as [-> | (Hk2 & l & P & Hp & HkP)].
      + destruct Hthrow as [ek Hek]. congruence.
      + rewrite (page_succeeds_outcome _ _ _ _ _ _ Hp) in E1.
        injection E1 as <-. cbn [page_pages page_shipments].
        destruct (Z.ltb_spec 1 P) as [_ | HP]; [|lia].
        destruct (run_fetchRemainingPages_fails datetime dateStr env w
                    (Z.to_nat (P - 1)) 2 l (Z.to_nat (k - 2))
                    ltac:(lia) ltac:(lia)) as (n & e & Hn & He & _ & Hr).
        * replace (2 + Z.of_nat (Z.to_nat (k - 2)))%Z with k by lia.
          exact Hthrow.
        * exists (S (S n)), e. rewrite Hr.
          split; [lia|]. split; [lia|]. split; [reflexivity|].
          replace (Z.of_nat (S (S n))) with (2 + Z.of_nat n)%Z by lia.
          exact He.
    - exists 1, e1. split; [lia|]. split; [lia|]. split; [reflexivity|].
      exact E1. }
  destruct Hrun as (n & e & Hn1 & Hnk & Hr & He).
  exists n, e.
  split; [exact Hn1|]. split; [exact Hnk|]. split; [exact Hr|].
  split; [exact He|]. intro Hbefore.
  assert (Z.of_nat n = k) as E.
  { destruct (Z.eq_dec (Z.of_nat n) k) as [E | NE]; [exact E|].
    destruct (Hbefore (Z.of_nat n) ltac:(lia)) as (l & p & Hs).
    rewrite (page_succeeds_outcome _ _ _ _ _ _ Hs) in He. discriminate. }
  rewrite E in He. split; [exact E|]. split.
  - intros resp Hresp.
    rewrite (page_transport_failure_outcome _ _ _ _ _ Hresp) in He.
    congruence.
  - intros Hl.
    rewrite (page_lacks_shipments_outcome _ _ _ _ Hl) in He.
    congruence.
Qed.

(** C5. When every page succeeds, the fetch returns the shipments of the
    pages [1..pages] in that order, each reduced to its tracking number and
    order number, where [pages] is what the first page declares (the first
    page alone when it declares less than two).  The pages are asked for
    one after the other in that order; [btoa] is called once, before the
    first request, and every request carries its result. *)
Theorem fetch_returns_all_pages_in_order :
  forall (datetime : string -> option string) (dateStr : string) (env : Env)
         (w : World) (L : Z -> list RawShipment) (P : Z),
    page_succeeds w dateStr env 1 (L 1%Z) P ->
    (forall j, (2 <= j <= P)%Z ->
       exists p, page_succeeds w dateStr env j (L j) p) ->
    run (host datetime) (fetchNewShipments dateStr env) w
    = (Normal (map projectShipment
                 (flat_map L (page_numbers (Z.to_nat (Z.max 1 P))))),
       w,
       Btoa (SHIPSTATION_API_KEY env ++ ":" ++ SHIPSTATION_API_SECRET env)
         :: map (fun k => Fetch (page_url dateStr k)
                            ("Basic " ++ btoa (SHIPSTATION_API_KEY env ++ ":"
                                               ++ SHIPSTATION_API_SECRET env)))
                (page_numbers (Z.to_nat (Z.max 1 P)))).
Proof.
  intros datetime dateStr env w L P H1 Hrest.
  rewrite run_fetchNewShipments.
  rewrite (page_succeeds_outcome _ _ _ _ _ _ H1).
  cbn [page_pages page_shipments].
  change (fun k => Fetch (page_url dateStr k)
                     ("Basic " ++ btoa (SHIPSTATION_API_KEY env ++ ":"
                                        ++ SHIPSTATION_API_SECRET env)))
    with (page_call dateStr env).
  destruct (Z.ltb_spec 1 P) as [HP | HP].
  - rewrite (run_fetchRemainingPages_ok datetime dateStr env w L).
    + replace (Z.to_nat (Z.max 1 P)) with (S (Z.to_nat (P - 1))) by lia.
      reflexivity.
    + lia.
    + intros j Hj. apply Hrest. lia.
  - replace (Z.to_nat (Z.max 1 P)) with 1 by lia.
    cbn [run page_numbers pages_from flat_map map]. rewrite app_nil_r.
    reflexivity.
Qed.

Lemma three_pages_succeed : forall j,
  (1 <= j <= 3)%Z ->
  page_succeeds (world_of_network three_pages) "2024-05-01" sample_env j
    (sample_shipments j) 3.
Proof.
  intros j Hj.
  assert (j = 1 \/ j = 2 \/ j = 3)%Z as [-> | [-> | ->]] by lia.
  - exists (json_page [shipment_1] 1), (mkSSR (Some [shipment_1]) 3 1 3).
    repeat split.
  - exists (json_page [shipment_2] 2), (mkSSR (Some [shipment_2]) 3 2 3).
    repeat split.
  - exists (json_page [shipment_3] 3), (mkSSR (Some [shipment_3]) 3 3 3).
    repeat split.
Qed.

Lemma second_page_down_first_succeeds :
  page_succeeds (world_of_network second_page_down) "2024-05-01" sample_env 1
    [shipment_1] 3.
Proof.
  exists (json_page [shipment_1] 1), (mkSSR (Some [shipment_1]) 3 1 3).
  repeat split.
Qed.

Lemma second_page_down_fails :
  page_transport_failure (world_of_network second_page_down) "2024-05-01"
    sample_env 2 server_error.
Proof. split; [vm_compute|]; reflexivity. Qed.

Lemma fetch_throws_when_a_page_fails_witness :
  run (host datetime_iso) (fetchNewShipments "2024-05-01" sample_env)
      (world_of_network second_page_down)
  = (Throw (ThrownError "ShipStation API error: 500 - Internal Server Error"),
     world_of_network second_page_down,
     [Btoa "key:secret";
      Fetch "https://ssapi.shipstation.com/shipments?shipDateStart=2024-05-01"
        "Basic a2V5OnNlY3JldA==";
      Fetch "https://ssapi.shipstation.com/shipments?shipDateStart=2024-05-01&page=2"
        "Basic a2V5OnNlY3JldA=="]).
Proof.
  destruct (fetch_throws_when_a_page_fails datetime_iso "2024-05-01" sample_env
              (world_of_network second_page_down) 2)
    as (n & e & Hn1 & Hnk & Hrun & He & Hfirst).
  - right. split; [lia|]. exists [shipment_1], 3%Z.
    split; [exact second_page_down_first_succeeds | lia].
  - left. exists server_error. exact second_page_down_fails.
  - destruct Hfirst as (En & Hmsg & _).
    + intros j Hj. assert (j = 1)%Z as -> by lia.
      exists [shipment_1], 3%Z. exact second_page_down_first_succeeds.
    + assert (n = 2) as -> by lia.
      rewrite Hrun, (Hmsg server_error second_page_down_fails).
      reflexivity.
Defined.

Lemma fetch_returns_all_pages_in_order_witness :
  run (host datetime_iso) (fetchNewShipments "2024-05-01" sample_env)
      (world_of_network three_pages)
  = (Normal [mkShipment "9400111105501612009154" "ORD-1";
             mkShipment "9400111105501612835722" "ORD-2";
             mkShipment "9400111105501612819753" "ORD-3"],
     world_of_network three_pages,
     [Btoa "key:secret";
      Fetch "https://ssapi.shipstation.com/shipments?shipDateStart=2024-05-01"
        "Basic a2V5OnNlY3JldA==";
      Fetch "https://ssapi.shipstation.com/shipments?shipDateStart=2024-05-01&page=2"
        "Basic a2V5OnNlY3JldA==";
      Fetch "https://ssapi.shipstation.com/shipments?shipDateStart=2024-05-01&page=3"
        "Basic a2V5OnNlY3JldA=="]).
Proof.
  rewrite (fetch_returns_all_pages_in_order datetime_iso "2024-05-01"
             sample_env (world_of_network three_pages) sample_shipments 3).
  - reflexivity.
  - apply three_pages_succeed. lia.
  - intros j Hj. exists 3%Z. apply three_pages_succeed. lia.
Defined.

(* ================================================================== *)
(** * Storing the tracking numbers                                     *)
(* ================================================================== *)

Lemma prepare_insert : prepare INSERT_SQL = Some InsertPending.
Proof. vm_compute. reflexivity. Qed.

Lemma prepare_update : prepare UPDATE_SQL = Some UpdateStatus.
Proof. vm_compute. reflexivity. Qed.

Lemma sqlite_batch_insert : forall datetime now l t,
  sqlite_batch datetime now (insert_batch l) t = Normal (insert_all now l t).
Proof.
  intros datetime now l. induction l as [|s l IH]; intro t.
  - reflexivity.
  - cbn [insert_batch map sqlite_batch]. unfold sqlite_exec.
    cbn [bs_sql bs_args]. rewrite prepare_insert.
    cbn [param_count List.length Nat.eqb negb].
    apply IH.
Qed.

Lemma run_storeNewTrackingNumbers : forall datetime l w,
  run (host datetime) (storeNewTrackingNumbers l) w
  = (Normal tt, with_table w (insert_all (clock w) l (table w)),
     match l with [] => [] | _ :: _ => [D1Batch (insert_batch l)] end).
Proof.
  intros datetime l w. unfold storeNewTrackingNumbers.
  destruct l as [|s l].
  - cbn. rewrite with_table_same. reflexivity.
  - cbn [List.length Nat.eqb run host]. fold (insert_batch (s :: l)).
    rewrite sqlite_batch_insert. reflexivity.
Qed.

Lemma has_tracking_number_spec : forall tn t,
  has_tracking_number tn t = true <-> In tn (keys t).
Proof.
  intros tn t. unfold has_tracking_number, keys.
  rewrite existsb_exists, in_map_iff. split.
  - intros (r & Hr & E). apply String.eqb_eq in E. exists r. split; assumption.
  - intros (r & E & Hr). exists r. split; [exact Hr|].
    apply String.eqb_eq. exact E.
Qed.

(** An insert of a tracking number the table has changes nothing. *)
Lemma insert_pending_present : forall now tn on t,
  has_tracking_number tn t = true -> insert_pending now tn on t = t.
Proof. intros now tn on t H. unfold insert_pending. rewrite H. reflexivity. Qed.

Lemma insert_pending_has : forall now tn on t,
  has_tracking_number tn (insert_pending now tn on t) = true.
Proof.
  intros now tn on t. unfold insert_pending.
  destruct (has_tracking_number tn t) eqn:E; [exact E|].
  unfold has_tracking_number. rewrite existsb_app. cbn.
  rewrite String.eqb_refl. rewrite orb_true_r. reflexivity.
Qed.

Lemma insert_pending_keeps : forall now tn on t x,
  has_tracking_number x t = true ->
  has_tracking_number x (insert_pending now tn on t) = true.
Proof.
  intros now tn on t x H. unfold insert_pending.
  destruct (has_tracking_number tn t); [exact H|].
  unfold has_tracking_number in *. rewrite existsb_app, H. reflexivity.
Qed.

Lemma insert_all_keeps : forall now l t x,
  has_tracking_number x t = true ->
  has_tracking_number x (insert_all now l t) = true.
Proof.
  intros now l. induction l as [|s l IH]; intros t x H; [exact H|].
  change (insert_all now (s :: l) t)
    with (insert_all now l
            (insert_pending now (trackingNumber s) (orderNumber s) t)).
  apply IH. apply insert_pending_keeps. exact H.
Qed.

Lemma insert_all_has : forall now l t s,
  In s l -> has_tracking_number (trackingNumber s) (insert_all now l t) = true.
Proof.
  intros now l. induction l as [|a l IH]; intros t s H; [destruct H|].
  change (insert_all now (a :: l) t)
    with (insert_all now l
            (insert_pending now (trackingNumber a) (orderNumber a) t)).
  destruct H as [-> | H].
  - apply insert_all_keeps. apply insert_pending_has.
  - apply IH. exact H.
Qed.

(** Inserts of tracking numbers the table has change nothing. *)
Lemma insert_all_present : forall now l t,
  (forall s, In s l -> has_tracking_number (trackingNumber s) t = true) ->
  insert_all now l t = t.
Proof.
  intros now l. induction l as [|a l IH]; intros t H; [reflexivity|].
  change (insert_all now (a :: l) t)
    with (insert_all now l
            (insert_pending now (trackingNumber a) (orderNumber a) t)).
  rewrite insert_pending_present by (apply H; left; reflexivity).
  apply IH. intros s Hs. apply H. right. exact Hs.
Qed.

(** The inserts add rows at the end and touch no other row. *)
Lemma insert_all_appends : forall now l t,
  exists added,
    insert_all now l t = app t added
    /\ Forall (fresh_row now t) added.
Proof.
  intros now l. induction l as [|a l IH]; intro t.
  - exists []. rewrite app_nil_r. split; [reflexivity | constructor].
  - change (insert_all now (a :: l) t)
      with (insert_all now l
              (insert_pending now (trackingNumber a) (orderNumber a) t)).
    destruct (IH (insert_pending now (trackingNumber a) (orderNumber a) t))
      as (added & E & Hfresh).
    unfold insert_pending in *.
    destruct (has_tracking_number (trackingNumber a) t) eqn:Ha.
    + exists added. split; assumption.
    + exists ({| tracking_number := trackingNumber a;
                 order_number := Some (orderNumber a);
                 status := "pending"; created_at := now;
                 updated_at := now |} :: added).
      rewrite E, <- app_assoc. split; [reflexivity|].
      constructor.
      * repeat split. exact Ha.
      * rewrite Forall_forall in *. intros r Hr.
        destruct (Hfresh r Hr) as (H1 & H2 & H3). repeat split; try assumption.
        unfold has_tracking_number in *. rewrite existsb_app in H3.
        apply orb_false_iff in H3. apply H3.
Qed.

Lemma insert_pending_NoDup : forall now tn on t,
  NoDup (keys t) -> NoDup (keys (insert_pending now tn on t)).
Proof.
  intros now tn on t H. unfold insert_pending.
  destruct (has_tracking_number tn t) eqn:E; [exact H|].
  unfold keys. rewrite map_app. cbn [map tracking_number].
  apply (Permutation_NoDup (Permutation_cons_append (keys t) tn)).
  constructor; [|exact H].
  intro Hin. apply has_tracking_number_spec in Hin. congruence.
Qed.

Lemma insert_all_NoDup : forall now l t,
  NoDup (keys t) -> NoDup (keys (insert_all now l t)).
Proof.
  intros now l. induction l as [|a l IH]; intros t H; [exact H|].
  change (insert_all now (a :: l) t)
    with (insert_all now l
            (insert_pending now (trackingNumber a) (orderNumber a) t)).
  apply IH. apply insert_pending_NoDup. exact H.
Qed.

(** C6. Storing a list of shipments twice leaves the table as storing it
    once does, whatever the time of the second run: the rows of the second
    run are all there already, and an insert of a tracking number that is
    there changes nothing.  The first run adds rows at the end of the
    table, each [pending] and for a tracking number the table did not
    have, and touches no other row; the table has every tracking number of
    the list after it, and has no tracking number twice if it had none
    twice before.  The empty list makes no call of the store. *)
Theorem store_twice_is_store_once :
  forall (datetime : string -> option string) (l : list ShipmentData)
         (w : World) (later : string),
    let once := run (host datetime) (storeNewTrackingNumbers l) w in
    let twice :=
      run (host datetime) (storeNewTrackingNumbers l)
          (with_clock (world_of once) later) in
    value_of once = Normal tt
    /\ value_of twice = Normal tt
    /\ table (world_of twice) = table (world_of once)
    /\ (exists added,
          table (world_of once) = app (table w) added
          /\ Forall (fresh_row (clock w) (table w)) added)
    /\ (forall s, In s l ->
          has_tracking_number (trackingNumber s) (table (world_of once)) = true)
    /\ ((forall s, In s l ->
           has_tracking_number (trackingNumber s) (table w) = true) ->
        table (world_of once) = table w)
    /\ (NoDup (keys (table w)) -> NoDup (keys (table (world_of once))))
    /\ (l = [] -> calls_of once = [] /\ world_of once = w)
    /\ (l <> [] -> calls_of once = [D1Batch (insert_batch l)]).
Proof.
  intros datetime l w later. cbv zeta.
  rewrite !run_storeNewTrackingNumbers.
  unfold value_of, world_of, calls_of, with_clock, with_table.
  cbn [fst snd table clock].
  split; [reflexivity|]. split; [reflexivity|]. split.
  { apply insert_all_present. intros s Hs. apply insert_all_has. exact Hs. }
  split; [apply insert_all_appends|].
  split; [intros s Hs; apply insert_all_has; exact Hs|].
  split; [apply insert_all_present|].
  split; [apply insert_all_NoDup|].
  split.
  - intros ->. split; [reflexivity|]. destruct w; reflexivity.
  - intro Hne. destruct l; [contradiction | reflexivity].
Qed.

Lemma sample_rows_NoDup : NoDup (keys (table sample_world)).
Proof.
  cbn. repeat constructor; cbn; intuition discriminate.
Qed.

Lemma store_twice_is_store_once_witness :
  table (world_of
           (run (host datetime_iso) (storeNewTrackingNumbers sample_list)
              (with_clock
                 (world_of (run (host datetime_iso)
                              (storeNewTrackingNumbers sample_list)
                              sample_world))
                 "2024-05-03 09:00:00")))
  = app sample_rows
      [mkRow "9400111105501699999991" (Some "ORD-7") "pending"
         "2024-05-02 08:30:00" "2024-05-02 08:30:00"]
  /\ NoDup (keys (table (world_of
                           (run (host datetime_iso)
                              (storeNewTrackingNumbers sample_list)
                              sample_world)))).
Proof.
  destruct (store_twice_is_store_once datetime_iso sample_list sample_world
              "2024-05-03 09:00:00")
    as (_ & _ & Hsame & _ & _ & _ & Hnodup & _).
  split.
  - rewrite Hsame. vm_compute. reflexivity.
  - exact (Hnodup sample_rows_NoDup).
Defined.

(* ================================================================== *)
(** * Status updates                                                   *)
(* ================================================================== *)

Lemma update_status_apply : forall now u t,
  update_status now (upd_status u) (upd_tracking_number u) t
  = map (apply_update now u) t.
Proof. reflexivity. Qed.

Lemma sqlite_batch_update : forall datetime now l t,
  sqlite_batch datetime now (update_batch l) t
  = Normal (map (fun r => fold_left (fun r u => apply_update now u r) l r) t).
Proof.
  intros datetime now l. induction l as [|u l IH]; intro t.
  - cbn [update_batch map sqlite_batch fold_left]. rewrite map_id. reflexivity.
  - cbn [update_batch map sqlite_batch]. unfold sqlite_exec.
    cbn [bs_sql bs_args]. rewrite prepare_update.
    cbn [param_count List.length Nat.eqb negb].
    fold (update_batch l). rewrite IH, update_status_apply, map_map.
    reflexivity.
Qed.

Lemma apply_update_key : forall now u r,
  tracking_number (apply_update now u r) = tracking_number r.
Proof.
  intros. unfold apply_update.
  destruct (tracking_number r =? upd_tracking_number u); reflexivity.
Qed.

Lemma last_status_for_snoc : forall tn l u,
  last_status_for tn (app l [u])
  = if upd_tracking_number u =? tn then Some (upd_status u)
    else last_status_for tn l.
Proof.
  intros tn l u. unfold last_status_for. rewrite rev_app_distr.
  cbn [rev app find].
  destruct (upd_tracking_number u =? tn); reflexivity.
Qed.

Lemma reconciled_fields : forall now l r,
  tracking_number (reconciled now l r) = tracking_number r
  /\ order_number (reconciled now l r) = order_number r
  /\ created_at (reconciled now l r) = created_at r.
Proof.
  intros. unfold reconciled.
  destruct (last_status_for (tracking_number r) l); repeat split.
Qed.

Lemma reconciled_snoc : forall now l u r,
  reconciled now (app l [u]) r
  = if tracking_number r =? upd_tracking_number u then
      {| tracking_number := tracking_number r;
         order_number := order_number r;
         status := upd_status u;
         created_at := created_at r;
         updated_at := now |}
    else reconciled now l r.
Proof.
  intros. unfold reconciled. rewrite last_status_for_snoc.
  rewrite (String.eqb_sym (upd_tracking_number u) (tracking_number r)).
  destruct (tracking_number r =? upd_tracking_number u); reflexivity.
Qed.

(** The updates of a batch, one after the other, leave on a row the status
    of the last entry for its tracking number. *)
Lemma fold_apply_update : forall now l r,
  fold_left (fun r u => apply_update now u r) l r = reconciled now l r.
Proof.
  intros now l r. induction l as [|u l IH] using rev_ind.
  - reflexivity.
  - rewrite fold_left_app. cbn [fold_left]. rewrite IH, reconciled_snoc.
    destruct (reconciled_fields now l r) as (Ek & Eo & Ec).
    unfold apply_update. rewrite Ek, Eo, Ec. reflexivity.
Qed.

Lemma run_handleStatusUpdates : forall datetime updates w,
  run (host datetime) (handleStatusUpdates (Normal updates)) w
  = ({| reply_payload := Success; reply_status := 200 |},
     with_table w (map (reconciled (clock w) updates) (table w)),
     [D1Batch (update_batch updates)]).
Proof.
  intros. unfold handleStatusUpdates. fold (update_batch updates).
  cbn [run host]. rewrite sqlite_batch_update.
  rewrite (map_ext _ (reconciled (clock w) updates)
             (fun r => fold_apply_update (clock w) updates r)).
  reflexivity.
Qed.

(** An update for a tracking number the table does not have changes no
    row. *)
Lemma update_status_absent : forall now st tn t,
  has_tracking_number tn t = false -> update_status now st tn t = t.
Proof.
  intros now st tn t H. unfold update_status.
  rewrite <- (map_id t) at 2. apply map_ext_in. intros r Hr.
  destruct (tracking_number r =? tn) eqn:E; [|reflexivity].
  apply String.eqb_eq in E.
  assert (has_tracking_number tn t = true) as Hc.
  { apply has_tracking_number_spec. rewrite <- E. unfold keys.
    apply in_map. exact Hr. }
  congruence.
Qed.

Lemma last_status_for_last : forall tn before u after,
  upd_tracking_number u = tn ->
  (forall v, In v after -> upd_tracking_number v <> tn) ->
  last_status_for tn (app before (u :: after)) = Some (upd_status u).
Proof.
  intros tn before u after Hu Hafter.
  induction after as [|v after IH] using rev_ind.
  - change (u :: []) with [u]. rewrite last_status_for_snoc.
    rewrite Hu, String.eqb_refl. reflexivity.
  - replace (app before (u :: app after [v]))
      with (app (app before (u :: after)) [v])
      by (rewrite <- app_assoc; reflexivity).
    rewrite last_status_for_snoc.
    destruct (String.eqb_spec (upd_tracking_number v) tn) as [E | _].
    + exfalso. apply (Hafter v); [apply in_or_app; right; left; reflexivity | exact E].
    + apply IH. intros x Hx. apply Hafter. apply in_or_app. left. exact Hx.
Qed.

Lemma last_status_for_none : forall tn l,
  (forall v, In v l -> upd_tracking_number v <> tn) ->
  last_status_for tn l = None.
Proof.
  intros tn l H. induction l as [|v l IH] using rev_ind; [reflexivity|].
  rewrite last_status_for_snoc.
  destruct (String.eqb_spec (upd_tracking_number v) tn) as [E | _].
  - exfalso. apply (H v); [apply in_or_app; right; left; reflexivity | exact E].
  - apply IH. intros x Hx. apply H. apply in_or_app. left. exact Hx.
Qed.

(** C7. A batch of status updates is sent to the store in the order of the
    array, succeeds, and leaves the table with the same rows in the same
    order, where each row has the status of the last entry of the batch
    for its tracking number and [updated_at] at the time of the batch, and
    is as it was when no entry is for it; the tracking number, the order
    number and [created_at] of a row never change.  An entry for a
    tracking number that no row has changes no row. *)
Theorem status_updates_last_entry_wins :
  forall (datetime : string -> option string) (updates : list StatusUpdate)
         (w : World),
    run (host datetime) (handleStatusUpdates (Normal updates)) w
    = ({| reply_payload := Success; reply_status := 200 |},
       with_table w (map (reconciled (clock w) updates) (table w)),
       [D1Batch (update_batch updates)])
    /\ (forall r before u after,
          updates = app before (u :: after) ->
          upd_tracking_number u = tracking_number r ->
          (forall v, In v after -> upd_tracking_number v <> tracking_number r) ->
          reconciled (clock w) updates r
          = {| tracking_number := tracking_number r;
               order_number := order_number r;
               status := upd_status u;
               created_at := created_at r;
               updated_at := clock w |})
    /\ (forall r,
          (forall v, In v updates -> upd_tracking_number v <> tracking_number r) ->
          reconciled (clock w) updates r = r)
    /\ (forall r,
          tracking_number (reconciled (clock w) updates r) = tracking_number r
          /\ order_number (reconciled (clock w) updates r) = order_number r
          /\ created_at (reconciled (clock w) updates r) = created_at r)
    /\ (forall st tn,
          has_tracking_number tn (table w) = false ->
          update_status (clock w) st tn (table w) = table w).
Proof.
  intros datetime updates w.
  split; [apply run_handleStatusUpdates|].
  split; [|split; [|split]].
  - intros r before u after -> Hu Hafter. unfold reconciled.
    rewrite (last_status_for_last _ before u after Hu Hafter). reflexivity.
  - intros r Hnone. unfold reconciled.
    rewrite (last_status_for_none _ updates Hnone). reflexivity.
  - intro r. apply reconciled_fields.
  - intros st tn H. apply update_status_absent. exact H.
Qed.

Lemma status_updates_last_entry_wins_witness :
  table (world_of (run (host datetime_iso)
                     (handleStatusUpdates (Normal sample_updates))
                     sample_world))
  = [ mkRow "9400111105501612009154" None "delivered"
        "2024-05-01 12:00:00" "2024-05-02 08:30:00";
      mkRow "9400111105501612835722" None "in_transit"
        "2024-05-01 12:00:00" "2024-05-01 12:00:00";
      mkRow "9400111105501612819753" None "delivered"
        "2024-05-01 12:00:00" "2024-05-01 12:00:00";
      mkRow "9400111105501612849477" None "out_for_delivery"
        "2024-05-01 12:00:00" "2024-05-01 12:00:00" ]
  /\ reconciled "2024-05-02 08:30:00" sample_updates
       (mkRow "9400111105501612009154" None "pending"
          "2024-05-01 12:00:00" "2024-05-01 12:00:00")
     = mkRow "9400111105501612009154" None "delivered"
         "2024-05-01 12:00:00" "2024-05-02 08:30:00".
Proof.
  destruct (status_updates_last_entry_wins datetime_iso sample_updates
              sample_world) as (Hrun & Hlast & _).
  split.
  - rewrite Hrun. vm_compute. reflexivity.
  - apply (Hlast (mkRow "9400111105501612009154" None "pending"
                    "2024-05-01 12:00:00" "2024-05-01 12:00:00")
                 [ mkUpdate "9400111105501612009154" "in_transit";
                   mkUpdate "0000000000000000000000" "delivered" ]
                 (mkUpdate "9400111105501612009154" "delivered") []).
    + reflexivity.
    + reflexivity.
    + intros v [].
Defined.

(* ================================================================== *)
(** * Tracking URLs                                                    *)
(* ================================================================== *)

Lemma group30_length : forall (l : list string) i,
  List.length (group30 l i) = Nat.min 30 (List.length l - 30 * i).
Proof.
  intros l i. unfold group30, slice.
  replace (30 * i + 30 - 30 * i) with 30 by lia.
  rewrite length_firstn, length_skipn. reflexivity.
Qed.

Lemma group30_next : forall (l : list string) i,
  group30 l (S i) = group30 (skipn 30 l) i.
Proof.
  intros l i. unfold group30, slice.
  replace (30 * S i + 30 - 30 * S i) with 30 by lia.
  replace (30 * i + 30 - 30 * i) with 30 by lia.
  replace (30 * S i) with (30 * i + 30) by lia.
  rewrite skipn_skipn. reflexivity.
Qed.

Lemma group30_first : forall l : list string, group30 l 0 = firstn 30 l.
Proof. reflexivity. Qed.

(** The groups, one after the other, are the list. *)
Lemma groups_concat : forall n (l : list string),
  List.length l <= 30 * n ->
  concat (map (group30 l) (seq 0 n)) = l.
Proof.
  induction n as [|n IH]; intros l H.
  - destruct l; [reflexivity | simpl in H; lia].
  - cbn [seq map concat]. rewrite group30_first.
    rewrite <- seq_shift, map_map.
    rewrite (map_ext _ (group30 (skipn 30 l)) (group30_next l)).
    rewrite IH by (rewrite length_skipn; lia).
    apply firstn_skipn.
Qed.

(** The loop from the group [j] on, with fuel for the groups left. *)
Lemma urlLoop_groups : forall (numbers : list string) fuel j urls,
  (List.length numbers + 29) / 30 - j <= fuel ->
  urlLoop fuel (30 * j) numbers urls
  = app urls
      (map (fun i => render_url (group30 numbers i))
         (seq j ((List.length numbers + 29) / 30 - j))).
Proof.
  intros numbers fuel. set (count := (List.length numbers + 29) / 30).
  assert (30 * count < List.length numbers + 30
          /\ List.length numbers <= 30 * count) as Hcount.
  { unfold count.
    pose proof (Nat.div_mod_eq (List.length numbers + 29) 30) as E.
    pose proof (Nat.mod_upper_bound (List.length numbers + 29) 30) as B.
    lia. }
  induction fuel as [|fuel IH]; intros j urls Hfuel.
  - replace (count - j) with 0 by lia. cbn [urlLoop seq map].
    rewrite app_nil_r. reflexivity.
  - cbn [urlLoop].
    destruct (Nat.ltb_spec (30 * j) (List.length numbers)) as [Hlt | Hge].
    + replace (30 * j + 30) with (30 * S j) by lia.
      rewrite IH by lia.
      replace (count - j) with (S (count - S j)) by lia.
      cbn [seq map]. unfold push. rewrite <- app_assoc.
      replace (30 * S j) with (30 * j + 30) by lia.
      reflexivity.
    + replace (count - j) with 0 by lia. cbn [seq map].
      rewrite app_nil_r. reflexivity.
Qed.

Lemma trackingUrls_groups : forall rows,
  trackingUrls rows
  = map (fun i => render_url (group30 (map tracking_number rows) i))
      (seq 0 ((List.length (map tracking_number rows) + 29) / 30)).
Proof.
  intro rows. unfold trackingUrls.
  change 0 with (30 * 0) at 1.
  rewrite urlLoop_groups.
  - rewrite Nat.sub_0_r. reflexivity.
  - pose proof (Nat.div_mod_eq (List.length (map tracking_number rows) + 29) 30).
    pose proof (Nat.mod_upper_bound
                  (List.length (map tracking_number rows) + 29) 30).
    lia.
Qed.

Lemma run_handleGetTrackingUrlsWith : forall datetime sql terminal limit w,
  prepare sql = Some (SelectUndelivered terminal limit) ->
  run (host datetime) (handleGetTrackingUrlsWith sql) w
  = ({| reply_payload := Urls (trackingUrls (eligible_rows terminal limit (table w)));
        reply_status := 200 |},
     w, [D1All sql []]).
Proof.
  intros datetime sql terminal limit w H. unfold handleGetTrackingUrlsWith.
  cbn [run host]. unfold sqlite_exec. cbn [bs_sql bs_args]. rewrite H.
  cbn [param_count List.length Nat.eqb negb].
  rewrite with_table_same. reflexivity.
Qed.

(** C8. The URLs are the groups of 30 of the tracking numbers of the rows,
    in the order of the rows: URL [i] is the USPS prefix followed by the
    numbers [30 i .. 30 i + 29] joined by [%2C].  There are
    [ceil (N / 30)] of them for [N] numbers; each group has at least one
    and at most 30 numbers, and the groups one after the other are the
    list of the numbers; no row gives no URL.  On the SQLite store the
    rows are those whose status is not ['delivered'], 2000 at most (300 in
    the earlier version), and the reply is 200. *)
Theorem tracking_urls_are_groups_of_30 :
  forall rows : list TrackingNumber,
    trackingUrls rows
    = map (fun i => USPS_PREFIX
                    ++ String.concat "%2C" (group30 (map tracking_number rows) i))
        (seq 0 ((List.length rows + 29) / 30))
    /\ List.length (trackingUrls rows) = (List.length rows + 29) / 30
    /\ concat (map (group30 (map tracking_number rows))
                 (seq 0 ((List.length rows + 29) / 30)))
       = map tracking_number rows
    /\ (forall i, i < (List.length rows + 29) / 30 ->
          1 <= List.length (group30 (map tracking_number rows) i) <= 30)
    /\ (rows = [] -> trackingUrls rows = [])
    /\ (forall (datetime : string -> option string) (w : World),
          run (host datetime) handleGetTrackingUrls w
          = ({| reply_payload :=
                  Urls (trackingUrls (eligible_rows "delivered" 2000 (table w)));
                reply_status := 200 |},
             w, [D1All TRACKING_URLS_SQL []])
          /\ run (host datetime) (handleGetTrackingUrlsWith TRACKING_URLS_SQL_300) w
             = ({| reply_payload :=
                     Urls (trackingUrls (eligible_rows "delivered" 300 (table w)));
                   reply_status := 200 |},
                w, [D1All TRACKING_URLS_SQL_300 []])).
Proof.
  intro rows.
  pose proof (trackingUrls_groups rows) as E.
  rewrite length_map in E.
  assert (30 * ((List.length rows + 29) / 30) < List.length rows + 30
          /\ List.length rows <= 30 * ((List.length rows + 29) / 30)) as Hcount.
  { pose proof (Nat.div_mod_eq (List.length rows + 29) 30).
    pose proof (Nat.mod_upper_bound (List.length rows + 29) 30).
    lia. }
  split; [exact E|]. split; [|split; [|split; [|split]]].
  - rewrite E, length_map, length_seq. reflexivity.
  - apply groups_concat. rewrite length_map. lia.
  - intros i Hi. rewrite group30_length, length_map. lia.
  - intros ->. reflexivity.
  - intros datetime w. split.
    + apply run_handleGetTrackingUrlsWith. vm_compute. reflexivity.
    + apply run_handleGetTrackingUrlsWith. vm_compute. reflexivity.
Qed.

Lemma tracking_urls_are_groups_of_30_witness :
  trackingUrls rows_31
  = [ USPS_PREFIX
      ++ "T0%2CT1%2CT2%2CT3%2CT4%2CT5%2CT6%2CT7%2CT8%2CT9%2CT10%2CT11%2CT12%2CT13%2CT14%2CT15%2CT16%2CT17%2CT18%2CT19%2CT20%2CT21%2CT22%2CT23%2CT24%2CT25%2CT26%2CT27%2CT28%2CT29";
      USPS_PREFIX ++ "T30" ]
  /\ 1 <= List.length (group30 (map tracking_number rows_31) 1) <= 30.
Proof.
  destruct (tracking_urls_are_groups_of_30 rows_31)
    as (Hurls & _ & _ & Hsize & _).
  split.
  - rewrite Hurls. vm_compute. reflexivity.
  - apply Hsize. vm_compute. lia.
Defined.

(* ================================================================== *)
(** * Errors of the store                                              *)
(* ================================================================== *)

Lemma message_or_spec : forall e fallback,
  message_or e fallback
  = match e with
    | ThrownError m => if m =? "" then fallback else m
    | ThrownOther => fallback
    end.
Proof. intros [[|c m]|] fallback; reflexivity. Qed.

(** C9, as the code has it.  When the store throws on a search, the reply
    has status 500 and carries the message of the thrown error; the text
    [Failed to search tracking numbers] stands in only when what was
    thrown has no message or an empty one. *)
Theorem search_error_carries_the_message :
  forall (W : Type) (h : Handler W) (w : W) (q : SearchParams) (e : Thrown),
    fst (h (D1All (shape_sql (shape_of q)) (bound_values q)) w) = Throw e ->
    value_of (run h (handleSearch q) w)
    = {| reply_payload :=
           ErrorMessage
             match e with
             | ThrownError m =>
                 if m =? "" then "Failed to search tracking numbers" else m
             | ThrownOther => "Failed to search tracking numbers"
             end;
         reply_status := 500 |}.
Proof.
  intros W h w q e H. rewrite handleSearch_run.
  destruct (h (D1All (shape_sql (shape_of q)) (bound_values q)) w) as [a w1].
  cbn [fst] in H. unfold value_of. cbn [fst]. rewrite H, message_or_spec.
  reflexivity.
Qed.

Lemma search_error_carries_the_message_witness :
  value_of (run (failing_store (ThrownError "D1_ERROR: no such table: tracking_numbers"))
              (handleSearch (only_status "pending")) tt)
  = {| reply_payload := ErrorMessage "D1_ERROR: no such table: tracking_numbers";
       reply_status := 500 |}.
Proof.
  exact (search_error_carries_the_message unit
           (failing_store (ThrownError "D1_ERROR: no such table: tracking_numbers"))
           tt (only_status "pending")
           (ThrownError "D1_ERROR: no such table: tracking_numbers") eq_refl).
Defined.

(** C9, as the specification has it, fails: a store error with a message
    is answered with that message, not with the generic text. *)
Lemma search_error_is_not_generic :
  reply_payload
    (value_of (run (failing_store (ThrownError "D1_ERROR: no such table: tracking_numbers"))
                 (handleSearch (only_status "pending")) tt))
  = ErrorMessage "D1_ERROR: no such table: tracking_numbers"
  /\ reply_payload
       (value_of (run (failing_store (ThrownError "D1_ERROR: no such table: tracking_numbers"))
                    (handleSearch (only_status "pending")) tt))
     <> ErrorMessage "Failed to search tracking numbers".
Proof.
  split.
  - vm_compute. reflexivity.
  - vm_compute. discriminate.
Qed.

(* ================================================================== *)
(** * The empty batch                                                  *)
(* ================================================================== *)

(** C10. For the empty list of updates the worker still calls the store,
    with a batch of no statement, and its reply is what the store makes of
    that batch: success when the store accepts it, the failure reply when
    the store throws.  The SQLite model accepts it; a store that refuses
    an empty batch gives the failure reply.  The upsert of the empty list
    calls no store at all and returns. *)
Theorem empty_update_list_still_submits_a_batch :
  forall (W : Type) (h : Handler W) (w : W),
    calls_of (run h (handleStatusUpdates (Normal [])) w) = [D1Batch []]
    /\ value_of (run h (handleStatusUpdates (Normal [])) w)
       = match fst (h (D1Batch []) w) with
         | Normal _ => {| reply_payload := Success; reply_status := 200 |}
         | Throw _ =>
             {| reply_payload := ErrorMessage "Failed to update statuses";
                reply_status := 500 |}
         end
    /\ world_of (run h (handleStatusUpdates (Normal [])) w)
       = snd (h (D1Batch []) w)
    /\ run h (storeNewTrackingNumbers []) w = (Normal tt, w, [])
    /\ (forall datetime (sw : World),
          value_of (run (host datetime) (handleStatusUpdates (Normal [])) sw)
          = {| reply_payload := Success; reply_status := 200 |}
          /\ value_of (run (strict_host datetime)
                         (handleStatusUpdates (Normal [])) sw)
             = {| reply_payload := ErrorMessage "Failed to update statuses";
                  reply_status := 500 |}).
Proof.
  intros W h w. unfold handleStatusUpdates, storeNewTrackingNumbers.
  cbn [map run List.length Nat.eqb].
  destruct (h (D1Batch []) w) as [a w1] eqn:E.
  unfold calls_of, value_of, world_of.
  destruct a as [u | e]; cbn [fst snd run]; repeat split.
Qed.

(* ================================================================== *)
(** * Two remarks on the search                                        *)
(* ================================================================== *)




(** X2. The substring filters are the [LIKE] of the store: letters match
    without regard to case and [_] in the value stands for any character,
    so a row can be returned whose tracking number does not hold the value
    as it is written. *)
Theorem plain_filter_matches_as_like :
  search datetime_iso (only_tracking_number "ea_23") one_row_world
  = table one_row_world
  /\ ~ contains "ea_23" "EA123US".
Proof.
  split.
  - vm_compute. reflexivity.
  - intros (a & b & H).
    repeat (destruct a as [|? a]; cbn [append] in H;
            [discriminate H | injection H as _ H]).
    destruct a; discriminate H.
Qed.

(* ================================================================== *)
(** * The ingestion as a whole                                         *)
(* ================================================================== *)

(** The loop reads the network and nothing else: it leaves the world as
    it is, makes only requests, and in two worlds with one network it
    gives one result. *)
Lemma run_fetchRemainingPages_network :
  forall datetime datetime' baseUrl credentials (w w' : World) count page0 acc,
    network w = network w' ->
    exists r t,
      run (host datetime)
          (fetchRemainingPages baseUrl credentials count page0 acc) w
      = (r, w, t)
      /\ run (host datetime')
             (fetchRemainingPages baseUrl credentials count page0 acc) w'
         = (r, w', t)
      /\ forallb is_fetch t = true.
Proof.
  intros datetime datetime' baseUrl credentials w w' count.
  induction count as [|count IH]; intros page0 acc Hnet.
  - exists (Normal acc), []. repeat split.
  - cbn [fetchRemainingPages]. rewrite !run_bindE, !run_fetchShipStationPage.
    rewrite <- Hnet.
    destruct (page_result
                (network w (baseUrl ++ "&page=" ++ decimal (Z.to_N page0))
                   ("Basic " ++ credentials))) as [d | e].
    + destruct (IH (page0 + 1)%Z (app acc (page_shipments d)) Hnet)
        as (r & t & H1 & H2 & Ht).
      rewrite H1, H2.
      exists r, (Fetch (baseUrl ++ "&page=" ++ decimal (Z.to_N page0))
                   ("Basic " ++ credentials) :: t).
      repeat split. exact Ht.
    + exists (Throw e),
        [Fetch (baseUrl ++ "&page=" ++ decimal (Z.to_N page0))
           ("Basic " ++ credentials)].
      repeat split.
Qed.

Lemma no_store_call_in_fetches : forall t,
  forallb is_fetch t = true -> existsb is_store_call t = false.
Proof.
  induction t as [|c t IH]; intro H; [reflexivity|].
  cbn [forallb existsb] in *. apply andb_true_iff in H. destruct H as [Hc Ht].
  rewrite (IH Ht). destruct c; try discriminate Hc. reflexivity.
Qed.

Lemma run_fetchNewShipments_network :
  forall datetime datetime' dateStr env (w w' : World),
    network w = network w' ->
    exists r t,
      run (host datetime) (fetchNewShipments dateStr env) w = (r, w, t)
      /\ run (host datetime') (fetchNewShipments dateStr env) w' = (r, w', t)
      /\ existsb is_store_call t = false.
Proof.
  intros datetime datetime' dateStr env w w' Hnet.
  rewrite !run_fetchNewShipments. unfold page_outcome, page_answer.
  rewrite <- Hnet.
  destruct (page_result
              (network w (page_url dateStr 1) ("Basic " ++ credentials_of env)))
    as [first | e].
  - destruct (1 <? page_pages first)%Z.
    + destruct (run_fetchRemainingPages_network datetime datetime'
                  (shipmentsUrl dateStr) (credentials_of env) w w'
                  (Z.to_nat (page_pages first - 1)) 2 (page_shipments first)
                  Hnet) as (r & t & H1 & H2 & Ht).
      rewrite H1, H2. eexists. eexists. split; [reflexivity|].
      split; [reflexivity|].
      cbn [existsb is_store_call page_call orb].
      apply no_store_call_in_fetches. exact Ht.
    + cbn [run]. eexists. eexists. repeat split.
  - eexists. eexists. repeat split.
Qed.

(** The ingestion on the SQLite store, from what the fetch gives. *)
Lemma run_ingest : forall datetime dateStr env w r t,
  run (host datetime) (fetchNewShipments dateStr env) w = (r, w, t) ->
  run (host datetime) (ingest dateStr env) w
  = match r with
    | Normal l =>
        (Normal l, with_table w (insert_all (clock w) l (table w)),
         app t (store_calls l))
    | Throw e => (Throw e, w, t)
    end.
Proof.
  intros datetime dateStr env w r t H. unfold ingest.
  rewrite run_bindE, H. destruct r as [l | e]; [|reflexivity].
  rewrite run_bindE, run_storeNewTrackingNumbers. cbn [run].
  rewrite app_nil_r. reflexivity.
Qed.

Lemma existsb_app_false : forall (A : Type) (f : A -> bool) (l1 l2 : list A),
  existsb f l1 = false -> existsb f l2 = false -> existsb f (app l1 l2) = false.
Proof. intros A f l1 l2 H1 H2. rewrite existsb_app, H1, H2. reflexivity. Qed.

(** X3. The scheduled task throws nothing.  When the fetch fails, whatever
    the page, it calls no store and leaves the table as it was; when the
    fetch gives a list, the table after the task is the table after the
    inserts of that list at the time of the store: it has every tracking
    number of the list, and none twice if it had none twice. *)
Theorem scheduled_stores_what_was_fetched :
  forall (datetime : string -> option string) (dateStr : string) (env : Env)
         (w : World),
    match value_of (run (host datetime) (fetchNewShipments dateStr env) w) with
    | Throw _ =>
        world_of (run (host datetime) (Worker.scheduled dateStr env) w) = w
        /\ existsb is_store_call
             (calls_of (run (host datetime) (Worker.scheduled dateStr env) w))
           = false
    | Normal l =>
        table (world_of (run (host datetime) (Worker.scheduled dateStr env) w))
        = insert_all (clock w) l (table w)
        /\ (forall s, In s l ->
              has_tracking_number (trackingNumber s)
                (table (world_of
                          (run (host datetime) (Worker.scheduled dateStr env) w)))
              = true)
        /\ (NoDup (keys (table w)) ->
            NoDup (keys (table (world_of
                                  (run (host datetime)
                                     (Worker.scheduled dateStr env) w)))))
    end.
Proof.
  intros datetime dateStr env w.
  destruct (run_fetchNewShipments_network datetime datetime dateStr env w w
              eq_refl) as (r & t & Hrun & _ & Hcalls).
  unfold Worker.scheduled. rewrite run_bind, (run_ingest _ _ _ _ _ _ Hrun), Hrun.
  unfold value_of, world_of, calls_of. cbn [fst snd].
  destruct r as [l | e]; cbn [run fst snd with_table table].
  - split; [reflexivity|]. split.
    + intros s Hs. apply insert_all_has. exact Hs.
    + apply insert_all_NoDup.
  - split; [reflexivity|]. rewrite app_nil_r. exact Hcalls.
Qed.

Lemma scheduled_stores_what_was_fetched_witness :
  NoDup (keys (table (world_of
                        (run (host datetime_iso)
                           (Worker.scheduled "2024-05-01" sample_env)
                           (world_of_network three_pages))))).
Proof.
  pose proof (scheduled_stores_what_was_fetched datetime_iso "2024-05-01"
                sample_env (world_of_network three_pages)) as H.
  assert (value_of (run (host datetime_iso)
                      (fetchNewShipments "2024-05-01" sample_env)
                      (world_of_network three_pages))
          = Normal [mkShipment "9400111105501612009154" "ORD-1";
                    mkShipment "9400111105501612835722" "ORD-2";
                    mkShipment "9400111105501612819753" "ORD-3"]) as E
    by (vm_compute; reflexivity).
  rewrite E in H. destruct H as (_ & _ & Hnodup).
  apply Hnodup. exact sample_rows_NoDup.
Defined.

Lemma run_scheduled : forall datetime dateStr env w r t,
  run (host datetime) (fetchNewShipments dateStr env) w = (r, w, t) ->
  world_of (run (host datetime) (Worker.scheduled dateStr env) w)
  = match r with
    | Normal l => with_table w (insert_all (clock w) l (table w))
    | Throw _ => w
    end.
Proof.
  intros datetime dateStr env w r t H. unfold Worker.scheduled.
  rewrite run_bind, (run_ingest _ _ _ _ _ _ H).
  destruct r; reflexivity.
Qed.

(** X4. Running the scheduled task again, at any later time of the store,
    against the same listing leaves the table as the first run left it:
    a second run adds no row and changes none. *)
Theorem scheduled_twice_is_scheduled_once :
  forall (datetime : string -> option string) (dateStr : string) (env : Env)
         (w : World) (later : string),
    table (world_of
             (run (host datetime) (Worker.scheduled dateStr env)
                (with_clock
                   (world_of (run (host datetime)
                                (Worker.scheduled dateStr env) w))
                   later)))
    = table (world_of (run (host datetime) (Worker.scheduled dateStr env) w)).
Proof.
  intros datetime dateStr env w later.
  destruct (run_fetchNewShipments_network datetime datetime dateStr env w w
              eq_refl) as (r & t & Hrun & _ & _).
  rewrite (run_scheduled _ _ _ _ _ _ Hrun).
  set (w1 := match r with
             | Normal l => with_table w (insert_all (clock w) l (table w))
             | Throw _ => w
             end).
  assert (network w = network (with_clock w1 later)) as Hnet.
  { unfold w1. destruct r; reflexivity. }
  destruct (run_fetchNewShipments_network datetime datetime dateStr env w
              (with_clock w1 later) Hnet) as (r' & t' & Hrun1 & Hrun2 & _).
  rewrite Hrun in Hrun1. injection Hrun1 as <- <-.
  rewrite (run_scheduled _ _ _ _ _ _ Hrun2).
  unfold w1. destruct r as [l | e]; cbn [with_clock with_table table clock].
  - apply insert_all_present. intros s Hs. apply insert_all_has. exact Hs.
  - reflexivity.
Qed.

(* ================================================================== *)
(** * The router                                                       *)
(* ================================================================== *)

(** The handlers in full are the handlers of the replies, with the
    headers put back. *)
Lemma handleSearchResponse_respond : forall (W : Type) (h : Handler W) q (w : W),
  run h (handleSearchResponse q) w
  = let '(r, w1, t) := run h (handleSearch q) w in (respond r, w1, t).
Proof.
  intros. unfold handleSearchResponse, handleSearch.
  destruct (buildSearchQuery (searchParamsOf q)) as [sql bindings].
  cbn [run]. destruct (h (D1All sql bindings) w) as [a w1].
  destruct a; reflexivity.
Qed.

Lemma handleGetTrackingUrlsResponse_respond :
  forall (W : Type) (h : Handler W) (w : W),
    run h handleGetTrackingUrlsResponse w
    = let '(r, w1, t) := run h handleGetTrackingUrls w in (respond r, w1, t).
Proof.
  intros. unfold handleGetTrackingUrlsResponse, handleGetTrackingUrls,
    handleGetTrackingUrlsWith.
  cbn [run]. destruct (h (D1All TRACKING_URLS_SQL []) w) as [a w1].
  destruct a; reflexivity.
Qed.

Lemma handleStatusUpdatesResponse_respond :
  forall (W : Type) (h : Handler W) body (w : W),
    run h (handleStatusUpdatesResponse body) w
    = let '(r, w1, t) := run h (handleStatusUpdates body) w in (respond r, w1, t).
Proof.
  intros. unfold handleStatusUpdatesResponse, handleStatusUpdates.
  destruct body as [updates | e]; [|reflexivity].
  cbn [run]. fold (update_batch updates).
  destruct (h (D1Batch (update_batch updates)) w) as [a w1].
  destruct a; reflexivity.
Qed.

Lemma prepare_tracking_urls :
  prepare TRACKING_URLS_SQL = Some (SelectUndelivered "delivered" 2000).
Proof. vm_compute. reflexivity. Qed.

Lemma keys_reconciled : forall now updates t,
  keys (map (reconciled now updates) t) = keys t.
Proof.
  intros. unfold keys. rewrite map_map. apply map_ext.
  intro r. apply reconciled_fields.
Qed.

(** The world after a request, route by route. *)
Lemma route_world : forall datetime dateOf request env w,
  world_of (run (host datetime) (Worker.fetch dateOf request env) w)
  = if writing_route request then
      if (req_pathname request =? "/tracking-status")
         && (req_method request =? "POST")
      then match req_json request with
           | Normal updates =>
               with_table w (map (reconciled (clock w) updates) (table w))
           | Throw _ => w
           end
      else match dateOf (req_searchParams request "days_back") with
           | Throw _ => w
           | Normal dateStr =>
               match value_of
                       (run (host datetime) (fetchNewShipments dateStr env) w)
               with
               | Normal l => with_table w (insert_all (clock w) l (table w))
               | Throw _ => w
               end
           end
    else w.
Proof.
  intros datetime dateOf request env w. unfold Worker.fetch, writing_route.
  destruct (req_method request =? "OPTIONS"); [reflexivity|]. cbn [negb andb].
  destruct (String.eqb_spec (req_pathname request) "/search") as [E1 | _].
  { rewrite E1. cbn [String.eqb Ascii.eqb Bool.eqb andb orb].
    rewrite handleSearchResponse_respond, handleSearch_host. reflexivity. }
  destruct (String.eqb_spec (req_pathname request) "/tracking-urls") as [E2 | _].
  { rewrite E2. cbn [String.eqb Ascii.eqb Bool.eqb andb orb].
    rewrite handleGetTrackingUrlsResponse_respond. unfold handleGetTrackingUrls.
    rewrite (run_handleGetTrackingUrlsWith _ _ _ _ _ prepare_tracking_urls).
    reflexivity. }
  destruct ((req_pathname request =? "/tracking-status")
            && (req_method request =? "POST")).
  { cbn [orb]. rewrite handleStatusUpdatesResponse_respond.
    destruct (req_json request) as [updates | e]; [|reflexivity].
    rewrite run_handleStatusUpdates. reflexivity. }
  cbn [orb].
  destruct (req_pathname request =? "/test-scheduled"); [|reflexivity].
  destruct (dateOf (req_searchParams request "days_back")) as [dateStr | e];
    [|reflexivity].
  change (ingestFrom (Normal dateStr) env) with (ingest dateStr env).
  destruct (run_fetchNewShipments_network datetime datetime dateStr env w w
              eq_refl) as (r & t & Hrun & _ & _).
  rewrite run_bind, (run_ingest _ _ _ _ _ _ Hrun), Hrun.
  destruct r; reflexivity.
Qed.

(** X5. Only [POST /tracking-status] and [/test-scheduled] can change the
    store: any other request (a preflight, a search, the tracking URLs, a
    path the worker does not know, [/tracking-status] with another method)
    leaves the world as it was, and the only calls it makes are reads of
    the store. *)
Theorem other_routes_only_read :
  forall (datetime : string -> option string)
         (dateOf : option string -> Completion string)
         (request : Request) (env : Env) (w : World),
    writing_route request = false ->
    world_of (run (host datetime) (Worker.fetch dateOf request env) w) = w
    /\ forall c,
         In c (calls_of (run (host datetime) (Worker.fetch dateOf request env) w)) ->
         exists sql bindings, c = D1All sql bindings.
Proof.
  intros datetime dateOf request env w H. split.
  { rewrite route_world, H. reflexivity. }
  revert H. unfold Worker.fetch, writing_route.
  destruct (req_method request =? "OPTIONS"); [intros _ c []|]. cbn [negb andb].
  destruct (req_pathname request =? "/search").
  { intros _ c. rewrite handleSearchResponse_respond, handleSearch_run.
    destruct (host datetime _ w) as [a w1]. unfold calls_of. cbn [snd].
    intros [<- | []]. eexists. eexists. reflexivity. }
  destruct (req_pathname request =? "/tracking-urls").
  { intros _ c. rewrite handleGetTrackingUrlsResponse_respond.
    unfold handleGetTrackingUrls.
    rewrite (run_handleGetTrackingUrlsWith _ _ _ _ _ prepare_tracking_urls).
    unfold calls_of. cbn [snd]. intros [<- | []].
    eexists. eexists. reflexivity. }
  destruct ((req_pathname request =? "/tracking-status")
            && (req_method request =? "POST")); [discriminate|]. cbn [orb].
  destruct (req_pathname request =? "/test-scheduled"); [discriminate|].
  intros _ c [].
Qed.

Lemma other_routes_only_read_witness :
  world_of (run (host datetime_iso)
              (Worker.fetch date_of_sample (get_request "/tracking-status")
                 sample_env)
              sample_world)
  = sample_world.
Proof.
  exact (proj1 (other_routes_only_read datetime_iso date_of_sample
                  (get_request "/tracking-status") sample_env sample_world
                  eq_refl)).
Defined.

(** X6. Every request keeps the tracking numbers of the table unique:
    if no tracking number is twice in the table before a request, none is
    after it, whatever the route, the body and the answers of the
    network. *)
Theorem requests_keep_tracking_numbers_unique :
  forall (datetime : string -> option string)
         (dateOf : option string -> Completion string)
         (request : Request) (env : Env) (w : World),
    NoDup (keys (table w)) ->
    NoDup (keys (table (world_of
                          (run (host datetime)
                             (Worker.fetch dateOf request env) w)))).
Proof.
  intros datetime dateOf request env w H. rewrite route_world.
  destruct (writing_route request); [|exact H].
  destruct ((req_pathname request =? "/tracking-status")
            && (req_method request =? "POST")).
  - destruct (req_json request) as [updates | e]; [|exact H].
    cbn [with_table table]. rewrite keys_reconciled. exact H.
  - destruct (dateOf _) as [dateStr | e0]; [|exact H].
    destruct (value_of _) as [l | e]; [|exact H].
    cbn [with_table table]. apply insert_all_NoDup. exact H.
Qed.

Lemma requests_keep_tracking_numbers_unique_witness :
  NoDup (keys (table (world_of
                        (run (host datetime_iso)
                           (Worker.fetch date_of_sample
                              {| req_method := "POST";
                                 req_pathname := "/tracking-status";
                                 req_searchParams := fun _ => None;
                                 req_json := Normal sample_updates |}
                              sample_env)
                           sample_world)))).
Proof.
  exact (requests_keep_tracking_numbers_unique datetime_iso date_of_sample _
           sample_env sample_world sample_rows_NoDup).
Defined.

(** X7. The CORS headers are on the preflight reply, whatever the path,
    and on the success replies of the three store handlers, and nowhere
    else: the 500 replies of those handlers, both replies of
    [/test-scheduled] and the 404 reply are sent without them.  This holds
    for every store and network. *)
Theorem cors_headers_only_on_success :
  forall (W : Type) (h : Handler W) (w : W)
         (dateOf : option string -> Completion string) (request : Request)
         (env : Env),
    (req_method request = "OPTIONS" ->
       run h (Worker.fetch dateOf request env) w = (handleOptions, w, []))
    /\ (handler_route request = true ->
          (wr_status (value_of (run h (Worker.fetch dateOf request env) w)) = 200%N
           /\ wr_headers (value_of (run h (Worker.fetch dateOf request env) w))
              = JSON_CORS_HEADERS)
          \/ (wr_status (value_of (run h (Worker.fetch dateOf request env) w)) = 500%N
              /\ wr_headers (value_of (run h (Worker.fetch dateOf request env) w))
                 = []))
    /\ (req_method request <> "OPTIONS" -> handler_route request = false ->
          wr_headers (value_of (run h (Worker.fetch dateOf request env) w)) = []).
Proof.
  intros W h w dateOf request env. unfold Worker.fetch, handler_route.
  split; [|split].
  - intros ->. reflexivity.
  - destruct (req_method request =? "OPTIONS"); [discriminate|].
    cbn [negb andb].
    destruct (req_pathname request =? "/search").
    { intros _. unfold handleSearchResponse.
      destruct (buildSearchQuery _) as [sql bindings]. cbn [run].
      destruct (h (D1All sql bindings) w) as [a w1].
      destruct a; [left | right]; split; reflexivity. }
    destruct (req_pathname request =? "/tracking-urls").
    { intros _. unfold handleGetTrackingUrlsResponse. cbn [run].
      destruct (h (D1All TRACKING_URLS_SQL []) w) as [a w1].
      destruct a; [left | right]; split; reflexivity. }
    cbn [orb].
    destruct ((req_pathname request =? "/tracking-status")
              && (req_method request =? "POST")); [|discriminate].
    intros _. unfold handleStatusUpdatesResponse.
    destruct (req_json request) as [updates | e];
      [|right; split; reflexivity].
    cbn [run]. destruct (h (D1Batch _) w) as [a w1].
    destruct a; [left | right]; split; reflexivity.
  - intro Hm. apply String.eqb_neq in Hm. rewrite Hm. cbn [negb andb].
    destruct (req_pathname request =? "/search"); [discriminate|].
    destruct (req_pathname request =? "/tracking-urls"); [discriminate|].
    cbn [orb].
    destruct ((req_pathname request =? "/tracking-status")
              && (req_method request =? "POST")); [discriminate|].
    intros _.
    destruct (req_pathname request =? "/test-scheduled"); [|reflexivity].
    rewrite run_bind.
    destruct (run h (ingestFrom _ env) w) as [[r w1] t].
    destruct r; reflexivity.
Qed.

Lemma cors_headers_only_on_success_witness :
  wr_headers
    (value_of (run (failing_store (ThrownError "D1_ERROR: no such table"))
                 (Worker.fetch date_of_sample (get_request "/tracking-urls")
                    sample_env) tt))
  = []
  /\ wr_headers
       (value_of (run (host datetime_iso)
                    (Worker.fetch date_of_sample (get_request "/tracking-urls")
                       sample_env) sample_world))
     = JSON_CORS_HEADERS
  /\ wr_headers
       (value_of (run (host datetime_iso)
                    (Worker.fetch date_of_sample (get_request "/nowhere")
                       sample_env) sample_world))
     = [].
Proof.
  split; [vm_compute; reflexivity|]. split; [vm_compute; reflexivity|].
  destruct (cors_headers_only_on_success World (host datetime_iso) sample_world
              date_of_sample (get_request "/nowhere") sample_env)
    as (_ & _ & H).
  apply H; [discriminate | reflexivity].
Defined.

(** X8. [/test-scheduled] answers by what [fetchNewShipments] does.  When
    the date it makes of [days_back] is not a valid date, [toISOString]
    throws before any call: the reply is 500 with the message of that
    error, no call is made and the world is as it was.  When a page
    fails, the reply is 500 with the message of what was thrown, so the
    status and the body of a failed ShipStation page reach the caller,
    and the world is as it was.  In both cases the text
    [An unknown error occurred] stands in only when there is no message
    or an empty one.  When the fetch gives a list, the reply is 200 with
    that list and the table is the table after the inserts of the
    list.  No reply of this route has headers. *)
Theorem test_route_reports_the_fetch :
  forall (datetime : string -> option string)
         (dateOf : option string -> Completion string)
         (request : Request) (env : Env) (w : World),
    req_method request <> "OPTIONS" ->
    req_pathname request = "/test-scheduled" ->
    match dateOf (req_searchParams request "days_back") with
    | Throw e =>
        run (host datetime) (Worker.fetch dateOf request env) w
        = ({| wr_body :=
                JsonBody
                  (ErrorMessage
                     match e with
                     | ThrownError m =>
                         if m =? "" then "An unknown error occurred" else m
                     | ThrownOther => "An unknown error occurred"
                     end);
              wr_status := 500;
              wr_headers := [] |}, w, [])
    | Normal dateStr =>
        match value_of (run (host datetime) (fetchNewShipments dateStr env) w)
        with
        | Throw e =>
            value_of (run (host datetime) (Worker.fetch dateOf request env) w)
            = {| wr_body :=
                   JsonBody
                     (ErrorMessage
                        match e with
                        | ThrownError m =>
                            if m =? "" then "An unknown error occurred" else m
                        | ThrownOther => "An unknown error occurred"
                        end);
                 wr_status := 500;
                 wr_headers := [] |}
            /\ world_of (run (host datetime) (Worker.fetch dateOf request env) w)
               = w
        | Normal l =>
            value_of (run (host datetime) (Worker.fetch dateOf request env) w)
            = {| wr_body := ShipmentsBody l; wr_status := 200;
                 wr_headers := [] |}
            /\ table (world_of
                        (run (host datetime) (Worker.fetch dateOf request env) w))
               = insert_all (clock w) l (table w)
        end
    end.
Proof.
  intros datetime dateOf request env w Hm Hp.
  apply String.eqb_neq in Hm. unfold Worker.fetch. rewrite Hm, Hp.
  cbn [String.eqb Ascii.eqb Bool.eqb andb].
  destruct (dateOf (req_searchParams request "days_back")) as [dateStr | e0].
  - change (ingestFrom (Normal dateStr) env) with (ingest dateStr env).
    destruct (run_fetchNewShipments_network datetime datetime dateStr env w w
                eq_refl) as (r & t & Hrun & _ & _).
    rewrite run_bind, (run_ingest _ _ _ _ _ _ Hrun), Hrun.
    unfold value_of, world_of. cbn [fst snd].
    destruct r as [l | e]; cbn [run fst snd].
    + split; reflexivity.
    + rewrite message_or_spec. split; reflexivity.
  - unfold ingestFrom, fetchNewShipmentsFrom, bindE. cbn [bind run].
    rewrite message_or_spec. reflexivity.
Qed.

Lemma test_route_reports_the_fetch_witness :
  value_of (run (host datetime_iso)
              (Worker.fetch date_of_sample (get_request "/test-scheduled")
                 sample_env)
              (world_of_network second_page_down))
  = {| wr_body :=
         JsonBody (ErrorMessage
                     "ShipStation API error: 500 - Internal Server Error");
       wr_status := 500;
       wr_headers := [] |}
  /\ run (host datetime_iso)
         (Worker.fetch date_out_of_range (get_request "/test-scheduled")
            sample_env)
         (world_of_network three_pages)
     = ({| wr_body := JsonBody (ErrorMessage "Invalid time value");
           wr_status := 500;
           wr_headers := [] |}, world_of_network three_pages, []).
Proof.
  split.
  - pose proof (test_route_reports_the_fetch datetime_iso date_of_sample
                  (get_request "/test-scheduled") sample_env
                  (world_of_network second_page_down)) as H.
    cbn [date_of_sample] in H.
    assert (value_of (run (host datetime_iso)
                        (fetchNewShipments "2024-05-01" sample_env)
                        (world_of_network second_page_down))
            = Throw (ThrownError
                       "ShipStation API error: 500 - Internal Server Error"))
      as E by (vm_compute; reflexivity).
    rewrite E in H. destruct H as [Hv _]; [discriminate | reflexivity |].
    exact Hv.
  - apply (test_route_reports_the_fetch datetime_iso date_out_of_range
             (get_request "/test-scheduled") sample_env
             (world_of_network three_pages)).
    + discriminate.
    + reflexivity.
Defined.

(* ================================================================== *)
(** * How the operations compose                                       *)
(* ================================================================== *)

Lemma row_for_app : forall tn t1 t2,
  row_for tn (app t1 t2)
  = match row_for tn t1 with
    | Some r => Some r
    | None => row_for tn t2
    end.
Proof.
  intros tn t1 t2. unfold row_for. induction t1 as [|r t1 IH]; [reflexivity|].
  cbn [app find]. destruct (tracking_number r =? tn); [reflexivity | exact IH].
Qed.

Lemma row_for_absent : forall tn t,
  has_tracking_number tn t = false -> row_for tn t = None.
Proof.
  intros tn t. unfold has_tracking_number, row_for.
  induction t as [|r t IH]; [reflexivity|]. cbn [existsb find].
  destruct (tracking_number r =? tn); [discriminate | exact IH].
Qed.

Lemma row_for_present : forall tn t,
  has_tracking_number tn t = true -> exists r, row_for tn t = Some r.
Proof.
  intros tn t. unfold has_tracking_number, row_for.
  induction t as [|r t IH]; [discriminate|]. cbn [existsb find].
  destruct (tracking_number r =? tn); [exists r; reflexivity | exact IH].
Qed.

(** Inserts never change the row a tracking number has. *)
Lemma row_for_insert_all_present : forall now l t tn,
  has_tracking_number tn t = true ->
  row_for tn (insert_all now l t) = row_for tn t.
Proof.
  intros now l t tn H.
  destruct (insert_all_appends now l t) as (added & E & _).
  rewrite E, row_for_app.
  destruct (row_for_present tn t H) as [r Hr]. rewrite Hr. reflexivity.
Qed.

Lemma insert_pending_other : forall now a on t tn,
  (a =? tn) = false ->
  has_tracking_number tn (insert_pending now a on t) = has_tracking_number tn t.
Proof.
  intros now a on t tn H. unfold insert_pending.
  destruct (has_tracking_number a t); [reflexivity|].
  unfold has_tracking_number. rewrite existsb_app. cbn [existsb tracking_number].
  rewrite H. cbn [orb]. apply orb_false_r.
Qed.

Lemma insert_all_first_wins : forall now l t tn s,
  has_tracking_number tn t = false ->
  first_shipment_for tn l = Some s ->
  row_for tn (insert_all now l t)
  = Some {| tracking_number := tn; order_number := Some (orderNumber s);
            status := "pending"; created_at := now; updated_at := now |}.
Proof.
  intros now l. induction l as [|a l IH]; intros t tn s Habs Hfirst;
    [discriminate|].
  change (insert_all now (a :: l) t)
    with (insert_all now l
            (insert_pending now (trackingNumber a) (orderNumber a) t)).
  unfold first_shipment_for in Hfirst. cbn [find] in Hfirst.
  destruct (trackingNumber a =? tn) eqn:E.
  - injection Hfirst as <-. apply String.eqb_eq in E. subst tn.
    rewrite row_for_insert_all_present by apply insert_pending_has.
    unfold insert_pending. rewrite Habs, row_for_app.
    rewrite (row_for_absent _ _ Habs). unfold row_for. cbn [find tracking_number].
    rewrite String.eqb_refl. reflexivity.
  - apply IH; [|exact Hfirst].
    rewrite insert_pending_other by exact E. exact Habs.
Qed.

(** X9. When a list of shipments names a tracking number several times,
    the row stored for it is that of its first shipment in the list (the
    later ones are the conflicts that do nothing), inserted [pending] at
    the time of the store; and a tracking number the table has keeps its
    row, status and all. *)
Theorem store_keeps_the_first_shipment :
  forall (datetime : string -> option string) (l : list ShipmentData)
         (w : World) (tn : string),
    (has_tracking_number tn (table w) = true ->
       row_for tn (table (world_of
                            (run (host datetime) (storeNewTrackingNumbers l) w)))
       = row_for tn (table w))
    /\ (has_tracking_number tn (table w) = false ->
        forall s, first_shipment_for tn l = Some s ->
          row_for tn (table (world_of
                               (run (host datetime)
                                  (storeNewTrackingNumbers l) w)))
          = Some {| tracking_number := tn;
                    order_number := Some (orderNumber s);
                    status := "pending";
                    created_at := clock w;
                    updated_at := clock w |}).
Proof.
  intros datetime l w tn. rewrite run_storeNewTrackingNumbers.
  unfold world_of. cbn [fst snd with_table table]. split.
  - apply row_for_insert_all_present.
  - intros Habs s Hs. apply insert_all_first_wins; assumption.
Qed.

Lemma store_keeps_the_first_shipment_witness :
  row_for "9400111105501699999991"
    (table (world_of (run (host datetime_iso)
                        (storeNewTrackingNumbers sample_list) sample_world)))
  = Some (mkRow "9400111105501699999991" (Some "ORD-7") "pending"
            "2024-05-02 08:30:00" "2024-05-02 08:30:00")
  /\ row_for "9400111105501612819753"
       (table (world_of (run (host datetime_iso)
                           (storeNewTrackingNumbers sample_list) sample_world)))
     = Some (mkRow "9400111105501612819753" None "delivered"
               "2024-05-01 12:00:00" "2024-05-01 12:00:00").
Proof.
  destruct (store_keeps_the_first_shipment datetime_iso sample_list sample_world
              "9400111105501699999991") as [_ Hnew].
  destruct (store_keeps_the_first_shipment datetime_iso sample_list sample_world
              "9400111105501612819753") as [Hold _].
  split.
  - apply (Hnew eq_refl (mkShipment "9400111105501699999991" "ORD-7") eq_refl).
  - rewrite (Hold eq_refl). reflexivity.
Defined.

Lemma d1_statements_insert : forall datetime now l t,
  d1_statements datetime now (insert_batch l) t = Normal (insert_all now l t).
Proof.
  intros datetime now l. induction l as [|s l IH]; intro t.
  - reflexivity.
  - cbn [insert_batch map d1_statements]. unfold d1_exec, sqlite_exec.
    cbn [bs_sql bs_args]. rewrite prepare_insert.
    cbn [param_count List.length Nat.eqb negb].
    apply IH.
Qed.

(** The store of a list on D1 is the store on the SQLite store: no batch
    for an empty list, so D1 has no empty batch to refuse. *)
Lemma run_storeNewTrackingNumbers_d1 : forall datetime l w,
  run (d1_host datetime) (storeNewTrackingNumbers l) w
  = (Normal tt, with_table w (insert_all (clock w) l (table w)),
     match l with [] => [] | _ :: _ => [D1Batch (insert_batch l)] end).
Proof.
  intros datetime l w. unfold storeNewTrackingNumbers.
  destruct l as [|s l].
  - cbn. rewrite with_table_same. reflexivity.
  - cbn [List.length Nat.eqb run d1_host]. fold (insert_batch (s :: l)).
    unfold d1_batch.
    change (insert_batch (s :: l)) with
      ({| bs_sql := INSERT_SQL;
          bs_args := [trackingNumber s; orderNumber s] |} :: insert_batch l)
      at 1.
    cbv iota. rewrite d1_statements_insert. reflexivity.
Qed.

Lemma stripped_plain : forall v, negated v = false -> stripped v = v.
Proof.
  intros [|c v] H; [reflexivity|]. cbn [negated] in H. cbn [stripped].
  rewrite H. reflexivity.
Qed.

Lemma patterns_fit_only_tracking_number : forall raw,
  patterns_fit (only_tracking_number raw) = value_fits (Some raw).
Proof.
  intro raw. unfold patterns_fit, only_tracking_number.
  cbn [p_tracking_number p_order_number].
  change (value_fits None) with true. apply andb_true_r.
Qed.

Lemma plain_value_fits : forall v,
  v <> "" -> negated v = false ->
  value_fits (Some v) = (String.length v + 2 <=? LIKE_PATTERN_LIMIT)%nat.
Proof.
  intros [|c v] Hne Hneg; [contradiction|].
  unfold value_fits. cbn [truthy]. rewrite (stripped_plain _ Hneg).
  reflexivity.
Qed.

Lemma negated_value_fits : forall v,
  value_fits (Some ("!" ++ v))
  = (String.length v + 2 <=? LIKE_PATTERN_LIMIT)%nat.
Proof. reflexivity. Qed.

Lemma d1_satisfies_only_tracking_number : forall datetime raw r,
  d1_satisfies datetime (only_tracking_number raw) r
  = d1_substring_filter (Some raw) (Some (tracking_number r)).
Proof.
  intros. unfold d1_satisfies, only_tracking_number.
  cbn [p_tracking_number p_order_number p_status p_created_after
       p_created_before].
  unfold status_filter, after_filter, before_filter.
  change (d1_substring_filter None (order_number r)) with true.
  cbn [truthy]. rewrite !andb_true_r. reflexivity.
Qed.

Lemma plain_d1_substring_filter : forall v field,
  v <> "" -> negated v = false ->
  d1_substring_filter (Some v) (Some field) = d1_like ("%" ++ v ++ "%") field.
Proof.
  intros [|c v] field Hne Hneg; [contradiction|].
  unfold d1_substring_filter. cbn [truthy].
  rewrite Hneg, (stripped_plain _ Hneg). reflexivity.
Qed.

Lemma negated_d1_substring_filter : forall v field,
  d1_substring_filter (Some ("!" ++ v)) (Some field)
  = negb (d1_like ("%" ++ v ++ "%") field).
Proof. reflexivity. Qed.

Lemma d1_search_complete : forall datetime q w r,
  patterns_fit q = true ->
  In r (table w) -> d1_satisfies datetime q r = true ->
  In r (d1_search datetime q w) \/ List.length (d1_search datetime q w) = 2000.
Proof.
  intros datetime q w r Hfit Hin Hsat. rewrite d1_search_fit by exact Hfit.
  unfold d1_search_rows.
  destruct (kept_rows_spec (d1_satisfies datetime q) (table w))
    as (_ & Hcomplete & _).
  destruct (Hcomplete r Hin Hsat) as [H | [H _]]; [left | right]; exact H.
Qed.

Lemma d1_search_small : forall datetime q w r,
  patterns_fit q = true ->
  List.length (table w) <= 2000 ->
  (In r (d1_search datetime q w)
   <-> In r (table w) /\ d1_satisfies datetime q r = true).
Proof.
  intros datetime q w r Hfit Hlen. rewrite d1_search_fit by exact Hfit.
  unfold d1_search_rows. split.
  - apply (proj1 (kept_rows_spec (d1_satisfies datetime q) (table w))).
  - intros [Hin Hsat]. rewrite limit_rows_all.
    + apply (Permutation_in _ (Permutation_sym (order_by_created_at_perm _))).
      apply filter_In. split; assumption.
    + rewrite (Permutation_length (order_by_created_at_perm _)).
      pose proof (filter_length_le (d1_satisfies datetime q) (table w)). lia.
Qed.

(** A tracking number filter that is too long for D1 fails the search as
    soon as the table has a row. *)
Lemma handleSearch_d1_too_long : forall datetime q w,
  value_fits (p_tracking_number q) = false ->
  table w <> [] ->
  value_of (run (d1_host datetime) (handleSearch q) w)
  = {| reply_payload :=
         ErrorMessage "D1_ERROR: LIKE or GLOB pattern too complex: SQLITE_ERROR";
       reply_status := 500 |}.
Proof.
  intros datetime q w H Hrow. rewrite handleSearch_run. cbn [d1_host].
  rewrite d1_exec_search.
  destruct (table w) as [|r t]; [contradiction|].
  cbn [d1_scan]. rewrite d1_where_shape, H. reflexivity.
Qed.

(** X10. A stored tracking number is found by searching for it, if it has
    48 bytes at most: after the store of a list, for each shipment of the
    list whose tracking number is not empty and does not begin with [!],
    the table has a row with that tracking number; the search for it
    returns the row, unless it already returns 2000 rows, and this holds
    even when the tracking number holds [%] or [_].  For a tracking number
    of more than 48 bytes the search answers 500. *)
Theorem stored_number_is_found :
  forall (datetime : string -> option string) (l : list ShipmentData)
         (w : World) (s : ShipmentData),
    In s l ->
    trackingNumber s <> "" ->
    negated (trackingNumber s) = false ->
    exists r,
      In r (table (world_of (run (d1_host datetime)
                               (storeNewTrackingNumbers l) w)))
      /\ tracking_number r = trackingNumber s
      /\ (String.length (trackingNumber s) <= 48 ->
          In r (d1_search datetime (only_tracking_number (trackingNumber s))
                  (world_of (run (d1_host datetime)
                               (storeNewTrackingNumbers l) w)))
          \/ List.length
               (d1_search datetime (only_tracking_number (trackingNumber s))
                  (world_of (run (d1_host datetime)
                               (storeNewTrackingNumbers l) w)))
             = 2000)
      /\ (48 < String.length (trackingNumber s) ->
          reply_status
            (value_of
               (run (d1_host datetime)
                  (handleSearch (only_tracking_number (trackingNumber s)))
                  (world_of (run (d1_host datetime)
                               (storeNewTrackingNumbers l) w))))
          = 500%N).
Proof.
  intros datetime l w s Hs Hne Hneg.
  rewrite run_storeNewTrackingNumbers_d1. unfold world_of. cbn [fst snd].
  pose proof (insert_all_has (clock w) l (table w) s Hs) as Hhas.
  apply has_tracking_number_spec in Hhas. unfold keys in Hhas.
  apply in_map_iff in Hhas. destruct Hhas as (r & Hkey & Hin).
  exists r. split; [exact Hin|]. split; [exact Hkey|].
  pose proof (plain_value_fits _ Hne Hneg) as Hfits.
  unfold LIKE_PATTERN_LIMIT in Hfits. split.
  - intro Hlen. apply d1_search_complete.
    + rewrite patterns_fit_only_tracking_number, Hfits.
      apply Nat.leb_le. lia.
    + exact Hin.
    + rewrite d1_satisfies_only_tracking_number, Hkey.
      rewrite plain_d1_substring_filter by assumption.
      apply d1_like_itself.
  - intro Hlen. rewrite handleSearch_d1_too_long; [reflexivity| |].
    + cbn [only_tracking_number p_tracking_number]. rewrite Hfits.
      apply Nat.leb_gt. lia.
    + cbn [table with_table]. intro E. rewrite E in Hin. destruct Hin.
Qed.

Lemma stored_number_is_found_witness :
  exists r,
    In r (table (world_of (run (d1_host datetime_iso)
                             (storeNewTrackingNumbers sample_list) sample_world)))
    /\ tracking_number r = "9400111105501699999991"
    /\ (In r (d1_search datetime_iso
                (only_tracking_number "9400111105501699999991")
                (world_of (run (d1_host datetime_iso)
                             (storeNewTrackingNumbers sample_list) sample_world)))
        \/ List.length
             (d1_search datetime_iso
                (only_tracking_number "9400111105501699999991")
                (world_of (run (d1_host datetime_iso)
                             (storeNewTrackingNumbers sample_list) sample_world)))
           = 2000).
Proof.
  destruct (stored_number_is_found datetime_iso sample_list sample_world
              (mkShipment "9400111105501699999991" "ORD-7"))
    as (r & Hin & Hkey & Hfound & _).
  - right. left. reflexivity.
  - discriminate.
  - reflexivity.
  - exists r. split; [exact Hin|]. split; [exact Hkey|].
    apply Hfound. cbn. lia.
Defined.

(** X11. For a value [v] of 48 bytes at most that is not empty and does
    not begin with [!], the searches for [v] and for [!v] on the tracking
    number split the table: when the table has at most 2000 rows, each row
    is returned by exactly one of the two. *)
Theorem plain_and_negated_split_the_table :
  forall (datetime : string -> option string) (v : string) (w : World)
         (r : TrackingNumber),
    v <> "" -> negated v = false ->
    String.length v <= 48 ->
    List.length (table w) <= 2000 ->
    In r (table w) ->
    (In r (d1_search datetime (only_tracking_number v) w)
     <-> ~ In r (d1_search datetime (only_tracking_number ("!" ++ v)) w)).
Proof.
  intros datetime v w r Hne Hneg Hv Hlen Hin.
  assert ((String.length v + 2 <=? LIKE_PATTERN_LIMIT)%nat = true) as Hfit
    by (apply Nat.leb_le; unfold LIKE_PATTERN_LIMIT; lia).
  rewrite !d1_search_small;
    try exact Hlen;
    try (rewrite patterns_fit_only_tracking_number;
         first [ rewrite negated_value_fits; exact Hfit
               | rewrite plain_value_fits by assumption; exact Hfit ]).
  rewrite !d1_satisfies_only_tracking_number, negated_d1_substring_filter.
  rewrite plain_d1_substring_filter by assumption.
  destruct (d1_like ("%" ++ v ++ "%") (tracking_number r)); cbn [negb]; split.
  - intros _ [_ H]. discriminate.
  - intros _. split; [exact Hin | reflexivity].
  - intros [_ H]. discriminate.
  - intros H. exfalso. apply H. split; [exact Hin | reflexivity].
Qed.

Lemma plain_and_negated_split_the_table_witness :
  In (mkRow "9400111105501612009154" None "pending"
        "2024-05-01 12:00:00" "2024-05-01 12:00:00")
     (d1_search datetime_iso (only_tracking_number "9154") sample_world)
  <-> ~ In (mkRow "9400111105501612009154" None "pending"
              "2024-05-01 12:00:00" "2024-05-01 12:00:00")
           (d1_search datetime_iso (only_tracking_number "!9154") sample_world).
Proof.
  apply (plain_and_negated_split_the_table datetime_iso "9154" sample_world).
  - discriminate.
  - reflexivity.
  - cbn. lia.
  - cbn. lia.
  - left. reflexivity.
Defined.

(** X12. A row whose order number is NULL is returned by no search that
    has an order number filter, negated or not. *)
Theorem null_order_number_matches_no_filter :
  forall (datetime : string -> option string) (q : SearchParams) (w : World)
         (r : TrackingNumber),
    supplied (p_order_number q) = true ->
    In r (search datetime q w) ->
    order_number r <> None.
Proof.
  intros datetime q w r Hsup Hin Hnull.
  rewrite search_is_search_rows in Hin.
  apply search_rows_satisfy in Hin. destruct Hin as [_ Hsat].
  apply satisfies_parts in Hsat. destruct Hsat as (_ & Hon & _).
  unfold substring_filter in Hon. unfold supplied in Hsup.
  destruct (truthy (p_order_number q)); [|discriminate].
  rewrite Hnull in Hon. discriminate.
Qed.

Lemma null_order_number_matches_no_filter_witness :
  search datetime_iso (only_order_number "!ORD") sample_world = []
  /\ (forall r, In r (search datetime_iso (only_order_number "!ORD") sample_world) ->
        order_number r <> None).
Proof.
  split.
  - vm_compute. reflexivity.
  - intros r Hr.
    exact (null_order_number_matches_no_filter datetime_iso
             (only_order_number "!ORD") sample_world r eq_refl Hr).
Defined.

Lemma eligible_rows_In : forall terminal limit t r,
  In r (eligible_rows terminal limit t) ->
  In r t /\ status r <> terminal.
Proof.
  intros terminal limit t r H. unfold eligible_rows in H.
  apply limit_rows_In in H. apply filter_In in H. destruct H as [Hin Hst].
  split; [exact Hin|]. intro E. rewrite E, String.eqb_refl in Hst.
  discriminate.
Qed.

Lemma eligible_rows_small : forall terminal limit t r,
  List.length t <= N.to_nat limit ->
  In r t -> status r <> terminal ->
  In r (eligible_rows terminal limit t).
Proof.
  intros terminal limit t r Hlen Hin Hst. unfold eligible_rows.
  rewrite limit_rows_all.
  - apply filter_In. split; [exact Hin|].
    apply String.eqb_neq in Hst. rewrite Hst. reflexivity.
  - pose proof (filter_length_le
                  (fun r => negb (status r =? terminal)) t). lia.
Qed.

Lemma reconciled_status : forall now updates r st,
  last_status_for (tracking_number r) updates = Some st ->
  status (reconciled now updates r) = st.
Proof. intros now updates r st H. unfold reconciled. rewrite H. reflexivity. Qed.

(** X13. After a batch of status updates, the tracking URLs are made of
    the rows as updated: a tracking number whose last entry in the batch
    has the status [delivered] is in no URL, and one whose last entry has
    any other status (['Delivered'] with a capital too) and which the
    table has is in them, when the table has at most 2000 rows. *)
Theorem delivered_numbers_leave_the_urls :
  forall (datetime : string -> option string) (updates : list StatusUpdate)
         (w : World) (tn : string),
    value_of (run (host datetime) handleGetTrackingUrls
                (world_of (run (host datetime)
                             (handleStatusUpdates (Normal updates)) w)))
    = {| reply_payload :=
           Urls (trackingUrls
                   (eligible_rows "delivered" 2000
                      (map (reconciled (clock w) updates) (table w))));
         reply_status := 200 |}
    /\ (last_status_for tn updates = Some "delivered" ->
        ~ In tn (map tracking_number
                   (eligible_rows "delivered" 2000
                      (map (reconciled (clock w) updates) (table w)))))
    /\ (forall st,
          last_status_for tn updates = Some st -> st <> "delivered" ->
          has_tracking_number tn (table w) = true ->
          List.length (table w) <= 2000 ->
          In tn (map tracking_number
                   (eligible_rows "delivered" 2000
                      (map (reconciled (clock w) updates) (table w))))).
Proof.
  intros datetime updates w tn. split; [|split].
  - rewrite run_handleStatusUpdates. unfold world_of. cbn [fst snd].
    unfold handleGetTrackingUrls.
    rewrite (run_handleGetTrackingUrlsWith _ _ _ _ _ prepare_tracking_urls).
    reflexivity.
  - intros Hlast Hin. apply in_map_iff in Hin.
    destruct Hin as (r' & Hkey & Hr'). apply eligible_rows_In in Hr'.
    destruct Hr' as [Hin Hst]. apply in_map_iff in Hin.
    destruct Hin as (r & <- & _).
    destruct (reconciled_fields (clock w) updates r) as (Ek & _ & _).
    rewrite Ek in Hkey. rewrite <- Hkey in Hlast.
    apply Hst. apply reconciled_status. exact Hlast.
  - intros st Hlast Hst Hhas Hlen.
    apply has_tracking_number_spec in Hhas. unfold keys in Hhas.
    apply in_map_iff in Hhas. destruct Hhas as (r & Hkey & Hin).
    apply in_map_iff. exists (reconciled (clock w) updates r). split.
    + destruct (reconciled_fields (clock w) updates r) as (Ek & _ & _).
      rewrite Ek. exact Hkey.
    + apply eligible_rows_small.
      * rewrite length_map. lia.
      * apply in_map. exact Hin.
      * rewrite <- Hkey in Hlast.
        rewrite (reconciled_status _ _ _ _ Hlast). exact Hst.
Qed.

Lemma delivered_numbers_leave_the_urls_witness :
  ~ In "9400111105501612009154"
      (map tracking_number
         (eligible_rows "delivered" 2000
            (map (reconciled (clock sample_world) sample_updates)
               (table sample_world))))
  /\ value_of (run (host datetime_iso) handleGetTrackingUrls
                 (world_of (run (host datetime_iso)
                              (handleStatusUpdates (Normal sample_updates))
                              sample_world)))
     = {| reply_payload :=
            Urls [USPS_PREFIX
                  ++ "9400111105501612835722%2C9400111105501612849477"];
          reply_status := 200 |}.
Proof.
  destruct (delivered_numbers_leave_the_urls datetime_iso sample_updates
              sample_world "9400111105501612009154") as (Hurls & Hout & _).
  split.
  - apply Hout. reflexivity.
  - rewrite Hurls. vm_compute. reflexivity.
Defined.

(* ================================================================== *)
(** * Parsing a filter value, and the fixed error texts                *)
(* ================================================================== *)

(** X14. [parseSearchValue] gives one of the two operations [=] and [!=]
    and loses nothing of the value: with [=] the value is the input, which
    does not begin with [!]; with [!=] the input is [!] followed by the
    value, so only the first [!] is taken off. *)
Theorem parseSearchValue_keeps_the_value :
  forall raw : string,
    (fst (parseSearchValue raw) = "="
     /\ snd (parseSearchValue raw) = raw
     /\ negated raw = false)
    \/ (fst (parseSearchValue raw) = "!="
        /\ raw = "!" ++ snd (parseSearchValue raw)
        /\ negated raw = true).
Proof.
  intros [|c rest]; [left; repeat split|].
  unfold parseSearchValue, negated.
  destruct (Ascii.eqb c "!") eqn:E.
  - right. apply Ascii.eqb_eq in E. subst c. repeat split.
  - left. repeat split.
Qed.

(** X15. The handlers of the tracking URLs and of the status updates never
    pass on what was thrown: on every store, whatever it throws, and on a
    body that is not JSON, their error reply is their own fixed text with
    status 500; and a body that is not JSON makes no call of the store. *)
Theorem urls_and_updates_errors_are_fixed_texts :
  forall (W : Type) (h : Handler W) (w : W)
         (body : Completion (list StatusUpdate)) (m : string),
    (reply_payload (value_of (run h handleGetTrackingUrls w)) = ErrorMessage m ->
       m = "Failed to get tracking URLs"
       /\ reply_status (value_of (run h handleGetTrackingUrls w)) = 500%N)
    /\ (reply_payload (value_of (run h (handleStatusUpdates body) w))
        = ErrorMessage m ->
        m = "Failed to update statuses"
        /\ reply_status (value_of (run h (handleStatusUpdates body) w)) = 500%N)
    /\ (forall e, body = Throw e ->
          run h (handleStatusUpdates body) w
          = ({| reply_payload := ErrorMessage "Failed to update statuses";
                reply_status := 500 |}, w, [])).
Proof.
  intros W h w body m. split; [|split].
  - unfold handleGetTrackingUrls, handleGetTrackingUrlsWith. cbn [run].
    destruct (h (D1All TRACKING_URLS_SQL []) w) as [a w1].
    unfold value_of. destruct a; cbn [fst reply_payload reply_status].
    + discriminate.
    + intro H. injection H as <-. split; reflexivity.
  - unfold handleStatusUpdates. destruct body as [updates | e].
    + cbn [run]. destruct (h (D1Batch _) w) as [a w1].
      unfold value_of. destruct a; cbn [fst reply_payload reply_status].
      * discriminate.
      * intro H. injection H as <-. split; reflexivity.
    + unfold value_of. cbn [run fst reply_payload reply_status].
      intro H. injection H as <-. split; reflexivity.
  - intros e ->. reflexivity.
Qed.

Lemma urls_and_updates_errors_are_fixed_texts_witness :
  reply_payload
    (value_of (run (failing_store
                      (ThrownError "D1_ERROR: no such table: tracking_numbers"))
                 (handleStatusUpdates (Normal sample_updates)) tt))
  = ErrorMessage "Failed to update statuses"
  /\ reply_status
       (value_of (run (failing_store
                         (ThrownError "D1_ERROR: no such table: tracking_numbers"))
                    (handleStatusUpdates (Normal sample_updates)) tt))
     = 500%N.
Proof.
  assert (reply_payload
            (value_of (run (failing_store
                              (ThrownError
                                 "D1_ERROR: no such table: tracking_numbers"))
                         (handleStatusUpdates (Normal sample_updates)) tt))
          = ErrorMessage "Failed to update statuses") as E
    by (vm_compute; reflexivity).
  split; [exact E|].
  destruct (urls_and_updates_errors_are_fixed_texts unit
              (failing_store
                 (ThrownError "D1_ERROR: no such table: tracking_numbers"))
              tt (Normal sample_updates) "Failed to update statuses")
    as (_ & H & _).
  exact (proj2 (H E)).
Defined.
